(** * Project / task tracker: the in-memory model and its derived views

    A shallow embedding of [script.js]: the [Project] and [Task] classes,
    [StorageManager], [ProjectManager], [TaskManager] and the month grid
    of [CalendarManager], followed by the properties of the specification
    that concern them.

    Conventions of the embedding.
    - A JavaScript class becomes a module; its methods keep their names.
    - Integral Numbers are [Z]; [NaN] is [None] in [number].  The only
      non-integral arithmetic of the program, the percentage of
      [Project.getProgress], is computed in IEEE-754 binary64 with the
      operations of [SpecFloat].
    - Strings are [string]; [===] on strings is [String.eqb].
    - Objects that the program mutates in place live in the [World]; a
      method is a function from the world to a completion (normal or
      abrupt) and the world it leaves behind. *)

From Stdlib Require Import ZArith Ascii String List Bool Lia Permutation.
From Stdlib Require Import DecimalString DecimalZ DecimalPos.
From Stdlib Require Import Floats.SpecFloat.
Import ListNotations.

Local Open Scope string_scope.
Local Open Scope list_scope.
Local Open Scope Z_scope.

(** ** JavaScript values and numbers *)

(** Strict equality of two strings. *)
Infix "===" := String.eqb (at level 70, no associativity).

(** An integral Number or [NaN]. *)
Definition number := option Z.

Definition NaN : number := None.

(** The values a date-like field ([dueDate], [deadline]) holds: the text
    of a form input, or nothing when the record came without the field. *)
Inductive value :=
| undefined
| null
| str (s : string).

(** ToBoolean: [undefined], [null] and the empty string are falsy. *)
Definition truthy (v : value) : bool :=
  match v with
  | str s => negb (s === "")
  | _ => false
  end.

(** [n.toString()] for an integral Number. *)
Definition toString (n : Z) : string :=
  NilZero.string_of_int (Z.to_int n).

(** [a < b] on Numbers: false as soon as one side is [NaN]. *)
Definition lt (a b : number) : bool :=
  match a, b with
  | Some x, Some y => x <? y
  | _, _ => false
  end.

(** [new Date(v)] for a date-like field, as a time value in milliseconds:
    a string is parsed by [Date.parse], [null] is the epoch, [undefined]
    gives an invalid date. *)
Definition Date_of_value (Date_parse : string -> number) (v : value) : number :=
  match v with
  | str s => Date_parse s
  | null => Some 0
  | undefined => NaN
  end.

(** One property of [Object.assign(target, source)]: the source's value
    when the source has the key, the target's own value otherwise. *)
Definition field {A : Type} (source : option A) (target : A) : A :=
  match source with
  | Some v => v
  | None => target
  end.

(** ** IEEE-754 binary64 *)

Module Double.

Definition prec : Z := 53.
Definition emax : Z := 1024.

Definition t := spec_float.

(** The double nearest to an integer (exact below 2^53). *)
Definition of_Z (z : Z) : t := binary_normalize prec emax z 0 false.

Definition div (x y : t) : t := SFdiv prec emax x y.
Definition mul (x y : t) : t := SFmul prec emax x y.

(** [Math.round]: the integer closest to [x], ties towards +infinity,
    that is floor(x + 1/2) computed exactly.  [NaN] and the infinities,
    which [Math.round] returns unchanged, are not integers. *)
Definition round (x : t) : number :=
  match x with
  | S754_zero _ => Some 0
  | S754_finite s m e =>
      let sm := if s then Z.neg m else Z.pos m in
      if 0 <=? e then Some (sm * 2 ^ e)
      else Some ((2 * sm + 2 ^ (- e)) / (2 * 2 ^ (- e)))
  | _ => None
  end.

End Double.

(** ** class Task *)

Module Task.

Record t := mk {
  id : string;
  projectId : string;
  name : string;
  description : string;
  status : string;
  priority : string;
  dueDate : value;
  assignee : string;
  completed : bool;
  createdAt : Z
}.

(** [constructor(id, projectId, name, description, status, priority,
    dueDate, assignee)]; [now] is the value of [new Date()]. *)
Definition new (now : Z) (id projectId name description status priority : string)
    (dueDate : value) (assignee : string) : t :=
  {| id := id; projectId := projectId; name := name;
     description := description; status := status; priority := priority;
     dueDate := dueDate; assignee := assignee;
     completed := status === "Done";
     createdAt := now |}.

(** A partial update: the object literal handed to [updateTask].  A
    field is [Some v] when the literal has the key, [None] when it does
    not. *)
Record partial := mkPartial {
  id' : option string;
  projectId' : option string;
  name' : option string;
  description' : option string;
  status' : option string;
  priority' : option string;
  dueDate' : option value;
  assignee' : option string;
  completed' : option bool;
  createdAt' : option Z
}.

(** [Object.assign(task, data)]: every key of [data] overwrites the
    field of the same name. *)
Definition assign (task : t) (data : partial) : t :=
  {| id := field (id' data) (id task);
     projectId := field (projectId' data) (projectId task);
     name := field (name' data) (name task);
     description := field (description' data) (description task);
     status := field (status' data) (status task);
     priority := field (priority' data) (priority task);
     dueDate := field (dueDate' data) (dueDate task);
     assignee := field (assignee' data) (assignee task);
     completed := field (completed' data) (completed task);
     createdAt := field (createdAt' data) (createdAt task) |}.

(** [task.completed = b] *)
Definition set_completed (task : t) (b : bool) : t :=
  {| id := id task; projectId := projectId task; name := name task;
     description := description task; status := status task;
     priority := priority task; dueDate := dueDate task;
     assignee := assignee task; completed := b;
     createdAt := createdAt task |}.

(** [isOverdue()]; [now] is the time value of [new Date()]. *)
Definition isOverdue (Date_parse : string -> number) (now : Z) (this : t)
    : bool :=
  if negb (truthy (dueDate this)) || completed this then false
  else lt (Date_of_value Date_parse (dueDate this)) (Some now).

End Task.

(** ** class Project *)

Module Project.

Record t := mk {
  id : string;
  name : string;
  description : string;
  status : string;
  priority : string;
  deadline : value;
  createdAt : Z;
  tasks : list Task.t
}.

Definition new (id name description status priority : string)
    (deadline : value) (createdAt : Z) : t :=
  {| id := id; name := name; description := description;
     status := status; priority := priority; deadline := deadline;
     createdAt := createdAt; tasks := [] |}.

(** The object literal handed to [updateProject]. *)
Record partial := mkPartial {
  id' : option string;
  name' : option string;
  description' : option string;
  status' : option string;
  priority' : option string;
  deadline' : option value;
  createdAt' : option Z;
  tasks' : option (list Task.t)
}.

(** [Object.assign(project, data)] *)
Definition assign (project : t) (data : partial) : t :=
  {| id := field (id' data) (id project);
     name := field (name' data) (name project);
     description := field (description' data) (description project);
     status := field (status' data) (status project);
     priority := field (priority' data) (priority project);
     deadline := field (deadline' data) (deadline project);
     createdAt := field (createdAt' data) (createdAt project);
     tasks := field (tasks' data) (tasks project) |}.

(** [project.tasks = ts] *)
Definition set_tasks (project : t) (ts : list Task.t) : t :=
  {| id := id project; name := name project;
     description := description project; status := status project;
     priority := priority project; deadline := deadline project;
     createdAt := createdAt project; tasks := ts |}.

(** [getProgress()] *)
Definition getProgress (this : t) : number :=
  if (Z.of_nat (List.length (tasks this)) =? 0) then Some 0
  else
    let completed :=
      List.length (filter (fun t => Task.status t === "Done") (tasks this)) in
    Double.round
      (Double.mul
         (Double.div (Double.of_Z (Z.of_nat completed))
                     (Double.of_Z (Z.of_nat (List.length (tasks this)))))
         (Double.of_Z 100)).

End Project.

(** ** Arrays *)

(** [array.push(x)] *)
Definition push {A : Type} (x : A) (array : list A) : list A := array ++ [x].

(** In-place mutation of the element that [array.find(p)] returns: the
    first element that satisfies [p] is replaced by its image under [f],
    every other position is left alone. *)
Fixpoint mutate_found {A : Type} (p : A -> bool) (f : A -> A) (array : list A)
    : list A :=
  match array with
  | [] => []
  | x :: rest => if p x then f x :: rest else x :: mutate_found p f rest
  end.

(** ** The Date object

    Day numbers and calendar fields follow the definitions of ECMA-262
    (Time Values and Time Range, Year Number, Month Number, Date Number,
    Week Day, MakeDay, MakeDate, TimeClip).  The methods of this module
    read a time value as it stands: they are the methods of a host whose
    local time is UTC.  [LocalDate] below has the methods for which the
    offset of the host matters to a caller in this program. *)

Module Date.

Definition msPerDay : Z := 86400000.

Definition Day (t : Z) : Z := t / msPerDay.

Definition DaysInYear (y : Z) : Z :=
  if negb (y mod 4 =? 0) then 365
  else if negb (y mod 100 =? 0) then 366
  else if negb (y mod 400 =? 0) then 365
  else 366.

Definition DayFromYear (y : Z) : Z :=
  365 * (y - 1970) + (y - 1969) / 4 - (y - 1901) / 100 + (y - 1601) / 400.

Definition TimeFromYear (y : Z) : Z := msPerDay * DayFromYear y.

(** The largest [y] with [TimeFromYear y <= t]: an estimate from the
    mean length of a year, corrected by at most one. *)
Definition YearFromTime (t : Z) : Z :=
  let y := 1970 + (400 * Day t) / 146097 in
  if t <? TimeFromYear y then y - 1
  else if TimeFromYear (y + 1) <=? t then y + 1
  else y.

Definition InLeapYear (t : Z) : Z :=
  if DaysInYear (YearFromTime t) =? 366 then 1 else 0.

Definition DayWithinYear (t : Z) : Z :=
  Day t - DayFromYear (YearFromTime t).

Definition MonthFromTime (t : Z) : Z :=
  let d := DayWithinYear t in
  let leap := InLeapYear t in
  if d <? 31 then 0
  else if d <? 59 + leap then 1
  else if d <? 90 + leap then 2
  else if d <? 120 + leap then 3
  else if d <? 151 + leap then 4
  else if d <? 181 + leap then 5
  else if d <? 212 + leap then 6
  else if d <? 243 + leap then 7
  else if d <? 273 + leap then 8
  else if d <? 304 + leap then 9
  else if d <? 334 + leap then 10
  else 11.

Definition DateFromTime (t : Z) : Z :=
  let d := DayWithinYear t in
  let leap := InLeapYear t in
  match MonthFromTime t with
  | 0 => d + 1
  | 1 => d - 30
  | 2 => d - 58 - leap
  | 3 => d - 89 - leap
  | 4 => d - 119 - leap
  | 5 => d - 150 - leap
  | 6 => d - 180 - leap
  | 7 => d - 211 - leap
  | 8 => d - 242 - leap
  | 9 => d - 272 - leap
  | 10 => d - 303 - leap
  | _ => d - 333 - leap
  end.

Definition WeekDay (t : Z) : Z := (Day t + 4) mod 7.

(** The day within its year on which month [mn] (0..11) starts. *)
Definition MonthStart (leap mn : Z) : Z :=
  match mn with
  | 0 => 0
  | 1 => 31
  | 2 => 59 + leap
  | 3 => 90 + leap
  | 4 => 120 + leap
  | 5 => 151 + leap
  | 6 => 181 + leap
  | 7 => 212 + leap
  | 8 => 243 + leap
  | 9 => 273 + leap
  | 10 => 304 + leap
  | _ => 334 + leap
  end.

(** MakeDay: the day number of the first of month [month mod 12] in
    year [year + floor(month / 12)], moved by [date - 1] days. *)
Definition MakeDay (year month date : Z) : Z :=
  let ym := year + month / 12 in
  let mn := month mod 12 in
  let leap := if DaysInYear ym =? 366 then 1 else 0 in
  DayFromYear ym + MonthStart leap mn + date - 1.

Definition MakeDate (day time : Z) : Z := day * msPerDay + time.

Definition TimeClip (time : Z) : number :=
  if Z.abs time >? 8640000000000000 then NaN else Some time.

(** A Date object is its time value; [NaN] is an invalid date. *)
Definition t := number.

(** [new Date(year, month, date)]: a year from 0 to 99 means
    1900 + year. *)
Definition new (year month date : Z) : t :=
  let yr := if (0 <=? year) && (year <=? 99) then 1900 + year else year in
  TimeClip (MakeDate (MakeDay yr month date) 0).

(** [getDay()] *)
Definition getDay (this : t) : number := option_map WeekDay this.

(** [getDate()] *)
Definition getDate (this : t) : number := option_map DateFromTime this.

(** [getMonth()] *)
Definition getMonth (this : t) : number := option_map MonthFromTime this.

(** [getFullYear()] *)
Definition getFullYear (this : t) : number := option_map YearFromTime this.

Definition TimeWithinDay (t : Z) : Z := t mod msPerDay.

(** ToZeroPaddedDecimalString *)
Definition ToZeroPaddedDecimalString (n : Z) (minLength : nat) : string :=
  let S := NilZero.string_of_int (Z.to_int n) in
  String.append
    (string_of_list_ascii (repeat "0"%char (minLength - String.length S))) S.

Definition WeekDayName (d : Z) : string :=
  match d with
  | 0 => "Sun" | 1 => "Mon" | 2 => "Tue" | 3 => "Wed"
  | 4 => "Thu" | 5 => "Fri" | _ => "Sat"
  end.

Definition MonthName (m : Z) : string :=
  match m with
  | 0 => "Jan" | 1 => "Feb" | 2 => "Mar" | 3 => "Apr" | 4 => "May"
  | 5 => "Jun" | 6 => "Jul" | 7 => "Aug" | 8 => "Sep" | 9 => "Oct"
  | 10 => "Nov" | _ => "Dec"
  end.

(** DateString *)
Definition DateString (tv : Z) : string :=
  let weekday := WeekDayName (WeekDay tv) in
  let month := MonthName (MonthFromTime tv) in
  let day := ToZeroPaddedDecimalString (DateFromTime tv) 2 in
  let yv := YearFromTime tv in
  let yearSign := if 0 <=? yv then "" else "-" in
  let paddedYear := ToZeroPaddedDecimalString (Z.abs yv) 4 in
  String.append weekday
    (String.append " "
       (String.append month
          (String.append " "
             (String.append day
                (String.append " " (String.append yearSign paddedYear)))))).

(** [toDateString()] *)
Definition toDateString (this : t) : string :=
  match this with
  | Some tv => DateString tv
  | None => "Invalid Date"
  end.

Definition HourFromTime (t : Z) : Z := (t / 3600000) mod 24.

Definition MinFromTime (t : Z) : Z := (t / 60000) mod 60.

Definition SecFromTime (t : Z) : Z := (t / 1000) mod 60.

Definition msFromTime (t : Z) : Z := t mod 1000.

(** [toISOString()] of a valid date: [YYYY-MM-DDTHH:mm:ss.sssZ] in UTC,
    the year with a sign and six digits when it is outside 0..9999. *)
Definition toISOString (tv : Z) : string :=
  let yv := YearFromTime tv in
  let year :=
    if (0 <=? yv) && (yv <=? 9999) then ToZeroPaddedDecimalString yv 4
    else
      String.append (if 0 <=? yv then "+" else "-")
        (ToZeroPaddedDecimalString (Z.abs yv) 6) in
  String.concat ""
    [year; "-"; ToZeroPaddedDecimalString (MonthFromTime tv + 1) 2;
     "-"; ToZeroPaddedDecimalString (DateFromTime tv) 2;
     "T"; ToZeroPaddedDecimalString (HourFromTime tv) 2;
     ":"; ToZeroPaddedDecimalString (MinFromTime tv) 2;
     ":"; ToZeroPaddedDecimalString (SecFromTime tv) 2;
     "."; ToZeroPaddedDecimalString (msFromTime tv) 3; "Z"].

End Date.

(** ** Local time

    On a host whose local time is not UTC the methods of a Date that
    read or write local fields go through [LocalTime] and [UTC] of
    ECMA-262, which move a time value by the offset of the host,
    [LocalTZA(t, isUTC)], in milliseconds.  The three methods whose
    result, as [CalendarManager] uses it, depends on the offset are given
    here with that offset as a parameter. *)

Module LocalDate.

Section Zone.

Variable LocalTZA : Z -> bool -> Z.

Definition LocalTime (t : Z) : Z := t + LocalTZA t true.

Definition UTC (t : Z) : Z := t - LocalTZA t false.

(** [getMonth()] *)
Definition getMonth (this : Date.t) : number :=
  option_map (fun t => Date.MonthFromTime (LocalTime t)) this.

(** [setMonth(month)]: the day of the month and the time of day of the
    local time are kept, in month [month] of its year; MakeDay carries a
    month outside 0..11 into the neighbouring years and a day past the
    end of the month into the next month.  The new time value is
    returned. *)
Definition setMonth (this : Date.t) (month : number) : Date.t :=
  match this, month with
  | Some t, Some m =>
      let t := LocalTime t in
      let newDate :=
        Date.MakeDate (Date.MakeDay (Date.YearFromTime t) m (Date.DateFromTime t))
                      (Date.TimeWithinDay t) in
      Date.TimeClip (UTC newDate)
  | _, _ => NaN
  end.

(** [toDateString()] *)
Definition toDateString (this : Date.t) : string :=
  match this with
  | Some tv => Date.DateString (LocalTime tv)
  | None => "Invalid Date"
  end.

End Zone.

End LocalDate.

(** ** JSON

    What [JSON.parse(JSON.stringify(data))] gives back for a collection:
    plain objects with the own fields of the projects and of their tasks.
    A Date comes back as the string of its [toISOString()]; a field whose
    value is [undefined] is left out by [stringify] and reads as
    [undefined] afterwards; and the objects have lost their class, so that
    a task read back is a record of fields without the method
    [isOverdue]. *)

Module PlainTask.

Record t := mk {
  id : string;
  projectId : string;
  name : string;
  description : string;
  status : string;
  priority : string;
  dueDate : value;
  assignee : string;
  completed : bool;
  createdAt : value
}.

End PlainTask.

Module PlainProject.

Record t := mk {
  id : string;
  name : string;
  description : string;
  status : string;
  priority : string;
  deadline : value;
  createdAt : value;
  tasks : list PlainTask.t
}.

End PlainProject.

Module JSON.

(** The Date of [createdAt], whose time value [new Date()] has clipped:
    [toJSON()] gives the ISO string, and [null] for an invalid date. *)
Definition date (tv : Z) : value :=
  match Date.TimeClip tv with
  | Some tv => str (Date.toISOString tv)
  | None => null
  end.

Definition task (t : Task.t) : PlainTask.t :=
  {| PlainTask.id := Task.id t; PlainTask.projectId := Task.projectId t;
     PlainTask.name := Task.name t;
     PlainTask.description := Task.description t;
     PlainTask.status := Task.status t; PlainTask.priority := Task.priority t;
     PlainTask.dueDate := Task.dueDate t;
     PlainTask.assignee := Task.assignee t;
     PlainTask.completed := Task.completed t;
     PlainTask.createdAt := date (Task.createdAt t) |}.

Definition project (p : Project.t) : PlainProject.t :=
  {| PlainProject.id := Project.id p; PlainProject.name := Project.name p;
     PlainProject.description := Project.description p;
     PlainProject.status := Project.status p;
     PlainProject.priority := Project.priority p;
     PlainProject.deadline := Project.deadline p;
     PlainProject.createdAt := date (Project.createdAt p);
     PlainProject.tasks := map task (Project.tasks p) |}.

(** [JSON.parse(JSON.stringify(data))] *)
Definition parse_stringify (data : list Project.t) : list PlainProject.t :=
  map project data.

End JSON.

(** ** The world and its effects *)

(** What [setItem] is given for a key: the text [JSON.stringify(data)],
    held here as the collection [data] that was serialised, as it was at
    the time of the call.  Reading the text back does not give [data]
    again but [JSON.parse_stringify data]. *)
Definition document := list Project.t.

(** - [projects]: the array [projectManager.projects];
    - [localStorage]: the [setItem] calls made so far, latest first, so
      that [getItem] is the first entry under the key. *)
Record World := mkWorld {
  projects : list Project.t;
  localStorage : list (string * document)
}.

(** What the browser decides: how [Date.parse] reads a string, and
    whether [localStorage.setItem] still has room for a document. *)
Record Host := mkHost {
  Date_parse : string -> number;
  has_room : list (string * document) -> string -> document -> bool
}.

Inductive exception :=
| QuotaExceededError.

Inductive completion (A : Type) :=
| Normal (v : A)
| Throw (e : exception).

Arguments Normal {A} v.
Arguments Throw {A} e.

Definition M (A : Type) := World -> completion A * World.

Definition ret {A : Type} (v : A) : M A := fun w => (Normal v, w).

Definition bind {A B : Type} (m : M A) (k : A -> M B) : M B :=
  fun w =>
    match m w with
    | (Normal v, w') => k v w'
    | (Throw e, w') => (Throw e, w')
    end.

Notation "x <- m ;; k" := (bind m (fun x => k))
  (at level 61, m at next level, right associativity).
Notation "m ;;; k" := (bind m (fun _ => k))
  (at level 61, right associativity).

Definition get_projects : M (list Project.t) :=
  fun w => (Normal (projects w), w).

Definition set_projects (ps : list Project.t) : M unit :=
  fun w => (Normal tt, {| projects := ps; localStorage := localStorage w |}).

(** ** class StorageManager *)

Module StorageManager.

(** [save(key, data)]: [localStorage.setItem(key, JSON.stringify(data))],
    which throws when the quota is exceeded. *)
Definition save (h : Host) (key : string) (data : document) : M unit :=
  fun w =>
    if has_room h (localStorage w) key data
    then (Normal tt,
          {| projects := projects w;
             localStorage := (key, data) :: localStorage w |})
    else (Throw QuotaExceededError, w).

(** [load(key)]: [JSON.parse] of the item under the key, [None] ([null])
    when there is none. *)
Definition load (key : string) (w : World) : option (list PlainProject.t) :=
  option_map (fun kv => JSON.parse_stringify (snd kv))
    (find (fun kv => fst kv === key) (localStorage w)).

(** [remove(key)]: [localStorage.removeItem(key)] *)
Definition remove (key : string) : M unit :=
  fun w =>
    (Normal tt,
     {| projects := projects w;
        localStorage :=
          filter (fun kv => negb (fst kv === key)) (localStorage w) |}).

End StorageManager.

(** ** class ProjectManager *)

Module ProjectManager.

(** [saveProjects()] *)
Definition saveProjects (h : Host) : M unit :=
  ps <- get_projects ;;
  StorageManager.save h "projects" ps.

(** [getProject(id)] *)
Definition getProject (w : World) (id : string) : option Project.t :=
  find (fun p => Project.id p === id) (projects w).

(** [createProject(name, description, status, priority, deadline)];
    [now] is the clock reading of [Date.now()] and [new Date()]. *)
Definition createProject (h : Host) (now : Z)
    (name description status priority : string) (deadline : value)
    : M Project.t :=
  let id := toString now in
  let project := Project.new id name description status priority deadline now in
  ps <- get_projects ;;
  set_projects (push project ps) ;;;
  saveProjects h ;;;
  ret project.

(** [updateProject(id, data)]; [None] is [undefined]. *)
Definition updateProject (h : Host) (id : string) (data : Project.partial)
    : M (option Project.t) :=
  ps <- get_projects ;;
  let project := find (fun p => Project.id p === id) ps in
  match project with
  | Some project =>
      set_projects
        (mutate_found (fun p => Project.id p === id)
                      (fun p => Project.assign p data) ps) ;;;
      saveProjects h ;;;
      ret (Some (Project.assign project data))
  | None => ret None
  end.

(** [deleteProject(id)] *)
Definition deleteProject (h : Host) (id : string) : M unit :=
  ps <- get_projects ;;
  set_projects (filter (fun p => negb (Project.id p === id)) ps) ;;;
  saveProjects h.

(** [getAllProjects()] *)
Definition getAllProjects (w : World) : list Project.t := projects w.

(** [loadProjects()]: each record read back is assigned onto
    [new Project()].  The record has every key of a project but
    [deadline] when that was [undefined], which is also what the new
    project has for it; so the project that results has the fields of the
    record: [createdAt] is the string, not a Date, and the tasks are the
    plain records.  Nothing stored gives [[]].  [now] is the clock when
    [new Project()] runs. *)
Definition loadProjects (now : Z) (w : World) : list PlainProject.t :=
  match StorageManager.load "projects" w with
  | Some data =>
      map (fun p =>
             {| PlainProject.id := PlainProject.id p;
                PlainProject.name := PlainProject.name p;
                PlainProject.description := PlainProject.description p;
                PlainProject.status := PlainProject.status p;
                PlainProject.priority := PlainProject.priority p;
                PlainProject.deadline :=
                  match PlainProject.deadline p with
                  | undefined => undefined
                  | deadline => deadline
                  end;
                PlainProject.createdAt := PlainProject.createdAt p;
                PlainProject.tasks := PlainProject.tasks p |})
          data
  | None => []
  end.

Record stats := mkStats {
  total : nat;
  active : nat;
  completed : nat;
  onHold : nat
}.

(** [getStats()] *)
Definition getStats (w : World) : stats :=
  let total := List.length (projects w) in
  let active :=
    List.length (filter (fun p => Project.status p === "Active") (projects w)) in
  let completed :=
    List.length (filter (fun p => Project.status p === "Completed") (projects w)) in
  let onHold :=
    List.length (filter (fun p => Project.status p === "On Hold") (projects w)) in
  {| total := total; active := active; completed := completed;
     onHold := onHold |}.

End ProjectManager.

(** ** class TaskManager *)

Module TaskManager.

(** An element of [getAllTasks()]: [{ ...t, projectName: p.name }]. *)
Record view := mkView {
  task : Task.t;
  projectName : string
}.

(** [createTask(projectId, name, description, status, priority, dueDate,
    assignee)] *)
Definition createTask (h : Host) (now : Z)
    (projectId name description status priority : string)
    (dueDate : value) (assignee : string) : M Task.t :=
  let id := toString now in
  let task :=
    Task.new now id projectId name description status priority dueDate assignee in
  ps <- get_projects ;;
  let project := find (fun p => Project.id p === projectId) ps in
  match project with
  | Some _ =>
      set_projects
        (mutate_found (fun p => Project.id p === projectId)
           (fun p => Project.set_tasks p (push task (Project.tasks p))) ps) ;;;
      ProjectManager.saveProjects h ;;;
      ret task
  | None => ret task
  end.

(** [updateTask(projectId, taskId, data)]; [None] is [null]. *)
Definition updateTask (h : Host) (projectId taskId : string)
    (data : Task.partial) : M (option Task.t) :=
  ps <- get_projects ;;
  let project := find (fun p => Project.id p === projectId) ps in
  match project with
  | Some project =>
      let task := find (fun t => Task.id t === taskId) (Project.tasks project) in
      match task with
      | Some task =>
          let task1 := Task.assign task data in
          let task2 :=
            Task.set_completed task1
              match Task.status' data with
              | Some status => status === "Done"
              | None => false
              end in
          set_projects
            (mutate_found (fun p => Project.id p === projectId)
               (fun p =>
                  Project.set_tasks p
                    (mutate_found (fun t => Task.id t === taskId)
                       (fun _ => task2) (Project.tasks p)))
               ps) ;;;
          ProjectManager.saveProjects h ;;;
          ret (Some task2)
      | None => ret None
      end
  | None => ret None
  end.

(** [deleteTask(projectId, taskId)] *)
Definition deleteTask (h : Host) (projectId taskId : string) : M unit :=
  ps <- get_projects ;;
  let project := find (fun p => Project.id p === projectId) ps in
  match project with
  | Some _ =>
      set_projects
        (mutate_found (fun p => Project.id p === projectId)
           (fun p =>
              Project.set_tasks p
                (filter (fun t => negb (Task.id t === taskId)) (Project.tasks p)))
           ps) ;;;
      ProjectManager.saveProjects h
  | None => ret tt
  end.

(** [getTask(projectId, taskId)] *)
Definition getTask (w : World) (projectId taskId : string) : option Task.t :=
  match ProjectManager.getProject w projectId with
  | Some project => find (fun t => Task.id t === taskId) (Project.tasks project)
  | None => None
  end.

(** [getAllTasks()] *)
Definition getAllTasks (w : World) : list view :=
  flat_map
    (fun p =>
       map (fun t => {| task := t; projectName := Project.name p |})
           (Project.tasks p))
    (projects w).

(** [getTasksByStatus(status)] *)
Definition getTasksByStatus (w : World) (status : string) : list view :=
  filter (fun t => Task.status (task t) === status) (getAllTasks w).

(** [getOverdueTasks()] *)
Definition getOverdueTasks (h : Host) (now : Z) (w : World) : list view :=
  filter
    (fun t =>
       if negb (truthy (Task.dueDate (task t))) || Task.completed (task t)
       then false
       else lt (Date_of_value (Date_parse h) (Task.dueDate (task t)))
               (Some now))
    (getAllTasks w).

(** [getPendingTasks()] *)
Definition getPendingTasks (w : World) : list view :=
  filter (fun t => negb (Task.completed (task t))) (getAllTasks w).

Record stats := mkStats {
  pending : nat;
  overdue : nat;
  completed : nat;
  toDo : nat;
  inProgress : nat;
  total : nat
}.

(** [getStats()] *)
Definition getStats (h : Host) (now : Z) (w : World) : stats :=
  let allTasks := getAllTasks w in
  let pending :=
    List.length (filter (fun t => negb (Task.completed (task t))) allTasks) in
  let overdue := List.length (getOverdueTasks h now w) in
  let completed :=
    List.length (filter (fun t => Task.completed (task t)) allTasks) in
  let toDo :=
    List.length (filter (fun t => Task.status (task t) === "To Do") allTasks) in
  let inProgress :=
    List.length
      (filter (fun t => Task.status (task t) === "In Progress") allTasks) in
  {| pending := pending; overdue := overdue; completed := completed;
     toDo := toDo; inProgress := inProgress;
     total := List.length allTasks |}.

End TaskManager.

(** ** class CalendarManager *)

Module CalendarManager.

Record cell := mkCell {
  day : number;
  month : Z;
  year : Z;
  isCurrentMonth : bool
}.

(** [for (let i = start; i >= 0; i--) days.push(body(i))]; the counter
    never needs more than [start + 1] turns. *)
Fixpoint for_down (turns : nat) (i : Z) (body : Z -> cell) (days : list cell)
    : list cell :=
  match turns with
  | O => days
  | S turns' =>
      if 0 <=? i then for_down turns' (i - 1) body (push (body i) days)
      else days
  end.

(** [for (let i = start; i <= last; i++) days.push(body(i))] *)
Fixpoint for_up (turns : nat) (i last : Z) (body : Z -> cell) (days : list cell)
    : list cell :=
  match turns with
  | O => days
  | S turns' =>
      if i <=? last then for_up turns' (i + 1) last body (push (body i) days)
      else days
  end.

(** [getMonthData(year, month)].  A loop whose bound is [NaN] does not
    run: every comparison with [NaN] is false. *)
Definition getMonthData (year month : Z) : list cell :=
  let firstDay := Date.new year month 1 in
  let lastDay := Date.new year (month + 1) 0 in
  let prevLastDay := Date.new year month 0 in
  let firstDayOfWeek := Date.getDay firstDay in
  let daysInMonth := Date.getDate lastDay in
  let daysInPrevMonth := Date.getDate prevLastDay in
  let days := [] in
  (* Previous month days *)
  let days :=
    match firstDayOfWeek with
    | Some firstDayOfWeek =>
        for_down (Z.to_nat firstDayOfWeek) (firstDayOfWeek - 1)
          (fun i =>
             {| day := option_map (fun d => d - i) daysInPrevMonth;
                month := month - 1;
                year := if month =? 0 then year - 1 else year;
                isCurrentMonth := false |})
          days
    | None => days
    end in
  (* Current month days *)
  let days :=
    match daysInMonth with
    | Some daysInMonth =>
        for_up (Z.to_nat daysInMonth) 1 daysInMonth
          (fun i =>
             {| day := Some i; month := month; year := year;
                isCurrentMonth := true |})
          days
    | None => days
    end in
  (* Next month days *)
  let remainingDays := 42 - Z.of_nat (List.length days) in
  let days :=
    for_up (Z.to_nat remainingDays) 1 remainingDays
      (fun i =>
         {| day := Some i;
            month := month + 1;
            year := if month =? 11 then year + 1 else year;
            isCurrentMonth := false |})
      days in
  days.

(** [getTasksForDate(date)], on a host with the offset [LocalTZA] *)
Definition getTasksForDate (LocalTZA : Z -> bool -> Z) (h : Host) (w : World)
    (date : Date.t) : list TaskManager.view :=
  let allTasks := TaskManager.getAllTasks w in
  filter
    (fun task =>
       if negb (truthy (Task.dueDate (TaskManager.task task))) then false
       else
         let taskDate :=
           Date_of_value (Date_parse h) (Task.dueDate (TaskManager.task task)) in
         LocalDate.toDateString LocalTZA taskDate
         === LocalDate.toDateString LocalTZA date)
    allTasks.

(** [nextMonth()], on the field [currentDate] and on a host with the
    offset [LocalTZA]; a [NaN] month plus one is [NaN]. *)
Definition nextMonth (LocalTZA : Z -> bool -> Z) (currentDate : Date.t)
    : Date.t :=
  LocalDate.setMonth LocalTZA currentDate
    (option_map (fun m => m + 1) (LocalDate.getMonth LocalTZA currentDate)).

(** [prevMonth()] *)
Definition prevMonth (LocalTZA : Z -> bool -> Z) (currentDate : Date.t)
    : Date.t :=
  LocalDate.setMonth LocalTZA currentDate
    (option_map (fun m => m - 1) (LocalDate.getMonth LocalTZA currentDate)).

(** [getCurrentMonth()] *)
Definition getCurrentMonth (currentDate : Date.t) : number :=
  Date.getMonth currentDate.

(** [getCurrentYear()] *)
Definition getCurrentYear (currentDate : Date.t) : number :=
  Date.getFullYear currentDate.

End CalendarManager.


(** * Vocabulary of the specification *)

(** round(a / b) for [b > 0], halves rounded up: floor(a / b + 1/2). *)
Definition round_half_up (a b : Z) : Z := (2 * a + b) / (2 * b).

(** The tasks of every project, in project-then-task order. *)
Definition all_tasks (w : World) : list Task.t :=
  concat (map Project.tasks (projects w)).

(** The denormalised field agrees with the status. *)
Definition in_sync (t : Task.t) : Prop :=
  Task.completed t = (Task.status t === "Done").

(** Every task sits in the project that its [projectId] names. *)
Definition owned (w : World) : Prop :=
  forall p t,
    In p (projects w) -> In t (Project.tasks p) ->
    Task.projectId t = Project.id p.

(** The world a method leaves behind, however it completes. *)
Definition after {A : Type} (m : M A) (w : World) : World := snd (m w).

(** [Date.parse] on the date-only form [YYYY-MM-DD] that a date input
    yields: midnight UTC of that day; any other text is not a date. *)
Definition digit (c : Ascii.ascii) : option Z :=
  let n := Z.of_nat (Ascii.nat_of_ascii c) in
  if (48 <=? n) && (n <=? 57) then Some (n - 48) else None.

Definition digits (cs : list Ascii.ascii) : option Z :=
  fold_left
    (fun acc c =>
       match acc, digit c with
       | Some n, Some d => Some (10 * n + d)
       | _, _ => None
       end)
    cs (Some 0).

Definition parse_date_only (s : string) : number :=
  match list_ascii_of_string s with
  | [y1; y2; y3; y4; "-"%char; m1; m2; "-"%char; d1; d2] =>
      match digits [y1; y2; y3; y4], digits [m1; m2], digits [d1; d2] with
      | Some y, Some m, Some d =>
          if (1 <=? m) && (m <=? 12) && (1 <=? d) && (d <=? 31)
          then Date.TimeClip (Date.MakeDate (Date.MakeDay y (m - 1) d) 0)
          else NaN
      | _, _, _ => NaN
      end
  | _ => NaN
  end.

(** A host whose storage never fills up. *)
Definition roomy : Host :=
  {| Date_parse := parse_date_only;
     has_room := fun _ _ _ => true |}.

(** A host whose storage is full. *)
Definition cramped : Host :=
  {| Date_parse := fun _ => NaN;
     has_room := fun _ _ _ => false |}.

Definition empty : World := {| projects := []; localStorage := [] |}.

(** The double that [getProgress] rounds, from the two counts. *)
Definition percent (c n : Z) : number :=
  Double.round
    (Double.mul (Double.div (Double.of_Z c) (Double.of_Z n)) (Double.of_Z 100)).

(** The percentage in the order in which the specification writes the
    formula, round(100 * done / total), in the same doubles. *)
Definition percent_as_specified (c n : Z) : number :=
  Double.round
    (Double.div (Double.mul (Double.of_Z 100) (Double.of_Z c)) (Double.of_Z n)).

(** A project with [n] tasks of which the first [d] are done. *)
Definition sample_task (status : string) : Task.t :=
  Task.new 0 "7" "1" "Design" "" status "High" (str "") "".

Definition sample_project (d n : nat) : Project.t :=
  Project.set_tasks (Project.new "1" "Launch" "" "Active" "High" (str "") 0)
    (repeat (sample_task "Done") d ++ repeat (sample_task "To Do") (n - d)).

(** [t.status === 'Done'] *)
Definition is_done (t : Task.t) : bool := Task.status t === "Done".

(** What the doubles do on [c] done tasks out of [n]: the exact rounding,
    or one less at an exact half; the exact rounding below 40 tasks. *)
Definition faithful (c n : Z) : bool :=
  match percent c n with
  | Some r =>
      let exact := round_half_up (100 * c) n in
      ((r =? exact) || ((r =? exact - 1) && ((200 * c) mod (2 * n) =? n)))
      && ((40 <=? n) || (r =? exact))
  | None => false
  end.

Definition faithful_upto (N : nat) : bool :=
  forallb
    (fun n => forallb (fun c => faithful (Z.of_nat c) (Z.of_nat n)) (seq 0 (S n)))
    (seq 1 N).


(** The views of one project's tasks. *)
Definition views_of (p : Project.t) : list TaskManager.view :=
  map (fun t => {| TaskManager.task := t;
                   TaskManager.projectName := Project.name p |})
      (Project.tasks p).


(** [dueDate] is strictly before [now]: it denotes a time, and that time
    is earlier. *)
Definition due_before (Date_parse : string -> number) (now : Z) (t : Task.t)
    : Prop :=
  exists due, Date_of_value Date_parse (Task.dueDate t) = Some due /\ due < now.


(** ** The Gregorian calendar *)

Definition is_leap_year (y : Z) : bool :=
  ((y mod 4 =? 0) && negb (y mod 100 =? 0)) || (y mod 400 =? 0).

(** The number of days of month [m] (0 = January) of year [y]. *)
Definition days_in_month (y m : Z) : Z :=
  match m with
  | 1 => if is_leap_year y then 29 else 28
  | 3 | 5 | 8 | 10 => 30
  | _ => 31
  end.

(** The day of the week (0 = Sunday) of day [d] of month [m] (0 = January)
    of year [y], by the month-offset rule: January and February count
    with the year before. *)
Definition day_of_week (y m d : Z) : Z :=
  let y' := if m <? 2 then y - 1 else y in
  let shift :=
    match m with
    | 0 => 0 | 1 => 3 | 2 => 2 | 3 => 5 | 4 => 0 | 5 => 3
    | 6 => 5 | 7 => 1 | 8 => 4 | 9 => 6 | 10 => 2 | _ => 4
    end in
  (y' + y' / 4 - y' / 100 + y' / 400 + shift + d) mod 7.

(** The years whose every month a Date represents under the year's own
    number: inside the range of time values, and not one of the years
    0 to 99 that the Date constructor reads as 1900 to 1999. *)
Definition calendar_year (y : Z) : Prop :=
  -271820 <= y < 0 \/ 100 <= y <= 275759.

(** How many cells the first and the second loop of [getMonthData]
    push. *)
Definition leading_count (year month : Z) : nat :=
  match Date.getDay (Date.new year month 1) with
  | Some firstDayOfWeek => Z.to_nat firstDayOfWeek
  | None => O
  end.

Definition current_count (year month : Z) : nat :=
  match Date.getDate (Date.new year (month + 1) 0) with
  | Some daysInMonth => Z.to_nat daysInMonth
  | None => O
  end.

(** The year, month and day of a Date. *)
Definition ymd (d : Date.t) : number * number * number :=
  (Date.getFullYear d, Date.getMonth d, Date.getDate d).

(** The Date that [renderCalendar] builds from a cell:
    [new Date(day.year, day.month, day.day)]. *)
Definition Date_of_cell (c : CalendarManager.cell) : Date.t :=
  match CalendarManager.day c with
  | Some d => Date.new (CalendarManager.year c) (CalendarManager.month c) d
  | None => NaN
  end.

(** ** Sample data *)

(** The project "Launch" holding the finished task "Design". *)
Definition launch : World :=
  {| projects := [sample_project 1 1]; localStorage := [] |}.

(** The payload [{ name: 'Design v2' }]. *)
Definition rename : Task.partial :=
  {| Task.id' := None; Task.projectId' := None;
     Task.name' := Some "Design v2"; Task.description' := None;
     Task.status' := None; Task.priority' := None; Task.dueDate' := None;
     Task.assignee' := None; Task.completed' := None;
     Task.createdAt' := None |}.

(** The payload [{ status, completed }] of [toggleTaskComplete]. *)
Definition toggle (completed : bool) : Task.partial :=
  {| Task.id' := None; Task.projectId' := None;
     Task.name' := None; Task.description' := None;
     Task.status' := Some (if completed then "Done" else "To Do");
     Task.priority' := None; Task.dueDate' := None;
     Task.assignee' := None; Task.completed' := Some completed;
     Task.createdAt' := None |}.

(** The payload [{ name: 'Relaunch' }] for a project. *)
Definition retitle : Project.partial :=
  {| Project.id' := None; Project.name' := Some "Relaunch";
     Project.description' := None; Project.status' := None;
     Project.priority' := None; Project.deadline' := None;
     Project.createdAt' := None; Project.tasks' := None |}.

(** Two projects with one task each, built through the repositories:
    "Launch" (id "1") with "Design" (id "3"), and "Audit" (id "2") with
    "Review" (id "4"). *)
Definition portfolio : World :=
  let w := after (ProjectManager.createProject roomy 1 "Launch" "" "Active" "High" (str "")) empty in
  let w := after (ProjectManager.createProject roomy 2 "Audit" "" "Active" "Low" (str "")) w in
  let w := after (TaskManager.createTask roomy 3 "1" "Design" "" "To Do" "High"
                    (str "2024-01-01") "") w in
  after (TaskManager.createTask roomy 4 "2" "Review" "" "Done" "Low"
           (str "2024-01-02") "") w.



(** [data.status === 'Done'] *)
Definition payload_done (data : Task.partial) : bool :=
  match Task.status' data with
  | Some s => s === "Done"
  | None => false
  end.

(** ** class KanbanManager *)

Module KanbanManager.

(** The payload [{ status: newStatus }] of a drop. *)
Definition status_only (newStatus : string) : Task.partial :=
  {| Task.id' := None; Task.projectId' := None;
     Task.name' := None; Task.description' := None;
     Task.status' := Some newStatus;
     Task.priority' := None; Task.dueDate' := None;
     Task.assignee' := None; Task.completed' := None;
     Task.createdAt' := None |}.

(** The [drop] listener, for a card dragged onto a column: the task
    takes the status of the column.  Rendering is left out. *)
Definition drop (h : Host) (draggedProjectId draggedTaskId newStatus : string)
    : M (option Task.t) :=
  TaskManager.updateTask h draggedProjectId draggedTaskId (status_only newStatus).

End KanbanManager.

(** ** class UIController: the actions on the repositories *)

Module UIController.

(** [toggleTaskComplete(projectId, taskId, completed)]; rendering is
    left out. *)
Definition toggleTaskComplete (h : Host) (projectId taskId : string)
    (completed : bool) : M (option Task.t) :=
  let status := if completed then "Done" else "To Do" in
  TaskManager.updateTask h projectId taskId
    {| Task.id' := None; Task.projectId' := None;
       Task.name' := None; Task.description' := None;
       Task.status' := Some status;
       Task.priority' := None; Task.dueDate' := None;
       Task.assignee' := None; Task.completed' := Some completed;
       Task.createdAt' := None |}.

(** The confirmed action of [clearAllData()]. *)
Definition clearAllData : M unit :=
  StorageManager.remove "projects" ;;;
  set_projects [].

(** The three columns of [renderKanban()]. *)
Definition kanban_columns (w : World)
    : list TaskManager.view * list TaskManager.view * list TaskManager.view :=
  let todoTasks := TaskManager.getTasksByStatus w "To Do" in
  let inProgressTasks := TaskManager.getTasksByStatus w "In Progress" in
  let doneTasks := TaskManager.getTasksByStatus w "Done" in
  (todoTasks, inProgressTasks, doneTasks).

(** [handleProjectSubmit()], with the values of the form fields;
    [valid] is the verdict of [validateForm('projectForm')].  Toasts,
    rendering are left out; the [saveProjects()] that [autoSave] defers
    to a timer is an action of its own ([AutoSave] below). *)
Definition handleProjectSubmit (h : Host) (now : Z) (valid : bool)
    (id name description status priority deadline : string) : M unit :=
  if negb valid then ret tt
  else if negb (id === "") then
    ProjectManager.updateProject h id
      {| Project.id' := None; Project.name' := Some name;
         Project.description' := Some description;
         Project.status' := Some status; Project.priority' := Some priority;
         Project.deadline' := Some (str deadline);
         Project.createdAt' := None; Project.tasks' := None |} ;;;
    ret tt
  else
    ProjectManager.createProject h now name description status priority
      (str deadline) ;;;
    ret tt.

(** [handleTaskSubmit()] *)
Definition handleTaskSubmit (h : Host) (now : Z) (valid : bool)
    (projectId taskId name description status priority dueDate assignee : string)
    : M unit :=
  if negb valid then ret tt
  else if negb (taskId === "") then
    TaskManager.updateTask h projectId taskId
      {| Task.id' := None; Task.projectId' := None;
         Task.name' := Some name; Task.description' := Some description;
         Task.status' := Some status; Task.priority' := Some priority;
         Task.dueDate' := Some (str dueDate);
         Task.assignee' := Some assignee; Task.completed' := None;
         Task.createdAt' := None |} ;;;
    ret tt
  else
    TaskManager.createTask h now projectId name description status priority
      (str dueDate) assignee ;;;
    ret tt.

(** The number that [updateNotifications()] shows in the badge. *)
Definition notificationBadge (h : Host) (now : Z) (w : World) : nat :=
  List.length (TaskManager.getOverdueTasks h now w).

End UIController.

(** The events that change the collection through the repositories:
    submitting either form, deleting a project or a task, ticking the
    checkbox of a task, dropping a card on a column, clearing all data,
    and the timer of [autoSave] firing, which calls [saveProjects()].
    One event of the interface is not among them: [importData()], which
    replaces the collection by whatever the chosen file holds. *)
Inductive action :=
| SubmitProject (now : Z) (valid : bool)
    (id name description status priority deadline : string)
| DeleteProject (id : string)
| SubmitTask (now : Z) (valid : bool)
    (projectId taskId name description status priority dueDate assignee : string)
| DeleteTask (projectId taskId : string)
| ToggleTask (projectId taskId : string) (completed : bool)
| DropCard (projectId taskId newStatus : string)
| ClearAll
| AutoSave.

Definition perform (h : Host) (a : action) : M unit :=
  match a with
  | SubmitProject now valid id name description status priority deadline =>
      UIController.handleProjectSubmit h now valid id name description status
        priority deadline
  | DeleteProject id => ProjectManager.deleteProject h id
  | SubmitTask now valid projectId taskId name description status priority
      dueDate assignee =>
      UIController.handleTaskSubmit h now valid projectId taskId name
        description status priority dueDate assignee
  | DeleteTask projectId taskId => TaskManager.deleteTask h projectId taskId
  | ToggleTask projectId taskId completed =>
      UIController.toggleTaskComplete h projectId taskId completed ;;; ret tt
  | DropCard projectId taskId newStatus =>
      KanbanManager.drop h projectId taskId newStatus ;;; ret tt
  | ClearAll => UIController.clearAllData
  | AutoSave => ProjectManager.saveProjects h
  end.

(** The world after a session of actions; an action that throws leaves
    behind what it had done by then, and the session goes on. *)
Definition session (h : Host) (actions : list action) (w : World) : World :=
  fold_left (fun w a => after (perform h a) w) actions w.

(** Storage is in step with memory: the item under "projects" was
    written from the collection as it is now; or there is no item and
    the collection is empty. *)
Definition in_step (w : World) : Prop :=
  match find (fun kv => fst kv === "projects") (localStorage w) with
  | Some (_, data) => data = projects w
  | None => projects w = []
  end.

(** How an action ends: it leaves the world alone, or it replaces the
    collection and then stores it if there is room and throws if there
    is not, or it removes the stored item and empties the collection. *)
Inductive ends (h : Host) {A : Type} (m : M A) (w : World) : Prop :=
| ends_untouched (v : A) :
    m w = (Normal v, w) -> ends h m w
| ends_saved (v : A) (ps : list Project.t) :
    has_room h (localStorage w) "projects" ps = true ->
    m w = (Normal v, mkWorld ps (("projects", ps) :: localStorage w)) ->
    ends h m w
| ends_thrown (ps : list Project.t) :
    has_room h (localStorage w) "projects" ps = false ->
    m w = (Throw QuotaExceededError, mkWorld ps (localStorage w)) ->
    ends h m w
| ends_cleared (v : A) :
    m w = (Normal v,
           mkWorld []
             (filter (fun kv => negb (fst kv === "projects")) (localStorage w))) ->
    ends h m w.

(** A host whose storage always has room. *)
Definition spacious (h : Host) : Prop :=
  forall items key data, has_room h items key data = true.

(** The statuses that have a column on the board. *)
Definition on_board (status : string) : bool :=
  (status === "To Do") || (status === "In Progress") || (status === "Done").

(** Every task of the world satisfies [P]. *)
Definition all_in_sync (w : World) : Prop :=
  forall t, In t (all_tasks w) -> in_sync t.

(** ** Months and cells *)

(** The month after and the month before, as (year, month index). *)
Definition month_after (y m : Z) : Z * Z :=
  if m =? 11 then (y + 1, 0) else (y, m + 1).

Definition month_before (y m : Z) : Z * Z :=
  if m =? 0 then (y - 1, 11) else (y, m - 1).


(** The cells of the three loops, written out; [dpm] is the length of
    the month before. *)
Definition leading_cell (year month dpm : Z) (lead : nat) (k : nat)
    : CalendarManager.cell :=
  CalendarManager.mkCell (Some (dpm - (Z.of_nat lead - 1 - Z.of_nat k)))
    (month - 1) (if month =? 0 then year - 1 else year) false.

Definition current_cell (year month : Z) (k : nat) : CalendarManager.cell :=
  CalendarManager.mkCell (Some (1 + Z.of_nat k)) month year true.

Definition trailing_cell (year month : Z) (k : nat) : CalendarManager.cell :=
  CalendarManager.mkCell (Some (1 + Z.of_nat k)) (month + 1)
    (if month =? 11 then year + 1 else year) false.

Definition previous_month_days (year month : Z) : Z :=
  days_in_month (fst (month_before year month)) (snd (month_before year month)).


(** The number that a string of decimal digits denotes. *)
Definition digits_value (s : string) : option Z :=
  option_map Z.of_uint (NilEmpty.uint_of_string s).

(** Two dates fall on the same day; two invalid dates count as the same. *)
Definition same_day (a b : Date.t) : Prop :=
  match a, b with
  | Some t1, Some t2 => Date.Day t1 = Date.Day t2
  | None, None => True
  | _, _ => False
  end.

(** Two dates fall on the same day of the local calendar of a host. *)
Definition same_local_day (LocalTZA : Z -> bool -> Z) (a b : Date.t) : Prop :=
  same_day (option_map (LocalDate.LocalTime LocalTZA) a)
           (option_map (LocalDate.LocalTime LocalTZA) b).

(** A host whose local time is always [offset] milliseconds ahead of
    UTC: no daylight saving and no change of zone. *)
Definition fixed_offset (LocalTZA : Z -> bool -> Z) (offset : Z) : Prop :=
  forall t isUTC, LocalTZA t isUTC = offset.


(** * Properties *)

(** ** Project.getProgress *)

Lemma getProgress_counts (P : Project.t) :
  Project.tasks P <> [] ->
  Project.getProgress P =
    percent (Z.of_nat (List.length (filter is_done (Project.tasks P))))
            (Z.of_nat (List.length (Project.tasks P))).
Proof.
  intros Hne. unfold Project.getProgress, percent.
  destruct (Project.tasks P) as [|t ts]; [congruence|].
  reflexivity.
Qed.

Lemma faithful_200 : faithful_upto 200 = true.
Proof. vm_compute. reflexivity. Qed.

Lemma faithful_upto_below (N c n : nat) :
  faithful_upto N = true ->
  (c <= n)%nat -> (1 <= n <= N)%nat -> faithful (Z.of_nat c) (Z.of_nat n) = true.
Proof.
  unfold faithful_upto. intros H Hc Hn.
  rewrite forallb_forall in H.
  specialize (H n). rewrite forallb_forall in H.
  apply H; apply in_seq; lia.
Qed.

Lemma faithful_below (c n : nat) :
  (c <= n)%nat -> (1 <= n <= 200)%nat -> faithful (Z.of_nat c) (Z.of_nat n) = true.
Proof.
  intros Hc Hn. exact (faithful_upto_below 200 c n faithful_200 Hc Hn).
Qed.

(** C5 on the code: with 23 of 40 tasks done [getProgress] gives 57,
    not the half-up rounding 58 of 57.5 that the claim states.  The code
    divides first: 23/40 is the double just below 0.575, its product
    with 100 is 57.49999999999999, and [Math.round] rounds that down.
    In the order in which the specification writes the formula,
    100 * 23 is 2300, 2300 / 40 is exactly 57.5, and [Math.round] gives
    58. *)
Theorem getProgress_23_of_40 :
  let P := sample_project 23 40 in
  List.length (Project.tasks P) = 40%nat /\
  List.length (filter is_done (Project.tasks P)) = 23%nat /\
  Project.getProgress P = Some 57 /\
  round_half_up (100 * 23) 40 = 58 /\
  percent_as_specified 23 40 = Some 58 /\
  Project.getProgress P <> Some (round_half_up (100 * 23) 40).
Proof.
  cbv zeta. repeat split; try (vm_compute; reflexivity).
  vm_compute. discriminate.
Qed.

(** How far the defect reaches: the progress of a project is 0 when it
    has no tasks, and otherwise [Math.round] of the double
    [(done / total) * 100].  For a project of at most 200 tasks that is
    the exact half-up rounding of 100 * done / total, or one less than
    it when 100 * done / total lies exactly halfway between two
    integers; below 40 tasks it is always the exact rounding (1 of 3
    gives 33, 2 of 3 gives 67). *)
Lemma getProgress_rounds_the_double (P : Project.t) :
  let n := Z.of_nat (List.length (Project.tasks P)) in
  let c := Z.of_nat (List.length (filter is_done (Project.tasks P))) in
  let exact := round_half_up (100 * c) n in
  (n = 0 -> Project.getProgress P = Some 0) /\
  (0 < n -> Project.getProgress P = percent c n) /\
  (0 < n <= 200 ->
   exists r, Project.getProgress P = Some r /\
             (r = exact \/ (r = exact - 1 /\ (200 * c) mod (2 * n) = n))) /\
  (0 < n < 40 -> Project.getProgress P = Some exact).
Proof.
  intros n c exact.
  assert (Hc : (List.length (filter is_done (Project.tasks P))
                <= List.length (Project.tasks P))%nat) by apply filter_length_le.
  assert (Hpos : 0 < n -> Project.getProgress P = percent c n).
  { intros Hn. apply getProgress_counts. intros E.
    subst n. rewrite E in Hn. simpl in Hn. lia. }
  assert (Hf : 0 < n <= 200 -> faithful c n = true).
  { intros Hn. apply faithful_below; [exact Hc | subst n; lia]. }
  repeat split.
  - intros Hn. unfold Project.getProgress. fold n. rewrite Hn. reflexivity.
  - exact Hpos.
  - intros Hn. rewrite Hpos by lia. specialize (Hf Hn).
    unfold faithful in Hf. fold exact in Hf.
    destruct (percent c n) as [r|]; [|discriminate].
    exists r. split; [reflexivity|].
    apply andb_prop in Hf. destruct Hf as [Hf _].
    apply orb_prop in Hf. destruct Hf as [Hf|Hf].
    + left. apply Z.eqb_eq. exact Hf.
    + right. apply andb_prop in Hf. destruct Hf as [H1 H2].
      split; apply Z.eqb_eq; assumption.
  - intros Hn. rewrite Hpos by lia.
    assert (Hn' : 0 < n <= 200) by lia. specialize (Hf Hn').
    unfold faithful in Hf. fold exact in Hf.
    destruct (percent c n) as [r|]; [|discriminate].
    apply andb_prop in Hf. destruct Hf as [_ Hf].
    apply orb_prop in Hf. destruct Hf as [Hf|Hf].
    + apply Z.leb_le in Hf. lia.
    + apply Z.eqb_eq in Hf. congruence.
Qed.

Lemma getProgress_rounds_the_double_witness :
  Project.getProgress (sample_project 1 3) = Some 33 /\
  Project.getProgress (sample_project 2 3) = Some 67.
Proof.
  split.
  - apply (getProgress_rounds_the_double (sample_project 1 3)).
    vm_compute. split; reflexivity.
  - apply (getProgress_rounds_the_double (sample_project 2 3)).
    vm_compute. split; reflexivity.
Defined.

(** ** ProjectManager.updateProject *)

(** C9: when no project has the id, [updateProject] completes normally
    with [undefined] and leaves the world as it was: the collection is
    unchanged and nothing was written to local storage. *)
Theorem updateProject_not_found (h : Host) (id : string)
    (data : Project.partial) (w : World) :
  ProjectManager.getProject w id = None ->
  ProjectManager.updateProject h id data w = (Normal None, w) /\
  projects (after (ProjectManager.updateProject h id data) w) = projects w /\
  localStorage (after (ProjectManager.updateProject h id data) w)
    = localStorage w.
Proof.
  intros Hnone.
  assert (E : ProjectManager.updateProject h id data w = (Normal None, w)).
  { unfold ProjectManager.updateProject, bind, get_projects.
    unfold ProjectManager.getProject in Hnone. rewrite Hnone. reflexivity. }
  unfold after. rewrite E. auto.
Qed.

Lemma updateProject_not_found_witness :
  ProjectManager.updateProject cramped "404" retitle launch
    = (Normal None, launch).
Proof.
  apply (updateProject_not_found cramped "404" retitle launch).
  reflexivity.
Defined.

(** With the project present, the same call on a full storage throws:
    the absent case is the one that cannot. *)
Lemma updateProject_found_may_throw :
  fst (ProjectManager.updateProject cramped "1" retitle launch)
    = Throw QuotaExceededError.
Proof. reflexivity. Qed.

(** ** TaskManager.createTask *)

(** C2, as stated, fails: with no project "404" the call still returns
    the task it built. *)
Lemma createTask_returns_the_task :
  ProjectManager.getProject launch "404" = None /\
  TaskManager.createTask roomy 1700000000000 "404" "Design" "" "To Do" "High"
      (str "") "" launch
    = (Normal
         (Task.new 1700000000000 "1700000000000" "404" "Design" "" "To Do"
            "High" (str "") ""),
       launch).
Proof. split; reflexivity. Qed.

(** C2, amended: when no project has the id, [createTask] attaches the
    task to no project and writes nothing to local storage, and it still
    returns the task it constructed, with [completed] set from the
    status. *)
Theorem createTask_not_found (h : Host) (now : Z)
    (projectId name description status priority : string)
    (dueDate : value) (assignee : string) (w : World) :
  ProjectManager.getProject w projectId = None ->
  let call :=
    TaskManager.createTask h now projectId name description status priority
      dueDate assignee in
  let task :=
    Task.new now (toString now) projectId name description status priority
      dueDate assignee in
  call w = (Normal task, w) /\
  projects (after call w) = projects w /\
  localStorage (after call w) = localStorage w /\
  Task.completed task = (status === "Done").
Proof.
  intros Hnone call task.
  assert (E : call w = (Normal task, w)).
  { unfold call, TaskManager.createTask, bind, get_projects.
    unfold ProjectManager.getProject in Hnone. rewrite Hnone. reflexivity. }
  unfold after. rewrite E. auto.
Qed.

Lemma createTask_not_found_witness :
  TaskManager.createTask cramped 5 "404" "Design" "" "Done" "High" (str "") ""
      launch
    = (Normal (Task.new 5 "5" "404" "Design" "" "Done" "High" (str "") ""),
       launch).
Proof.
  apply (createTask_not_found cramped 5 "404" "Design" "" "Done" "High"
           (str "") "" launch).
  reflexivity.
Defined.

(** ** TaskManager.updateTask *)

(** What [updateTask] does to the task it finds. *)
Lemma updateTask_found (h : Host) (projectId taskId : string)
    (data : Task.partial) (w : World) (project : Project.t) (task : Task.t) :
  ProjectManager.getProject w projectId = Some project ->
  find (fun t => Task.id t === taskId) (Project.tasks project) = Some task ->
  let task' := Task.set_completed (Task.assign task data) (payload_done data) in
  let call := TaskManager.updateTask h projectId taskId data in
  (fst (call w) = Normal (Some task') \/ fst (call w) = Throw QuotaExceededError) /\
  projects (after call w) =
    mutate_found (fun p => Project.id p === projectId)
      (fun p =>
         Project.set_tasks p
           (mutate_found (fun t => Task.id t === taskId) (fun _ => task')
              (Project.tasks p)))
      (projects w).
Proof.
  intros Hp Ht task' call.
  unfold call, after, TaskManager.updateTask, bind, get_projects.
  unfold ProjectManager.getProject in Hp. rewrite Hp, Ht.
  unfold set_projects, ProjectManager.saveProjects, bind, get_projects,
    StorageManager.save, ret; cbn [projects localStorage].
  destruct (has_room h _ _ _); cbn [fst snd projects]; auto.
Qed.

(** The field written by [updateTask] is [data.status === 'Done']. *)
Lemma updateTask_completed (task : Task.t) (data : Task.partial) :
  let task' := Task.set_completed (Task.assign task data) (payload_done data) in
  Task.completed task' = payload_done data /\
  Task.status task' = field (Task.status' data) (Task.status task).
Proof. split; reflexivity. Qed.

(** A payload that carries a status leaves the task in sync, whatever
    [completed] the payload carries. *)
Lemma updateTask_in_sync (task : Task.t) (data : Task.partial) (s : string) :
  Task.status' data = Some s ->
  in_sync (Task.set_completed (Task.assign task data) (payload_done data)).
Proof.
  intros Hs. unfold in_sync, payload_done. cbn. rewrite Hs. reflexivity.
Qed.

(** The payload of [toggleTaskComplete], [{ status, completed }], leaves
    the task in sync. *)
Lemma updateTask_toggle_in_sync (task : Task.t) (completed : bool) :
  let task' :=
    Task.set_completed (Task.assign task (toggle completed))
      (payload_done (toggle completed)) in
  in_sync task' /\ Task.completed task' = completed.
Proof.
  split.
  - apply (updateTask_in_sync task (toggle completed) _ eq_refl).
  - destruct completed; reflexivity.
Qed.

(** A payload without a status marks the task as not completed. *)
Lemma updateTask_without_status (task : Task.t) (data : Task.partial) :
  Task.status' data = None ->
  let task' := Task.set_completed (Task.assign task data) (payload_done data) in
  Task.status task' = Task.status task /\ Task.completed task' = false.
Proof.
  intros Hs. unfold payload_done. cbn. rewrite Hs. auto.
Qed.

(** C1 on the code: renaming the finished task "Design" of "Launch" with
    the payload [{ name: 'Design v2' }] returns, and stores, a task whose
    status is still "Done" and whose [completed] is now false. *)
Theorem updateTask_rename_clears_completed :
  TaskManager.getTask launch "1" "7" = Some (sample_task "Done") /\
  Task.status (sample_task "Done") = "Done" /\
  Task.completed (sample_task "Done") = true /\
  exists task',
    fst (TaskManager.updateTask roomy "1" "7" rename launch)
      = Normal (Some task') /\
    TaskManager.getTask (after (TaskManager.updateTask roomy "1" "7" rename) launch)
      "1" "7" = Some task' /\
    Task.name task' = "Design v2" /\
    Task.status task' = "Done" /\
    Task.completed task' = false /\
    ~ in_sync task'.
Proof.
  repeat split.
  eexists. repeat split.
  vm_compute. discriminate.
Qed.

(** ** The flattened task list *)

Lemma getAllTasks_views (w : World) :
  TaskManager.getAllTasks w = flat_map views_of (projects w).
Proof. reflexivity. Qed.

Lemma getAllTasks_tasks (w : World) :
  map TaskManager.task (TaskManager.getAllTasks w) = all_tasks w.
Proof.
  unfold TaskManager.getAllTasks, all_tasks.
  induction (projects w) as [|p ps IH]; [reflexivity|].
  cbn. rewrite map_app, IH, map_map. cbn. rewrite map_id. reflexivity.
Qed.

(** Counting views by a property of the task counts the tasks. *)
Lemma count_views (f : Task.t -> bool) (w : World) :
  List.length (filter (fun v => f (TaskManager.task v)) (TaskManager.getAllTasks w))
  = List.length (filter f (all_tasks w)).
Proof.
  rewrite <- getAllTasks_tasks, filter_map_swap, length_map. reflexivity.
Qed.

Lemma all_tasks_length (w : World) :
  List.length (all_tasks w)
  = list_sum (map (fun p => List.length (Project.tasks p)) (projects w)).
Proof.
  unfold all_tasks. induction (projects w) as [|p ps IH]; [reflexivity|].
  cbn. rewrite length_app, IH. reflexivity.
Qed.

Lemma getOverdueTasks_isOverdue (h : Host) (now : Z) (w : World) :
  TaskManager.getOverdueTasks h now w
  = filter (fun v => Task.isOverdue (Date_parse h) now (TaskManager.task v))
           (TaskManager.getAllTasks w).
Proof. reflexivity. Qed.


(** ** TaskManager.getStats *)

Lemma filter_partition {A : Type} (f : A -> bool) (l : list A) :
  Permutation (filter (fun x => negb (f x)) l ++ filter f l) l.
Proof.
  induction l as [|x l IH]; [constructor|].
  cbn [filter]. destruct (f x); cbn [negb app].
  - apply Permutation_sym, Permutation_cons_app, Permutation_sym, IH.
  - apply perm_skip, IH.
Qed.

(** C10: [getStats] counts every task of the flattened list in exactly
    one of two buckets, by its [completed] field alone: [total] is the
    length of the list, [pending] the number of its tasks whose field is
    false (the list of [getPendingTasks()]), [completed] the number of
    those whose field is true; the two buckets together are a
    rearrangement of the list, so that [pending + completed = total],
    whatever the status of a task says. *)
Theorem getStats_pending_plus_completed (h : Host) (now : Z) (w : World) :
  let s := TaskManager.getStats h now w in
  let tasks := TaskManager.getAllTasks w in
  let done v := Task.completed (TaskManager.task v) in
  let pending := filter (fun v => negb (done v)) tasks in
  let completed := filter done tasks in
  TaskManager.total s = List.length tasks /\
  TaskManager.pending s = List.length pending /\
  TaskManager.completed s = List.length completed /\
  TaskManager.getPendingTasks w = pending /\
  Permutation (pending ++ completed) tasks /\
  (forall v, In v tasks ->
     (In v pending <-> done v = false) /\ (In v completed <-> done v = true)) /\
  (TaskManager.pending s + TaskManager.completed s = TaskManager.total s)%nat.
Proof.
  cbv zeta.
  pose proof (filter_partition (fun v => Task.completed (TaskManager.task v))
                (TaskManager.getAllTasks w)) as P.
  repeat split; try reflexivity; try exact P.
  - intros Hv. apply filter_In in Hv. apply negb_true_iff, Hv.
  - intros Hv. apply filter_In. split; [assumption|]. rewrite Hv. reflexivity.
  - intros Hv. apply filter_In in Hv. apply Hv.
  - intros Hv. apply filter_In. split; assumption.
  - apply Permutation_length in P. rewrite length_app in P.
    unfold TaskManager.getStats. cbn. exact P.
Qed.

(** C4, as stated, fails: after the rename of C1 the only task has status
    "Done" and [completed] false; [getStats] reports no completed task
    although one task has status "Done". *)
Lemma getStats_completed_is_the_field :
  let w := after (TaskManager.updateTask roomy "1" "7" rename) launch in
  TaskManager.completed (TaskManager.getStats roomy 0 w) = 0%nat /\
  List.length (filter is_done (all_tasks w)) = 1%nat /\
  TaskManager.completed (TaskManager.getStats roomy 0 w)
    <> List.length (filter is_done (all_tasks w)).
Proof.
  cbv zeta. repeat split; try (vm_compute; reflexivity).
  vm_compute. discriminate.
Qed.

(** C4, amended: over the tasks of all projects, [toDo] and [inProgress]
    count the tasks whose status is exactly "To Do" and "In Progress",
    [completed] counts the tasks whose [completed] field is true and
    [pending] those whose field is false, [overdue] is the length of
    [getOverdueTasks()], and [total] is the number of tasks of all
    projects.  When every task has [completed == (status == "Done")],
    [completed] is also the number of tasks with status "Done". *)
Theorem getStats_counts (h : Host) (now : Z) (w : World) :
  let s := TaskManager.getStats h now w in
  TaskManager.toDo s
    = List.length (filter (fun t => Task.status t === "To Do") (all_tasks w)) /\
  TaskManager.inProgress s
    = List.length (filter (fun t => Task.status t === "In Progress") (all_tasks w)) /\
  TaskManager.completed s = List.length (filter Task.completed (all_tasks w)) /\
  TaskManager.pending s
    = List.length (filter (fun t => negb (Task.completed t)) (all_tasks w)) /\
  TaskManager.overdue s = List.length (TaskManager.getOverdueTasks h now w) /\
  TaskManager.total s
    = list_sum (map (fun p => List.length (Project.tasks p)) (projects w)) /\
  ((forall t, In t (all_tasks w) -> in_sync t) ->
   TaskManager.completed s = List.length (filter is_done (all_tasks w))).
Proof.
  cbv zeta. unfold TaskManager.getStats. cbn.
  repeat split.
  - apply (count_views (fun t => Task.status t === "To Do")).
  - apply (count_views (fun t => Task.status t === "In Progress")).
  - apply (count_views Task.completed).
  - apply (count_views (fun t => negb (Task.completed t))).
  - rewrite <- all_tasks_length, <- getAllTasks_tasks. apply eq_sym, length_map.
  - intros Hsync. rewrite (count_views Task.completed).
    f_equal. apply filter_ext_in. intros t Ht. apply Hsync, Ht.
Qed.

Lemma getStats_counts_witness :
  TaskManager.completed (TaskManager.getStats roomy 0 launch)
  = List.length (filter is_done (all_tasks launch)).
Proof.
  apply (getStats_counts roomy 0 launch).
  intros t [<-|[]]. reflexivity.
Defined.

(** ** Task.isOverdue *)

Lemma lt_Some (a : number) (now : Z) :
  lt a (Some now) = true <-> exists due, a = Some due /\ due < now.
Proof.
  destruct a as [x|]; cbn.
  - rewrite Z.ltb_lt. split.
    + intros H. exists x. auto.
    + intros (d & E & H). injection E as ->. exact H.
  - split; [discriminate|]. intros (d & E & _). discriminate.
Qed.

(** C8: a task is overdue exactly when its due date is set, lies strictly
    before the time of the call, and the task is not completed; a
    completed task is never overdue.  [getOverdueTasks()] keeps exactly
    the views of the overdue tasks. *)
Theorem isOverdue_iff (h : Host) (now : Z) :
  (forall T : Task.t,
     Task.isOverdue (Date_parse h) now T = true <->
     truthy (Task.dueDate T) = true /\
     due_before (Date_parse h) now T /\
     Task.completed T = false) /\
  (forall T : Task.t,
     Task.completed T = true -> Task.isOverdue (Date_parse h) now T = false) /\
  (forall (w : World) (v : TaskManager.view),
     In v (TaskManager.getOverdueTasks h now w) <->
     In v (TaskManager.getAllTasks w) /\
     Task.isOverdue (Date_parse h) now (TaskManager.task v) = true).
Proof.
  split; [|split].
  - intros T. unfold Task.isOverdue, due_before. rewrite <- lt_Some.
    destruct (truthy (Task.dueDate T)), (Task.completed T); cbn;
      intuition discriminate.
  - intros T Hc. unfold Task.isOverdue. rewrite Hc, orb_true_r. reflexivity.
  - intros w v. rewrite getOverdueTasks_isOverdue. apply filter_In.
Qed.

Lemma isOverdue_iff_witness :
  Task.isOverdue (Date_parse roomy) 1793491200000
    (Task.new 0 "7" "1" "Design" "" "To Do" "High" (str "2026-10-31") "") = true /\
  Task.isOverdue (Date_parse roomy) 1793491200000
    (Task.new 0 "7" "1" "Design" "" "Done" "High" (str "2026-10-31") "") = false.
Proof.
  split.
  - apply (proj1 (isOverdue_iff roomy 1793491200000)).
    split; [reflexivity|]. split; [|reflexivity].
    exists 1793404800000. split; [reflexivity|lia].
  - apply (proj1 (proj2 (isOverdue_iff roomy 1793491200000))). reflexivity.
Defined.

(** ** ProjectManager.deleteProject *)


(** The collection after the call, whether or not the save went through. *)
Lemma deleteProject_projects (h : Host) (id : string) (w : World) :
  projects (after (ProjectManager.deleteProject h id) w)
  = filter (fun p => negb (Project.id p === id)) (projects w).
Proof.
  unfold after, ProjectManager.deleteProject, ProjectManager.saveProjects,
    bind, get_projects, set_projects, StorageManager.save.
  cbn [projects localStorage].
  destruct (has_room h _ _ _); reflexivity.
Qed.






(** On the sample: the task of "Launch" is gone, that of "Audit" stays. *)
Lemma deleteProject_portfolio :
  map (fun v => Task.name (TaskManager.task v))
      (TaskManager.getAllTasks portfolio) = ["Design"; "Review"] /\
  map (fun v => Task.name (TaskManager.task v))
      (TaskManager.getAllTasks
         (after (ProjectManager.deleteProject roomy "1") portfolio))
  = ["Review"].
Proof. split; vm_compute; reflexivity. Qed.

(** ** Ownership is an invariant of the repositories *)

Lemma in_mutate_found {A : Type} (p : A -> bool) (f : A -> A) (l : list A) (x : A) :
  In x (mutate_found p f l) ->
  In x l \/ exists y, In y l /\ p y = true /\ x = f y.
Proof.
  induction l as [|a l IH]; cbn; [tauto|].
  destruct (p a) eqn:E; cbn.
  - intros [<-|H]; [right; exists a; auto | auto].
  - intros [<-|H]; [auto|].
    destruct (IH H) as [H'|(y & Hy & Hp & ->)]; [auto|].
    right. exists y. auto.
Qed.

Lemma owned_empty : owned empty.
Proof. intros p t []. Qed.

Lemma createProject_projects (h : Host) (now : Z)
    (name description status priority : string) (deadline : value) (w : World) :
  projects
    (after (ProjectManager.createProject h now name description status priority
              deadline) w)
  = push (Project.new (toString now) name description status priority deadline now)
         (projects w).
Proof.
  unfold after, ProjectManager.createProject, ProjectManager.saveProjects,
    bind, get_projects, set_projects, StorageManager.save, ret.
  cbn [projects localStorage].
  destruct (has_room h _ _ _); reflexivity.
Qed.

Lemma createTask_projects (h : Host) (now : Z)
    (projectId name description status priority : string)
    (dueDate : value) (assignee : string) (w : World) :
  let task :=
    Task.new now (toString now) projectId name description status priority
      dueDate assignee in
  projects
    (after (TaskManager.createTask h now projectId name description status
              priority dueDate assignee) w)
  = mutate_found (fun p => Project.id p === projectId)
      (fun p => Project.set_tasks p (push task (Project.tasks p))) (projects w).
Proof.
  cbv zeta.
  unfold after, TaskManager.createTask, ProjectManager.saveProjects,
    bind, get_projects, set_projects, StorageManager.save, ret.
  destruct (find _ (projects w)) eqn:E; cbn [projects localStorage snd].
  - destruct (has_room h _ _ _); reflexivity.
  - clear - E. induction (projects w) as [|p ps IH]; [reflexivity|].
    cbn in *. destruct (Project.id p === projectId); [discriminate|].
    f_equal. apply IH, E.
Qed.

Lemma createProject_owned (h : Host) (now : Z)
    (name description status priority : string) (deadline : value) (w : World) :
  owned w ->
  owned (after (ProjectManager.createProject h now name description status
                  priority deadline) w).
Proof.
  intros Hown p t Hp Ht. rewrite createProject_projects in Hp.
  unfold push in Hp. apply in_app_or in Hp. destruct Hp as [Hp|[<-|[]]].
  - apply (Hown p t Hp Ht).
  - destruct Ht.
Qed.

Lemma createTask_owned (h : Host) (now : Z)
    (projectId name description status priority : string)
    (dueDate : value) (assignee : string) (w : World) :
  owned w ->
  owned (after (TaskManager.createTask h now projectId name description status
                  priority dueDate assignee) w).
Proof.
  intros Hown p t Hp Ht. rewrite createTask_projects in Hp.
  apply in_mutate_found in Hp.
  destruct Hp as [Hp|(q & Hq & Hid & ->)]; [apply (Hown p t Hp Ht)|].
  cbn in Ht |- *. unfold push in Ht. apply in_app_or in Ht.
  destruct Ht as [Ht|[<-|[]]].
  - apply (Hown q t Hq Ht).
  - cbn. symmetry. apply String.eqb_eq, Hid.
Qed.

Lemma deleteProject_owned (h : Host) (id : string) (w : World) :
  owned w -> owned (after (ProjectManager.deleteProject h id) w).
Proof.
  intros Hown p t Hp Ht. rewrite deleteProject_projects in Hp.
  apply filter_In in Hp. apply (Hown p t (proj1 Hp) Ht).
Qed.

(** [updateTask] keeps ownership when the payload leaves [projectId]
    alone, as every payload built by the forms does. *)
Lemma updateTask_owned (h : Host) (projectId taskId : string)
    (data : Task.partial) (w : World) :
  Task.projectId' data = None ->
  owned w -> owned (after (TaskManager.updateTask h projectId taskId data) w).
Proof.
  intros Hdata Hown p t Hp Ht.
  unfold after, TaskManager.updateTask, bind, get_projects in Hp.
  destruct (find _ (projects w)) as [project|] eqn:Ep;
    [|apply (Hown p t Hp Ht)].
  destruct (find _ (Project.tasks project)) as [task|] eqn:Et;
    [|apply (Hown p t Hp Ht)].
  apply find_some in Ep. destruct Ep as [Hproject Hid].
  assert (Hp' : In p (mutate_found (fun p => Project.id p === projectId)
                  (fun p => Project.set_tasks p
                     (mutate_found (fun t => Task.id t === taskId)
                        (fun _ => Task.set_completed (Task.assign task data)
                                    (payload_done data))
                        (Project.tasks p)))
                  (projects w))).
  { revert Hp. unfold set_projects, ProjectManager.saveProjects, bind,
      get_projects, StorageManager.save, ret, payload_done.
    cbn [projects localStorage].
    destruct (has_room h _ _ _); cbn [snd projects]; auto. }
  clear Hp. apply in_mutate_found in Hp'.
  destruct Hp' as [Hp|(q & Hq & Hqid & ->)]; [apply (Hown p t Hp Ht)|].
  cbn in Ht |- *. apply in_mutate_found in Ht.
  destruct Ht as [Ht|(t0 & Ht0 & _ & ->)]; [apply (Hown q t Hq Ht)|].
  cbn. rewrite Hdata. cbn.
  apply find_some in Et. destruct Et as [Htask _].
  rewrite (Hown project task Hproject Htask).
  apply String.eqb_eq in Hid, Hqid. congruence.
Qed.

(** ** The Date object *)

Module DateFacts.
Import Date.

Lemma DaysInYear_leap y : DaysInYear y = if is_leap_year y then 366 else 365.
Proof.
  unfold DaysInYear, is_leap_year.
  destruct (Z.eqb_spec (y mod 4) 0), (Z.eqb_spec (y mod 100) 0), (Z.eqb_spec (y mod 400) 0);
    cbn; try reflexivity; exfalso; Z.div_mod_to_equations; lia.
Qed.

Lemma DayFromYear_succ y : DayFromYear (y + 1) = DayFromYear y + DaysInYear y.
Proof.
  unfold DayFromYear, DaysInYear.
  destruct (Z.eqb_spec (y mod 4) 0), (Z.eqb_spec (y mod 100) 0), (Z.eqb_spec (y mod 400) 0);
    cbn [negb]; Z.div_mod_to_equations; lia.
Qed.

Lemma DayFromYear_lt y1 y2 : y1 < y2 -> DayFromYear y1 + 365 <= DayFromYear y2.
Proof.
  unfold DayFromYear. intros. Z.div_mod_to_equations. lia.
Qed.

Lemma YearFromTime_spec t :
  TimeFromYear (YearFromTime t) <= t < TimeFromYear (YearFromTime t + 1).
Proof.
  unfold YearFromTime, TimeFromYear, Day, msPerDay.
  set (y := 1970 + _).
  assert (DayFromYear (y - 1) * 86400000 <= t /\ t < DayFromYear (y + 2) * 86400000).
  { subst y. unfold DayFromYear. Z.div_mod_to_equations. lia. }
  destruct (Z.ltb_spec t (86400000 * DayFromYear y)).
  - replace (y - 1 + 1) with y by lia. lia.
  - destruct (Z.leb_spec (86400000 * DayFromYear (y + 1)) t).
    + replace (y + 1 + 1) with (y + 2) by lia. lia.
    + lia.
Qed.

Lemma YearFromTime_unique t y :
  TimeFromYear y <= t < TimeFromYear (y + 1) -> YearFromTime t = y.
Proof.
  intros H. pose proof (YearFromTime_spec t) as S.
  unfold TimeFromYear, msPerDay in *.
  destruct (Z.lt_trichotomy (YearFromTime t) y) as [L|[E|G]]; [|exact E|].
  - pose proof (DayFromYear_lt (YearFromTime t) y L).
    assert (YearFromTime t + 1 < y \/ YearFromTime t + 1 = y) as [L'|E'] by lia.
    + pose proof (DayFromYear_lt _ _ L'). lia.
    + rewrite E' in S. lia.
  - assert (y + 1 < YearFromTime t \/ y + 1 = YearFromTime t) as [L'|E'] by lia.
    + pose proof (DayFromYear_lt _ _ L'). pose proof (DayFromYear_lt _ _ G). lia.
    + rewrite E' in H. lia.
Qed.

Lemma DayWithinYear_range t :
  0 <= DayWithinYear t < DaysInYear (YearFromTime t).
Proof.
  unfold DayWithinYear, Day. pose proof (YearFromTime_spec t) as S.
  unfold TimeFromYear in S. rewrite DayFromYear_succ in S. unfold msPerDay in *.
  set (Y := YearFromTime t) in *.
  generalize dependent (DayFromYear Y). generalize (DaysInYear Y). intros.
  Z.div_mod_to_equations. lia.
Qed.

Lemma InLeapYear_days t : DaysInYear (YearFromTime t) = 365 + InLeapYear t.
Proof.
  unfold InLeapYear. rewrite DaysInYear_leap.
  destruct (is_leap_year _); reflexivity.
Qed.

Lemma DateFromTime_range t : 1 <= DateFromTime t <= 31.
Proof.
  pose proof (DayWithinYear_range t) as R. rewrite InLeapYear_days in R.
  assert (L : InLeapYear t = 0 \/ InLeapYear t = 1).
  { unfold InLeapYear. destruct (_ =? _); auto. }
  unfold DateFromTime, MonthFromTime.
  set (d := DayWithinYear t) in *. set (leap := InLeapYear t) in *.
  repeat match goal with
         | |- context [?a <? ?b] => destruct (Z.ltb_spec a b)
         end; lia.
Qed.

Lemma WeekDay_range t : 0 <= WeekDay t <= 6.
Proof. unfold WeekDay. pose proof (Z.mod_pos_bound (Day t + 4) 7). lia. Qed.

(** Day [d] (from 1) of month [m] (0..11) of year [y]. *)
Lemma Day_MakeDate day : Day (MakeDate day 0) = day.
Proof. unfold Day, MakeDate, msPerDay. Z.div_mod_to_equations. lia. Qed.

Lemma fields_of_day y k :
  0 <= k < DaysInYear y ->
  let t := MakeDate (DayFromYear y + k) 0 in
  YearFromTime t = y /\ DayWithinYear t = k /\
  InLeapYear t = (if is_leap_year y then 1 else 0).
Proof.
  intros Hk t.
  assert (Y : YearFromTime t = y).
  { apply YearFromTime_unique. unfold TimeFromYear. rewrite DayFromYear_succ.
    unfold t, MakeDate, msPerDay. lia. }
  split; [exact Y|]. split.
  - unfold DayWithinYear. rewrite Y. unfold t. rewrite Day_MakeDate. lia.
  - unfold InLeapYear. rewrite Y, DaysInYear_leap.
    destruct (is_leap_year y); reflexivity.
Qed.

Lemma MakeDay_last_of_month y m :
  0 <= m <= 11 ->
  MakeDay y (m + 1) 0
  = DayFromYear y + MonthStart (if is_leap_year y then 1 else 0) m
    + days_in_month y m - 1.
Proof.
  intros Hm. unfold MakeDay.
  assert (C : m = 0 \/ m = 1 \/ m = 2 \/ m = 3 \/ m = 4 \/ m = 5 \/ m = 6 \/
              m = 7 \/ m = 8 \/ m = 9 \/ m = 10 \/ m = 11) by lia.
  rewrite !DaysInYear_leap.
  destruct C as [->|[->|[->|[->|[->|[->|[->|[->|[->|[->|[->| ->]]]]]]]]]]];
    cbn -[DayFromYear is_leap_year];
    rewrite ?Z.add_0_r, ?DayFromYear_succ, ?DaysInYear_leap;
    destruct (is_leap_year y); cbn; lia.
Qed.

Lemma getDate_last_of_month y m :
  0 <= m <= 11 ->
  DateFromTime (MakeDate (MakeDay y (m + 1) 0) 0) = days_in_month y m.
Proof.
  intros Hm. rewrite MakeDay_last_of_month by exact Hm.
  set (leap := if is_leap_year y then 1 else 0).
  set (k := MonthStart leap m + days_in_month y m - 1).
  assert (Hk : 0 <= k < DaysInYear y /\
               (MonthStart leap m <= k) /\ (m < 11 -> k < MonthStart leap (m + 1))).
  { rewrite DaysInYear_leap. subst k leap.
    assert (C : m = 0 \/ m = 1 \/ m = 2 \/ m = 3 \/ m = 4 \/ m = 5 \/ m = 6 \/
              m = 7 \/ m = 8 \/ m = 9 \/ m = 10 \/ m = 11) by lia.
    destruct C as [->|[->|[->|[->|[->|[->|[->|[->|[->|[->|[->| ->]]]]]]]]]]];
      cbn; destruct (is_leap_year y); cbn; lia. }
  destruct Hk as (Hk & Hlo & Hhi).
  replace (DayFromYear y + MonthStart leap m + days_in_month y m - 1)
    with (DayFromYear y + k) by (subst k; lia).
  destruct (fields_of_day y k Hk) as (_ & HD & HL). cbv zeta in HD, HL.
  unfold DateFromTime, MonthFromTime. rewrite HD, HL. fold leap.
  assert (C : m = 0 \/ m = 1 \/ m = 2 \/ m = 3 \/ m = 4 \/ m = 5 \/ m = 6 \/
              m = 7 \/ m = 8 \/ m = 9 \/ m = 10 \/ m = 11) by lia.
  subst k leap.
  destruct C as [->|[->|[->|[->|[->|[->|[->|[->|[->|[->|[->| ->]]]]]]]]]]];
    cbn in *; destruct (is_leap_year y); cbn in *; reflexivity.
Qed.

Lemma WeekDay_first_of_month y m :
  0 <= m <= 11 ->
  WeekDay (MakeDate (MakeDay y m 1) 0) = day_of_week y m 1.
Proof.
  intros Hm. unfold WeekDay. rewrite Day_MakeDate.
  unfold MakeDay, day_of_week.
  rewrite (Z.div_small m 12), (Z.mod_small m 12), Z.add_0_r by lia.
  assert (C : m = 0 \/ m = 1 \/ m = 2 \/ m = 3 \/ m = 4 \/ m = 5 \/ m = 6 \/
              m = 7 \/ m = 8 \/ m = 9 \/ m = 10 \/ m = 11) by lia.
  unfold DayFromYear, DaysInYear.
  destruct C as [->|[->|[->|[->|[->|[->|[->|[->|[->|[->|[->| ->]]]]]]]]]]];
    cbn -[Z.div Z.modulo Z.add Z.mul Z.sub];
    destruct (Z.eqb_spec (y mod 4) 0), (Z.eqb_spec (y mod 100) 0),
             (Z.eqb_spec (y mod 400) 0);
    cbn -[Z.div Z.modulo Z.add Z.mul Z.sub];
    Z.div_mod_to_equations; lia.
Qed.

Lemma MakeDay_month y m d :
  0 <= m <= 11 ->
  MakeDay y m d = DayFromYear y + MonthStart (if is_leap_year y then 1 else 0) m + d - 1.
Proof.
  intros Hm. unfold MakeDay.
  rewrite (Z.div_small m 12), (Z.mod_small m 12), Z.add_0_r, DaysInYear_leap by lia.
  destruct (is_leap_year y); reflexivity.
Qed.

Lemma MonthStart_range leap m :
  0 <= leap <= 1 -> 0 <= MonthStart leap m <= 335.
Proof.
  intros Hl. unfold MonthStart.
  repeat match goal with
         | |- context [match ?x with _ => _ end] => destruct x
         end; lia.
Qed.

Lemma DayFromYear_calendar y :
  -271820 <= y <= 275759 ->
  -100000000 + 1 <= DayFromYear y <= 100000000 - 366.
Proof. unfold DayFromYear. intros H. Z.div_mod_to_equations. lia. Qed.

Lemma TimeClip_day day :
  -100000000 <= day <= 100000000 -> TimeClip (MakeDate day 0) = Some (MakeDate day 0).
Proof.
  intros H. unfold TimeClip, MakeDate, msPerDay.
  destruct (Z.gtb_spec (Z.abs (day * 86400000 + 0)) 8640000000000000); [lia|reflexivity].
Qed.

(** In a calendar year the first of a month and the last of a month are
    valid dates. *)
Lemma new_first_of_month y m :
  calendar_year y -> 0 <= m <= 11 ->
  new y m 1 = Some (MakeDate (MakeDay y m 1) 0).
Proof.
  intros Hy Hm. unfold new.
  replace ((0 <=? y) && (y <=? 99)) with false
    by (unfold calendar_year in Hy; symmetry; apply andb_false_iff; lia).
  apply TimeClip_day. rewrite MakeDay_month by exact Hm.
  pose proof (MonthStart_range (if is_leap_year y then 1 else 0) m
                ltac:(destruct (is_leap_year y); lia)).
  pose proof (DayFromYear_calendar y ltac:(unfold calendar_year in Hy; lia)).
  lia.
Qed.

Lemma new_last_of_month y m :
  calendar_year y -> 0 <= m <= 11 ->
  new y (m + 1) 0 = Some (MakeDate (MakeDay y (m + 1) 0) 0).
Proof.
  intros Hy Hm. unfold new.
  replace ((0 <=? y) && (y <=? 99)) with false
    by (unfold calendar_year in Hy; symmetry; apply andb_false_iff; lia).
  apply TimeClip_day. rewrite MakeDay_last_of_month by exact Hm.
  pose proof (MonthStart_range (if is_leap_year y then 1 else 0) m
                ltac:(destruct (is_leap_year y); lia)).
  pose proof (DayFromYear_calendar y ltac:(unfold calendar_year in Hy; lia)).
  assert (28 <= days_in_month y m <= 31).
  { unfold days_in_month.
    repeat match goal with
           | |- context [match ?x with _ => _ end] => destruct x
           end; lia. }
  lia.
Qed.

End DateFacts.

(** ** CalendarManager.getMonthData *)

Section Loops.

Import CalendarManager.

Variable body : Z -> cell.

(** An ascending loop pushes the image of every index from [i] to
    [last]; it stops on its condition as soon as it has that many
    turns. *)
Lemma for_up_pushes (turns : nat) (i last : Z) (days : list cell) :
  (Z.to_nat (last - i + 1) <= turns)%nat ->
  for_up turns i last body days
  = days ++ map (fun k => body (i + Z.of_nat k)) (seq 0 (Z.to_nat (last - i + 1))).
Proof.
  revert i days. induction turns as [|turns IH]; intros i days Hturns.
  - replace (Z.to_nat (last - i + 1)) with O by lia.
    cbn. rewrite app_nil_r. reflexivity.
  - cbn [for_up]. destruct (Z.leb_spec i last) as [Hle|Hgt].
    + rewrite IH by lia. unfold push. rewrite <- app_assoc. f_equal.
      replace (Z.to_nat (last - i + 1)) with (S (Z.to_nat (last - (i + 1) + 1)))
        by lia.
      cbn [seq map app]. rewrite Z.add_0_r. f_equal.
      rewrite <- seq_shift, map_map. apply map_ext. intros k. f_equal. lia.
    + replace (Z.to_nat (last - i + 1)) with O by lia.
      cbn. rewrite app_nil_r. reflexivity.
Qed.

(** A descending loop pushes the image of every index from [i] down
    to 0. *)
Lemma for_down_pushes (turns : nat) (i : Z) (days : list cell) :
  (Z.to_nat (i + 1) <= turns)%nat ->
  for_down turns i body days
  = days ++ map (fun k => body (i - Z.of_nat k)) (seq 0 (Z.to_nat (i + 1))).
Proof.
  revert i days. induction turns as [|turns IH]; intros i days Hturns.
  - replace (Z.to_nat (i + 1)) with O by lia.
    cbn. rewrite app_nil_r. reflexivity.
  - cbn [for_down]. destruct (Z.leb_spec 0 i) as [Hle|Hgt].
    + rewrite IH by lia. unfold push. rewrite <- app_assoc. f_equal.
      replace (Z.to_nat (i + 1)) with (S (Z.to_nat (i - 1 + 1))) by lia.
      cbn [seq map app]. rewrite Z.sub_0_r. f_equal.
      rewrite <- seq_shift, map_map. apply map_ext. intros k. f_equal. lia.
    + replace (Z.to_nat (i + 1)) with O by lia.
      cbn. rewrite app_nil_r. reflexivity.
Qed.

End Loops.

Lemma leading_count_le (year month : Z) : (leading_count year month <= 6)%nat.
Proof.
  unfold leading_count, Date.getDay.
  destruct (Date.new year month 1) as [t|]; cbn; [|lia].
  pose proof (DateFacts.WeekDay_range t). lia.
Qed.

Lemma current_count_le (year month : Z) : (current_count year month <= 31)%nat.
Proof.
  unfold current_count, Date.getDate.
  destruct (Date.new year (month + 1) 0) as [t|]; cbn; [|lia].
  pose proof (DateFacts.DateFromTime_range t). lia.
Qed.

(** The grid is the cells of the three loops, one after the other. *)
Lemma getMonthData_cells (year month : Z) :
  exists leading current trailing,
    CalendarManager.getMonthData year month = leading ++ current ++ trailing /\
    List.length leading = leading_count year month /\
    List.length current = current_count year month /\
    List.length trailing
      = (42 - leading_count year month - current_count year month)%nat /\
    Forall (fun c =>
              CalendarManager.isCurrentMonth c = false /\
              CalendarManager.month c = month - 1 /\
              CalendarManager.year c = (if month =? 0 then year - 1 else year))
           leading /\
    Forall (fun c =>
              CalendarManager.isCurrentMonth c = true /\
              CalendarManager.month c = month /\
              CalendarManager.year c = year)
           current /\
    Forall (fun c =>
              CalendarManager.isCurrentMonth c = false /\
              CalendarManager.month c = month + 1 /\
              CalendarManager.year c = (if month =? 11 then year + 1 else year))
           trailing.
Proof.
  unfold CalendarManager.getMonthData, leading_count, current_count.
  generalize (Date.getDate (Date.new year month 0)). intros daysInPrevMonth.
  set (lead := fun i : Z =>
         CalendarManager.mkCell (option_map (fun d => d - i) daysInPrevMonth)
           (month - 1) (if month =? 0 then year - 1 else year) false).
  set (cur := fun i : Z => CalendarManager.mkCell (Some i) month year true).
  set (trail := fun i : Z =>
         CalendarManager.mkCell (Some i) (month + 1)
           (if month =? 11 then year + 1 else year) false).
  set (days1 := match Date.getDay (Date.new year month 1) with
                | Some f => CalendarManager.for_down _ _ _ _
                | None => []
                end).
  set (days2 := match Date.getDate (Date.new year (month + 1) 0) with
                | Some n => CalendarManager.for_up _ _ _ _ _
                | None => days1
                end).
  assert (E1 : exists leading,
             days1 = leading /\
             List.length leading =
               match Date.getDay (Date.new year month 1) with
               | Some f => Z.to_nat f | None => O end /\
             Forall (fun c => exists i, c = lead i) leading).
  { subst days1. destruct (Date.getDay _) as [f|].
    - rewrite for_down_pushes by lia. cbn [app].
      eexists. split; [reflexivity|]. split.
      + rewrite length_map, length_seq. lia.
      + apply Forall_forall. intros c Hc. apply in_map_iff in Hc.
        destruct Hc as (k & <- & _). eexists. reflexivity.
    - exists []. repeat split. constructor. }
  destruct E1 as (leading & E1 & L1 & F1).
  assert (E2 : exists current,
             days2 = leading ++ current /\
             List.length current =
               match Date.getDate (Date.new year (month + 1) 0) with
               | Some n => Z.to_nat n | None => O end /\
             Forall (fun c => exists i, c = cur i) current).
  { subst days2. rewrite E1.
    destruct (Date.getDate (Date.new year (month + 1) 0)) as [n|].
    - rewrite for_up_pushes by lia.
      eexists. split; [reflexivity|]. split.
      + rewrite length_map, length_seq. lia.
      + apply Forall_forall. intros c Hc. apply in_map_iff in Hc.
        destruct Hc as (k & <- & _). eexists. reflexivity.
    - exists []. rewrite app_nil_r. repeat split. constructor. }
  destruct E2 as (current & E2 & L2 & F2).
  rewrite for_up_pushes by lia.
  exists leading, current. eexists.
  split; [rewrite E2, <- app_assoc; reflexivity|].
  split; [exact L1|]. split; [exact L2|]. split.
  { rewrite length_map, length_seq, ?E2, length_app, L1, L2. lia. }
  split; [|split].
  - eapply Forall_impl; [|exact F1]. intros c (i & ->). cbn. auto.
  - eapply Forall_impl; [|exact F2]. intros c (i & ->). cbn. auto.
  - apply Forall_forall. intros c Hc. apply in_map_iff in Hc.
    destruct Hc as (k & <- & _). cbn. auto.
Qed.

Lemma map_Forall_repeat {A B : Type} (f : A -> B) (b : B) (P : A -> Prop)
    (l : list A) :
  (forall x, P x -> f x = b) -> Forall P l -> map f l = repeat b (List.length l).
Proof.
  intros Hf H. induction H as [|x l Hx _ IH]; [reflexivity|].
  cbn. rewrite (Hf x Hx), IH. reflexivity.
Qed.

(** The flags of the grid, for any arguments. *)
Lemma getMonthData_flags (year month : Z) :
  map CalendarManager.isCurrentMonth (CalendarManager.getMonthData year month)
  = repeat false (leading_count year month)
    ++ repeat true (current_count year month)
    ++ repeat false (42 - leading_count year month - current_count year month).
Proof.
  destruct (getMonthData_cells year month)
    as (leading & current & trailing & E & L1 & L2 & L3 & F1 & F2 & F3).
  rewrite E, !map_app, <- L3, <- L1, <- L2.
  f_equal; [|f_equal].
  - apply (map_Forall_repeat _ _ _ _ (fun c H => proj1 H) F1).
  - apply (map_Forall_repeat _ _ _ _ (fun c H => proj1 H) F2).
  - apply (map_Forall_repeat _ _ _ _ (fun c H => proj1 H) F3).
Qed.

(** In a calendar year the two counts are those of the calendar. *)
Lemma leading_count_calendar (year month : Z) :
  calendar_year year -> 0 <= month <= 11 ->
  leading_count year month = Z.to_nat (day_of_week year month 1).
Proof.
  intros Hy Hm. unfold leading_count.
  rewrite DateFacts.new_first_of_month by assumption. cbn [Date.getDay option_map].
  rewrite DateFacts.WeekDay_first_of_month by assumption. reflexivity.
Qed.

Lemma current_count_calendar (year month : Z) :
  calendar_year year -> 0 <= month <= 11 ->
  current_count year month = Z.to_nat (days_in_month year month).
Proof.
  intros Hy Hm. unfold current_count.
  rewrite DateFacts.new_last_of_month by assumption. cbn [Date.getDate option_map].
  rewrite DateFacts.getDate_last_of_month by assumption. reflexivity.
Qed.

Lemma days_in_month_range (y m : Z) : 28 <= days_in_month y m <= 31.
Proof.
  unfold days_in_month.
  repeat match goal with
         | |- context [match ?x with _ => _ end] => destruct x
         end; lia.
Qed.

(** C6, as stated, fails outside the calendar years.  The Date
    constructor reads a year from 0 to 99 as 1900 + year: the grid asked
    for February of the year 50 is that of February 1950, with three
    leading cells although 1 February 50 is a Tuesday, and the grid for
    February of the leap year 0 has a run of 28 days.  Beyond the range
    of time values a Date is invalid and its loop does not run: the grid
    for September 275760 has no cell of the current month. *)
Lemma getMonthData_outside_calendar_years :
  day_of_week 50 1 1 = 2 /\
  map CalendarManager.isCurrentMonth (CalendarManager.getMonthData 50 1)
  = repeat false 3 ++ repeat true 28 ++ repeat false 11 /\
  days_in_month 0 1 = 29 /\
  map CalendarManager.isCurrentMonth (CalendarManager.getMonthData 0 1)
  = repeat false 4 ++ repeat true 28 ++ repeat false 10 /\
  map CalendarManager.isCurrentMonth (CalendarManager.getMonthData 275760 8)
  = repeat false 42 /\
  map CalendarManager.isCurrentMonth (CalendarManager.getMonthData 50 1)
  <> repeat false (Z.to_nat (day_of_week 50 1 1))
     ++ repeat true (Z.to_nat (days_in_month 50 1))
     ++ repeat false
          (42 - Z.to_nat (day_of_week 50 1 1) - Z.to_nat (days_in_month 50 1)).
Proof.
  repeat split; try (vm_compute; reflexivity).
  vm_compute. discriminate.
Qed.

(** C6, amended: [getMonthData] always returns 42 cells.  For a month
    0..11 of a calendar year, the cells flagged [isCurrentMonth] are one unbroken
    run, as long as the month has days, and the cells before it are as
    many as the day of the week (Sunday = 0) of the first of the
    month; the cells after it fill the grid. *)
Theorem getMonthData_grid (year month : Z) :
  List.length (CalendarManager.getMonthData year month) = 42%nat /\
  (calendar_year year -> 0 <= month <= 11 ->
   let lead := Z.to_nat (day_of_week year month 1) in
   let n := Z.to_nat (days_in_month year month) in
   (lead <= 6)%nat /\ (28 <= n <= 31)%nat /\
   map CalendarManager.isCurrentMonth (CalendarManager.getMonthData year month)
   = repeat false lead ++ repeat true n ++ repeat false (42 - lead - n)).
Proof.
  split.
  - rewrite <- (length_map CalendarManager.isCurrentMonth), getMonthData_flags.
    rewrite !length_app, !repeat_length.
    pose proof (leading_count_le year month).
    pose proof (current_count_le year month). lia.
  - intros Hy Hm lead n.
    pose proof (leading_count_le year month) as Hl.
    rewrite leading_count_calendar in Hl by assumption.
    pose proof (days_in_month_range year month) as Hn.
    split; [exact Hl|]. split; [subst n; lia|].
    rewrite getMonthData_flags, leading_count_calendar, current_count_calendar
      by assumption.
    reflexivity.
Qed.

Lemma getMonthData_grid_witness :
  (Z.to_nat (day_of_week 2024 1 1) <= 6)%nat /\
  (28 <= Z.to_nat (days_in_month 2024 1) <= 31)%nat /\
  map CalendarManager.isCurrentMonth (CalendarManager.getMonthData 2024 1)
  = repeat false 4 ++ repeat true 29 ++ repeat false 9.
Proof.
  apply (proj2 (getMonthData_grid 2024 1)).
  - right. lia.
  - lia.
Defined.

(** At the turn of the year the neighbouring cells carry the rolled
    year together with a month outside 0..11: -1 before January, 12
    after December. *)
Lemma getMonthData_turn_of_year (year : Z) :
  (exists leading rest,
     CalendarManager.getMonthData year 0 = leading ++ rest /\
     List.length leading = leading_count year 0 /\
     Forall (fun c => CalendarManager.month c = -1 /\
                      CalendarManager.year c = year - 1) leading) /\
  (exists rest trailing,
     CalendarManager.getMonthData year 11 = rest ++ trailing /\
     List.length rest = (leading_count year 11 + current_count year 11)%nat /\
     Forall (fun c => CalendarManager.month c = 12 /\
                      CalendarManager.year c = year + 1) trailing).
Proof.
  split.
  - destruct (getMonthData_cells year 0)
      as (leading & current & trailing & E & L1 & _ & _ & F1 & _ & _).
    exists leading, (current ++ trailing). split; [exact E|]. split; [exact L1|].
    eapply Forall_impl; [|exact F1]. cbn. intros c (_ & Hm & Hy). auto.
  - destruct (getMonthData_cells year 11)
      as (leading & current & trailing & E & L1 & L2 & _ & _ & _ & F3).
    exists (leading ++ current), trailing.
    split; [rewrite E, app_assoc; reflexivity|].
    split; [rewrite length_app, L1, L2; reflexivity|].
    eapply Forall_impl; [|exact F3]. cbn. intros c (_ & Hm & Hy). auto.
Qed.

(** C3 on the code.  The grid of January 2024 opens with the cell of
    31 December 2023; the cell carries the year 2023 and the month -1,
    and the Date that the calendar builds from the cell is 31 December
    2022.  The grid of December 2023 closes with the cell of 6 January
    2024; the cell carries the year 2024 and the month 12, and the Date
    built from it is 6 January 2025. *)
Theorem getMonthData_boundary_cells :
  hd_error (CalendarManager.getMonthData 2024 0)
    = Some (CalendarManager.mkCell (Some 31) (-1) 2023 false) /\
  ymd (Date.new 2024 0 0) = (Some 2023, Some 11, Some 31) /\
  ymd (Date_of_cell (CalendarManager.mkCell (Some 31) (-1) 2023 false))
    = (Some 2022, Some 11, Some 31) /\
  nth_error (CalendarManager.getMonthData 2023 11) 41
    = Some (CalendarManager.mkCell (Some 6) 12 2024 false) /\
  ymd (Date.new 2023 11 (31 + 6)) = (Some 2024, Some 0, Some 6) /\
  ymd (Date_of_cell (CalendarManager.mkCell (Some 6) 12 2024 false))
    = (Some 2025, Some 0, Some 6).
Proof. repeat split; vm_compute; reflexivity. Qed.

(** Away from the turn of the year the cells of the neighbouring months
    do denote their dates: the grid of March 2024 opens with 25
    February 2024. *)
Lemma getMonthData_inner_cells :
  hd_error (CalendarManager.getMonthData 2024 2)
    = Some (CalendarManager.mkCell (Some 25) 1 2024 false) /\
  ymd (Date_of_cell (CalendarManager.mkCell (Some 25) 1 2024 false))
    = (Some 2024, Some 1, Some 25) /\
  nth_error (CalendarManager.getMonthData 2024 2) 5
    = Some (CalendarManager.mkCell (Some 1) 2 2024 true).
Proof. repeat split; vm_compute; reflexivity. Qed.

(** * Further properties of the repositories *)

(** ** Finding and mutating in place *)

Lemma mutate_found_none {A : Type} (p : A -> bool) (f : A -> A) (l : list A) :
  find p l = None -> mutate_found p f l = l.
Proof.
  induction l as [|x l IH]; [reflexivity|]. cbn.
  destruct (p x); [discriminate|]. intros H. rewrite IH by exact H. reflexivity.
Qed.

Lemma mutate_found_split {A : Type} (p : A -> bool) (f : A -> A) (l : list A)
    (x : A) :
  find p l = Some x ->
  exists l1 l2,
    l = l1 ++ x :: l2 /\ Forall (fun y => p y = false) l1 /\ p x = true /\
    mutate_found p f l = l1 ++ f x :: l2.
Proof.
  induction l as [|y l IH]; [discriminate|]. cbn.
  destruct (p y) eqn:E.
  - intros [= ->]. exists [], l. repeat split; auto.
  - intros H. destruct (IH H) as (l1 & l2 & -> & F & Hx & ->).
    exists (y :: l1), l2. repeat split; auto.
Qed.

Lemma find_mutate_found {A : Type} (p : A -> bool) (f : A -> A) (l : list A) :
  (forall x, p x = true -> p (f x) = true) ->
  find p (mutate_found p f l) = option_map f (find p l).
Proof.
  intros Hf. induction l as [|x l IH]; [reflexivity|]. cbn.
  destruct (p x) eqn:E; cbn.
  - rewrite (Hf x E). reflexivity.
  - rewrite E. exact IH.
Qed.

(** Mutating under one predicate does not disturb a search under another
    that the mutation respects. *)
Lemma find_mutate_other {A : Type} (p q : A -> bool) (f : A -> A) (l : list A) :
  (forall x, q (f x) = q x) ->
  (forall x, p x = true -> q x = true -> False) ->
  find q (mutate_found p f l) = find q l.
Proof.
  intros Hq Hd. induction l as [|x l IH]; [reflexivity|]. cbn.
  destruct (p x) eqn:E; cbn.
  - rewrite Hq. destruct (q x) eqn:E'; [destruct (Hd x E E')|reflexivity].
  - destruct (q x); [reflexivity|exact IH].
Qed.

Lemma find_app_none {A : Type} (p : A -> bool) (l1 l2 : list A) :
  Forall (fun y => p y = false) l1 -> find p (l1 ++ l2) = find p l2.
Proof.
  induction 1 as [|y l1 Hy _ IH]; [reflexivity|]. cbn. rewrite Hy. exact IH.
Qed.

Lemma find_filter_out {A : Type} (p : A -> bool) (l : list A) :
  find p (filter (fun x => negb (p x)) l) = None.
Proof.
  induction l as [|x l IH]; [reflexivity|]. cbn.
  destruct (p x) eqn:E; cbn; [exact IH|]. rewrite E. exact IH.
Qed.

(** ** How a repository method ends *)

Lemma set_save_ends {A : Type} (h : Host) (ps : list Project.t) (v : A) (w : World) :
  ends h (set_projects ps ;;; ProjectManager.saveProjects h ;;; ret v) w.
Proof.
  destruct (has_room h (localStorage w) "projects" ps) eqn:E.
  - apply (ends_saved _ _ _ v ps E).
    unfold ProjectManager.saveProjects, bind, get_projects, set_projects,
      StorageManager.save, ret; cbn [projects localStorage]. rewrite E. reflexivity.
  - apply (ends_thrown _ _ _ ps E).
    unfold ProjectManager.saveProjects, bind, get_projects, set_projects,
      StorageManager.save, ret; cbn [projects localStorage]. rewrite E. reflexivity.
Qed.

Lemma set_save_only_ends (h : Host) (ps : list Project.t) (w : World) :
  ends h (set_projects ps ;;; ProjectManager.saveProjects h) w.
Proof.
  destruct (has_room h (localStorage w) "projects" ps) eqn:E.
  - apply (ends_saved _ _ _ tt ps E).
    unfold ProjectManager.saveProjects, bind, get_projects, set_projects,
      StorageManager.save, ret; cbn [projects localStorage]. rewrite E. reflexivity.
  - apply (ends_thrown _ _ _ ps E).
    unfold ProjectManager.saveProjects, bind, get_projects, set_projects,
      StorageManager.save, ret; cbn [projects localStorage]. rewrite E. reflexivity.
Qed.

Lemma ends_then_ret {A B : Type} (h : Host) (m : M A) (b : B) (w : World) :
  ends h m w -> ends h (m ;;; ret b) w.
Proof.
  intros [v E|v ps R E|ps R E|v E].
  - apply (ends_untouched _ _ _ b). unfold bind, ret. rewrite E. reflexivity.
  - apply (ends_saved _ _ _ b ps R). unfold bind, ret. rewrite E. reflexivity.
  - apply (ends_thrown _ _ _ ps R). unfold bind, ret. rewrite E. reflexivity.
  - apply (ends_cleared _ _ _ b). unfold bind, ret. rewrite E. reflexivity.
Qed.

Lemma ends_ext {A : Type} (h : Host) (m m' : M A) (w : World) :
  m w = m' w -> ends h m' w -> ends h m w.
Proof.
  intros Hm [v E|v ps R E|ps R E|v E]; rewrite <- Hm in E.
  - apply (ends_untouched _ _ _ v E).
  - apply (ends_saved _ _ _ v ps R E).
  - apply (ends_thrown _ _ _ ps R E).
  - apply (ends_cleared _ _ _ v E).
Qed.

Lemma after_then_ret {A B : Type} (m : M A) (b : B) (w : World) :
  after (m ;;; ret b) w = after m w.
Proof.
  unfold after, bind, ret. destruct (m w) as [[v|e] w']; reflexivity.
Qed.

Lemma createProject_ends (h : Host) (now : Z)
    (name description status priority : string) (deadline : value) (w : World) :
  ends h (ProjectManager.createProject h now name description status priority deadline) w.
Proof.
  eapply ends_ext; [|apply set_save_ends]. reflexivity.
Qed.

Lemma updateProject_ends (h : Host) (id : string) (data : Project.partial) (w : World) :
  ends h (ProjectManager.updateProject h id data) w.
Proof.
  destruct (find (fun p => Project.id p === id) (projects w)) eqn:F.
  - eapply ends_ext; [|apply set_save_ends].
    unfold ProjectManager.updateProject, bind at 1, get_projects.
    rewrite F. reflexivity.
  - apply (ends_untouched _ _ _ None).
    unfold ProjectManager.updateProject, bind at 1, get_projects.
    rewrite F. reflexivity.
Qed.

Lemma deleteProject_ends (h : Host) (id : string) (w : World) :
  ends h (ProjectManager.deleteProject h id) w.
Proof.
  eapply ends_ext; [|apply set_save_only_ends]. reflexivity.
Qed.

Lemma createTask_ends (h : Host) (now : Z)
    (projectId name description status priority : string)
    (dueDate : value) (assignee : string) (w : World) :
  ends h (TaskManager.createTask h now projectId name description status priority
          dueDate assignee) w.
Proof.
  destruct (find (fun p => Project.id p === projectId) (projects w)) eqn:F.
  - eapply ends_ext; [|apply set_save_ends].
    unfold TaskManager.createTask, bind at 1, get_projects.
    rewrite F. reflexivity.
  - eapply ends_untouched.
    unfold TaskManager.createTask, bind at 1, get_projects.
    rewrite F. reflexivity.
Qed.

Lemma updateTask_ends (h : Host) (projectId taskId : string)
    (data : Task.partial) (w : World) :
  ends h (TaskManager.updateTask h projectId taskId data) w.
Proof.
  destruct (find (fun p => Project.id p === projectId) (projects w))
    as [project|] eqn:F.
  - destruct (find (fun t => Task.id t === taskId) (Project.tasks project)) eqn:G.
    + eapply ends_ext; [|apply set_save_ends].
      unfold TaskManager.updateTask, bind at 1, get_projects.
      rewrite F, G. reflexivity.
    + apply (ends_untouched _ _ _ None).
      unfold TaskManager.updateTask, bind at 1, get_projects.
      rewrite F, G. reflexivity.
  - apply (ends_untouched _ _ _ None).
    unfold TaskManager.updateTask, bind at 1, get_projects.
    rewrite F. reflexivity.
Qed.

Lemma deleteTask_ends (h : Host) (projectId taskId : string) (w : World) :
  ends h (TaskManager.deleteTask h projectId taskId) w.
Proof.
  destruct (find (fun p => Project.id p === projectId) (projects w)) eqn:F.
  - eapply ends_ext; [|apply set_save_only_ends].
    unfold TaskManager.deleteTask, bind at 1, get_projects.
    rewrite F. reflexivity.
  - apply (ends_untouched _ _ _ tt).
    unfold TaskManager.deleteTask, bind at 1, get_projects.
    rewrite F. reflexivity.
Qed.

Lemma saveProjects_ends (h : Host) (w : World) :
  ends h (ProjectManager.saveProjects h) w.
Proof.
  destruct (has_room h (localStorage w) "projects" (projects w)) eqn:E.
  - apply (ends_saved _ _ _ tt (projects w) E).
    unfold ProjectManager.saveProjects, bind, get_projects, StorageManager.save.
    rewrite E. reflexivity.
  - apply (ends_thrown _ _ _ (projects w) E).
    unfold ProjectManager.saveProjects, bind, get_projects, StorageManager.save.
    rewrite E. destruct w; reflexivity.
Qed.

Lemma perform_ends (h : Host) (a : action) (w : World) : ends h (perform h a) w.
Proof.
  destruct a; cbn [perform].
  - unfold UIController.handleProjectSubmit.
    destruct valid; cbn [negb]; [|apply (ends_untouched _ _ _ tt); reflexivity].
    destruct (id === ""); cbn [negb]; apply ends_then_ret;
      [apply createProject_ends | apply updateProject_ends].
  - apply deleteProject_ends.
  - unfold UIController.handleTaskSubmit.
    destruct valid; cbn [negb]; [|apply (ends_untouched _ _ _ tt); reflexivity].
    destruct (taskId === ""); cbn [negb]; apply ends_then_ret;
      [apply createTask_ends | apply updateTask_ends].
  - apply deleteTask_ends.
  - apply ends_then_ret, updateTask_ends.
  - apply ends_then_ret, updateTask_ends.
  - apply (ends_cleared _ _ _ tt). reflexivity.
  - apply saveProjects_ends.
Qed.

(** ** Storage in step with memory *)

Lemma in_step_saved (ps : list Project.t) (items : list (string * document)) :
  in_step (mkWorld ps (("projects", ps) :: items)).
Proof. reflexivity. Qed.

Lemma in_step_cleared (items : list (string * document)) :
  in_step (mkWorld [] (filter (fun kv => negb (fst kv === "projects")) items)).
Proof.
  unfold in_step. cbn [localStorage projects].
  rewrite (find_filter_out (fun kv : string * document => fst kv === "projects")).
  reflexivity.
Qed.

(** X1: every event of [action] writes the collection to storage as its
    last step or not at all.  An event that completes normally leaves
    the item under "projects" written from the collection as the event
    left it, if that was so before; an event that throws has stored
    nothing, whatever it did to the collection in memory: storage is as
    it was before the event, and had no room for the collection as the
    event left it. *)
Theorem perform_in_step (h : Host) (a : action) (w : World) :
  (forall u, fst (perform h a w) = Normal u ->
     in_step w -> in_step (after (perform h a) w)) /\
  (forall e, fst (perform h a w) = Throw e ->
     localStorage (after (perform h a) w) = localStorage w /\
     has_room h (localStorage w) "projects" (projects (after (perform h a) w))
     = false).
Proof.
  unfold after.
  destruct (perform_ends h a w) as [v E|v ps _ E|ps R E|v E];
    rewrite E; cbn [fst snd].
  - split; [intros _ _ H; exact H | discriminate].
  - split; [|discriminate]. intros _ _ _. apply in_step_saved.
  - split; [discriminate|]. intros e _. split; [reflexivity|exact R].
  - split; [|discriminate]. intros _ _ _. apply in_step_cleared.
Qed.

(** X2: on a host whose storage always has room no event of [action]
    throws, and after every session that starts with storage in step
    with memory, storage is in step with memory. *)
Theorem session_in_step (h : Host) (actions : list action) (w : World) :
  spacious h ->
  (forall a w0 e, fst (perform h a w0) <> Throw e) /\
  (in_step w -> in_step (session h actions w)).
Proof.
  intros Hroom. split.
  - intros a w0 e.
    destruct (perform_ends h a w0) as [v E|v ps _ E|ps R E|v E];
      rewrite E; cbn [fst]; try discriminate.
    rewrite Hroom in R. discriminate.
  - revert w. induction actions as [|a actions IH]; intros w Hp.
    + exact Hp.
    + cbn [session fold_left]. apply IH. unfold after.
      destruct (perform_ends h a w) as [v E|v ps _ E|ps R E|v E]; rewrite E.
      * exact Hp.
      * apply in_step_saved.
      * rewrite Hroom in R. discriminate.
      * apply in_step_cleared.
Qed.

(** ** The collection after each method *)

Lemma updateProject_projects (h : Host) (id : string) (data : Project.partial)
    (w : World) :
  projects (after (ProjectManager.updateProject h id data) w)
  = mutate_found (fun p => Project.id p === id) (fun p => Project.assign p data)
      (projects w).
Proof.
  unfold after, ProjectManager.updateProject, bind at 1, get_projects.
  destruct (find _ (projects w)) eqn:F.
  - unfold ProjectManager.saveProjects, bind, get_projects, set_projects,
      StorageManager.save, ret; cbn [projects localStorage].
    destruct (has_room h _ _ _); reflexivity.
  - cbn. symmetry. apply mutate_found_none, F.
Qed.

Lemma set_tasks_same (p : Project.t) : Project.set_tasks p (Project.tasks p) = p.
Proof. destruct p; reflexivity. Qed.

Lemma mutate_found_ext {A : Type} (p : A -> bool) (f g : A -> A) (l : list A) :
  (forall x, find p l = Some x -> f x = g x) ->
  mutate_found p f l = mutate_found p g l.
Proof.
  induction l as [|x l IH]; intros Hf; [reflexivity|]. cbn in *.
  destruct (p x) eqn:E.
  - rewrite Hf; reflexivity.
  - rewrite IH; [reflexivity|exact Hf].
Qed.

Lemma mutate_found_same {A : Type} (p : A -> bool) (f : A -> A) (l : list A) :
  (forall x, find p l = Some x -> f x = x) -> mutate_found p f l = l.
Proof.
  induction l as [|x l IH]; intros Hf; [reflexivity|]. cbn in *.
  destruct (p x) eqn:E.
  - rewrite Hf; reflexivity.
  - rewrite IH; [reflexivity|exact Hf].
Qed.

(** The first task with the id, in the first project with the id, is
    the one that [updateTask] rewrites. *)
Lemma updateTask_projects (h : Host) (projectId taskId : string)
    (data : Task.partial) (w : World) :
  projects (after (TaskManager.updateTask h projectId taskId data) w)
  = mutate_found (fun p => Project.id p === projectId)
      (fun p =>
         Project.set_tasks p
           (mutate_found (fun t => Task.id t === taskId)
              (fun t => Task.set_completed (Task.assign t data) (payload_done data))
              (Project.tasks p)))
      (projects w).
Proof.
  unfold after, TaskManager.updateTask, bind at 1, get_projects.
  destruct (find _ (projects w)) as [project|] eqn:F.
  - destruct (find _ (Project.tasks project)) as [task|] eqn:G.
    + unfold ProjectManager.saveProjects, bind, get_projects, set_projects,
        StorageManager.save, ret; cbn [projects localStorage].
      destruct (has_room h _ _ _); cbn [snd projects];
        (apply mutate_found_ext; intros p Hp;
         rewrite F in Hp; injection Hp as <-; f_equal;
         apply mutate_found_ext; intros t Ht; rewrite G in Ht;
         injection Ht as <-; reflexivity).
    + cbn. symmetry. apply mutate_found_same. intros p Hp.
      rewrite F in Hp. injection Hp as <-.
      rewrite mutate_found_none by exact G. apply set_tasks_same.
  - cbn. symmetry. apply mutate_found_none, F.
Qed.

Lemma deleteTask_projects (h : Host) (projectId taskId : string) (w : World) :
  projects (after (TaskManager.deleteTask h projectId taskId) w)
  = mutate_found (fun p => Project.id p === projectId)
      (fun p =>
         Project.set_tasks p
           (filter (fun t => negb (Task.id t === taskId)) (Project.tasks p)))
      (projects w).
Proof.
  unfold after, TaskManager.deleteTask, bind at 1, get_projects.
  destruct (find _ (projects w)) as [project|] eqn:F.
  - unfold ProjectManager.saveProjects, bind, get_projects, set_projects,
      StorageManager.save, ret; cbn [projects localStorage].
    destruct (has_room h _ _ _); reflexivity.
  - cbn. symmetry. apply mutate_found_none, F.
Qed.

(** ** Invariants of a session *)

Lemma in_all_tasks (w : World) (t : Task.t) :
  In t (all_tasks w) <-> exists p, In p (projects w) /\ In t (Project.tasks p).
Proof.
  unfold all_tasks. rewrite in_concat. split.
  - intros (l & Hl & Ht). apply in_map_iff in Hl. destruct Hl as (p & <- & Hp).
    exists p. auto.
  - intros (p & Hp & Ht). exists (Project.tasks p). split; [|exact Ht].
    apply in_map. exact Hp.
Qed.

(** A property of the tasks in their projects survives a mutation in
    place that keeps it in the mutated project. *)
Lemma tasks_keep (P : Project.t -> Task.t -> Prop) (q : Project.t -> bool)
    (f : Project.t -> Project.t) (ps : list Project.t) :
  (forall p t, In p ps -> In t (Project.tasks p) -> P p t) ->
  (forall p, In p ps -> q p = true ->
             forall t, In t (Project.tasks (f p)) -> P (f p) t) ->
  forall p t, In p (mutate_found q f ps) -> In t (Project.tasks p) -> P p t.
Proof.
  intros H Hf p t Hp Ht. apply in_mutate_found in Hp.
  destruct Hp as [Hp|(p0 & Hp0 & Hq & ->)].
  - apply (H p t Hp Ht).
  - apply (Hf p0 Hp0 Hq t Ht).
Qed.

Lemma updateProject_owned (h : Host) (id : string) (data : Project.partial)
    (w : World) :
  Project.id' data = None -> Project.tasks' data = None ->
  owned w -> owned (after (ProjectManager.updateProject h id data) w).
Proof.
  intros Hid Hts Hown. unfold owned. rewrite updateProject_projects.
  apply tasks_keep; [exact Hown|]. intros p Hp _ t. cbn. rewrite Hid, Hts. cbn.
  apply (Hown p t Hp).
Qed.

Lemma deleteTask_owned (h : Host) (projectId taskId : string) (w : World) :
  owned w -> owned (after (TaskManager.deleteTask h projectId taskId) w).
Proof.
  intros Hown. unfold owned. rewrite deleteTask_projects.
  apply tasks_keep; [exact Hown|]. intros p Hp _ t. cbn. intros Ht.
  apply filter_In in Ht. apply (Hown p t Hp (proj1 Ht)).
Qed.

Lemma all_in_sync_projects (w : World) :
  all_in_sync w <->
  (forall p t, In p (projects w) -> In t (Project.tasks p) -> in_sync t).
Proof.
  unfold all_in_sync. split.
  - intros H p t Hp Ht. apply H, in_all_tasks. exists p. auto.
  - intros H t Ht. apply in_all_tasks in Ht. destruct Ht as (p & Hp & Ht).
    apply (H p t Hp Ht).
Qed.

Lemma createProject_in_sync (h : Host) (now : Z)
    (name description status priority : string) (deadline : value) (w : World) :
  all_in_sync w ->
  all_in_sync (after (ProjectManager.createProject h now name description status
                        priority deadline) w).
Proof.
  rewrite !all_in_sync_projects. intros H p t Hp Ht.
  rewrite createProject_projects in Hp. unfold push in Hp.
  apply in_app_or in Hp. destruct Hp as [Hp|[<-|[]]].
  - apply (H p t Hp Ht).
  - destruct Ht.
Qed.

Lemma updateProject_in_sync (h : Host) (id : string) (data : Project.partial)
    (w : World) :
  Project.tasks' data = None ->
  all_in_sync w -> all_in_sync (after (ProjectManager.updateProject h id data) w).
Proof.
  intros Hts. rewrite !all_in_sync_projects. intros H.
  rewrite updateProject_projects.
  apply (tasks_keep (fun _ t => in_sync t)); [exact H|].
  intros p Hp _ t. cbn. rewrite Hts. cbn. apply (H p t Hp).
Qed.

Lemma deleteProject_in_sync (h : Host) (id : string) (w : World) :
  all_in_sync w -> all_in_sync (after (ProjectManager.deleteProject h id) w).
Proof.
  rewrite !all_in_sync_projects. intros H p t Hp Ht.
  rewrite deleteProject_projects in Hp. apply filter_In in Hp.
  apply (H p t (proj1 Hp) Ht).
Qed.

Lemma createTask_in_sync (h : Host) (now : Z)
    (projectId name description status priority : string)
    (dueDate : value) (assignee : string) (w : World) :
  all_in_sync w ->
  all_in_sync (after (TaskManager.createTask h now projectId name description
                        status priority dueDate assignee) w).
Proof.
  rewrite !all_in_sync_projects. intros H.
  rewrite createTask_projects.
  apply (tasks_keep (fun _ t => in_sync t)); [exact H|].
  intros p Hp _ t. cbn. unfold push. intros Ht. apply in_app_or in Ht.
  destruct Ht as [Ht|[<-|[]]]; [apply (H p t Hp Ht)|reflexivity].
Qed.

Lemma updateTask_keeps_in_sync (h : Host) (projectId taskId : string)
    (data : Task.partial) (w : World) (s : string) :
  Task.status' data = Some s ->
  all_in_sync w ->
  all_in_sync (after (TaskManager.updateTask h projectId taskId data) w).
Proof.
  intros Hs. rewrite !all_in_sync_projects. intros H.
  rewrite updateTask_projects.
  apply (tasks_keep (fun _ t => in_sync t)); [exact H|].
  intros p Hp _ t. cbn. intros Ht. apply in_mutate_found in Ht.
  destruct Ht as [Ht|(t0 & _ & _ & ->)]; [apply (H p t Hp Ht)|].
  apply (updateTask_in_sync t0 data s Hs).
Qed.

Lemma deleteTask_in_sync (h : Host) (projectId taskId : string) (w : World) :
  all_in_sync w -> all_in_sync (after (TaskManager.deleteTask h projectId taskId) w).
Proof.
  rewrite !all_in_sync_projects. intros H.
  rewrite deleteTask_projects.
  apply (tasks_keep (fun _ t => in_sync t)); [exact H|].
  intros p Hp _ t. cbn. intros Ht. apply filter_In in Ht.
  apply (H p t Hp (proj1 Ht)).
Qed.

(** Every event of [action] keeps both invariants of the data model. *)
Lemma perform_keeps_invariants (h : Host) (a : action) (w : World) :
  owned w -> all_in_sync w ->
  owned (after (perform h a) w) /\ all_in_sync (after (perform h a) w).
Proof.
  intros Ho Hs. destruct a; cbn [perform].
  - unfold UIController.handleProjectSubmit.
    destruct valid; cbn [negb]; [|split; assumption].
    destruct (id === ""); cbn [negb]; rewrite after_then_ret.
    + split; [apply createProject_owned | apply createProject_in_sync]; assumption.
    + split; [apply updateProject_owned | apply updateProject_in_sync];
        auto.
  - split; [apply deleteProject_owned | apply deleteProject_in_sync]; assumption.
  - unfold UIController.handleTaskSubmit.
    destruct valid; cbn [negb]; [|split; assumption].
    destruct (taskId === ""); cbn [negb]; rewrite after_then_ret.
    + split; [apply createTask_owned | apply createTask_in_sync]; assumption.
    + split; [apply updateTask_owned | eapply updateTask_keeps_in_sync];
        cbn; auto.
  - split; [apply deleteTask_owned | apply deleteTask_in_sync]; assumption.
  - rewrite after_then_ret. unfold UIController.toggleTaskComplete.
    split; [apply updateTask_owned | eapply updateTask_keeps_in_sync];
      cbn; auto.
  - rewrite after_then_ret. unfold KanbanManager.drop.
    split; [apply updateTask_owned | eapply updateTask_keeps_in_sync];
      cbn; auto.
  - split; [intros p t []|intros t []].
  - assert (E : projects (after (ProjectManager.saveProjects h) w) = projects w).
    { unfold after, ProjectManager.saveProjects, bind, get_projects,
        StorageManager.save.
      destruct (has_room _ _ _ _); reflexivity. }
    split.
    + intros p t. rewrite E. apply Ho.
    + apply all_in_sync_projects. intros p t. rewrite E.
      apply all_in_sync_projects. exact Hs.
Qed.

Lemma session_invariants (h : Host) (actions : list action) (w : World) :
  owned w -> all_in_sync w ->
  owned (session h actions w) /\ all_in_sync (session h actions w).
Proof.
  revert w. induction actions as [|a actions IH]; intros w Ho Hs; [auto|].
  cbn [session fold_left].
  destruct (perform_keeps_invariants h a w Ho Hs) as [Ho' Hs'].
  apply IH; assumption.
Qed.

(** ** Creating, finding and deleting *)

Lemma find_app_some {A : Type} (p : A -> bool) (l1 l2 : list A) :
  find p (l1 ++ l2) = match find p l1 with Some x => Some x | None => find p l2 end.
Proof.
  induction l1 as [|y l1 IH]; [reflexivity|]. cbn.
  destruct (p y); [reflexivity|exact IH].
Qed.

Lemma find_filter_keep {A : Type} (q keep : A -> bool) (l : list A) :
  (forall x, q x = true -> keep x = true) ->
  find q (filter keep l) = find q l.
Proof.
  intros H. induction l as [|x l IH]; [reflexivity|]. cbn.
  destruct (keep x) eqn:K; cbn.
  - destruct (q x); [reflexivity|exact IH].
  - destruct (q x) eqn:Q; [rewrite (H x Q) in K; discriminate|exact IH].
Qed.

Lemma eqb_other (a b c : string) : a <> b -> (c === a) = true -> (c === b) = true -> False.
Proof.
  intros Hab Ha Hb. apply String.eqb_eq in Ha, Hb. congruence.
Qed.

(** X4 (createProject): the new project goes last and the others stay
    as they are; the flattened task list is unchanged; a lookup by the
    new id finds the new project unless an older project already has
    that id, which then shadows it; lookups by other ids are not
    affected. *)
Theorem createProject_appends (h : Host) (now : Z)
    (name description status priority : string) (deadline : value) (w : World) :
  let project :=
    Project.new (toString now) name description status priority deadline now in
  let w' :=
    after (ProjectManager.createProject h now name description status priority
             deadline) w in
  projects w' = projects w ++ [project] /\
  TaskManager.getAllTasks w' = TaskManager.getAllTasks w /\
  ProjectManager.getProject w' (toString now)
    = Some match ProjectManager.getProject w (toString now) with
           | Some older => older
           | None => project
           end /\
  (forall id, id <> toString now ->
              ProjectManager.getProject w' id = ProjectManager.getProject w id).
Proof.
  intros project w'.
  assert (E : projects w' = projects w ++ [project])
    by apply createProject_projects.
  split; [exact E|]. split; [|split].
  - rewrite !getAllTasks_views, E, flat_map_app. cbn. rewrite app_nil_r. reflexivity.
  - unfold ProjectManager.getProject. rewrite E, find_app_some.
    destruct (find _ (projects w)); [reflexivity|].
    cbn. rewrite String.eqb_refl. reflexivity.
  - intros id Hid. unfold ProjectManager.getProject. rewrite E, find_app_some.
    destruct (find _ (projects w)); [reflexivity|].
    cbn. destruct (String.eqb_spec (toString now) id); [congruence|reflexivity].
Qed.

(** X5 (updateProject): when the id is found, the first project with the
    id is overwritten in place by the payload: the projects before and
    after it, and their order, are untouched; the call returns the
    updated project unless the save throws; and unless the payload
    changes the id, a lookup by the id finds the updated project. *)
Theorem updateProject_found (h : Host) (id : string) (data : Project.partial)
    (w : World) (project : Project.t) :
  ProjectManager.getProject w id = Some project ->
  let call := ProjectManager.updateProject h id data in
  let project' := Project.assign project data in
  (fst (call w) = Normal (Some project') \/
   fst (call w) = Throw QuotaExceededError) /\
  (exists before rest,
     projects w = before ++ project :: rest /\
     Forall (fun p => (Project.id p === id) = false) before /\
     projects (after call w) = before ++ project' :: rest) /\
  (Project.id' data = None ->
   ProjectManager.getProject (after call w) id = Some project').
Proof.
  intros Hp call project'. split; [|split].
  - unfold call, ProjectManager.updateProject, ProjectManager.saveProjects,
      bind, get_projects, set_projects, StorageManager.save, ret;
      cbn [projects localStorage].
    unfold ProjectManager.getProject in Hp. rewrite Hp.
    destruct (has_room h _ _ _); cbn; auto.
  - unfold call. rewrite updateProject_projects.
    destruct (mutate_found_split _ (fun p => Project.assign p data) _ _ Hp)
      as (l1 & l2 & E & F & _ & M).
    exists l1, l2. auto.
  - intros Hid. unfold call, ProjectManager.getProject.
    rewrite updateProject_projects, find_mutate_found.
    + unfold ProjectManager.getProject in Hp. rewrite Hp. reflexivity.
    + intros p Hpid. cbn. rewrite Hid. exact Hpid.
Qed.

(** X6 (deleteProject): the projects with other ids are found as before;
    when no project has the id the collection is unchanged; and in
    either case the collection is written to storage if there is room. *)
Theorem deleteProject_others (h : Host) (id : string) (w : World) :
  let w' := after (ProjectManager.deleteProject h id) w in
  (forall id', id' <> id ->
               ProjectManager.getProject w' id' = ProjectManager.getProject w id') /\
  (ProjectManager.getProject w id = None -> projects w' = projects w) /\
  (has_room h (localStorage w) "projects" (projects w') = true ->
   localStorage w' = ("projects", projects w') :: localStorage w) /\
  (has_room h (localStorage w) "projects" (projects w') = false ->
   localStorage w' = localStorage w /\
   fst (ProjectManager.deleteProject h id w) = Throw QuotaExceededError).
Proof.
  intros w'.
  assert (E : projects w' = filter (fun p => negb (Project.id p === id)) (projects w))
    by apply deleteProject_projects.
  split; [|split; [|split]].
  - intros id' Hid. unfold ProjectManager.getProject. rewrite E.
    apply find_filter_keep. intros p Hp.
    destruct (Project.id p === id) eqn:Hq; [|reflexivity].
    destruct (eqb_other id' id (Project.id p) Hid Hp Hq).
  - intros Hnone. rewrite E. unfold ProjectManager.getProject in Hnone.
    clear E. induction (projects w) as [|p ps IH]; [reflexivity|].
    cbn in *. destruct (Project.id p === id); [discriminate|].
    cbn. f_equal. apply IH, Hnone.
  - rewrite E. unfold w', after, ProjectManager.deleteProject,
      ProjectManager.saveProjects, bind, get_projects, set_projects,
      StorageManager.save; cbn [projects localStorage].
    intros ->. reflexivity.
  - rewrite E. unfold w', after, ProjectManager.deleteProject,
      ProjectManager.saveProjects, bind, get_projects, set_projects,
      StorageManager.save; cbn [projects localStorage].
    intros ->. auto.
Qed.

(** ** Tasks: creating, finding, updating and deleting *)

(** A lookup after the tasks of the first project with [projectId] were
    rewritten by [g]. *)
Lemma getTask_rewritten (g : list Task.t -> list Task.t) (projectId : string)
    (w w' : World) :
  projects w'
  = mutate_found (fun p => Project.id p === projectId)
      (fun p => Project.set_tasks p (g (Project.tasks p))) (projects w) ->
  (forall taskId,
     TaskManager.getTask w' projectId taskId
     = match ProjectManager.getProject w projectId with
       | Some project => find (fun t => Task.id t === taskId) (g (Project.tasks project))
       | None => None
       end) /\
  (forall projectId' taskId,
     projectId' <> projectId ->
     TaskManager.getTask w' projectId' taskId = TaskManager.getTask w projectId' taskId).
Proof.
  intros E. split.
  - intros taskId. unfold TaskManager.getTask, ProjectManager.getProject.
    rewrite E, find_mutate_found by (intros p Hp; exact Hp).
    destruct (find _ (projects w)); reflexivity.
  - intros projectId' taskId Hne.
    unfold TaskManager.getTask, ProjectManager.getProject.
    rewrite E, find_mutate_other; [reflexivity|reflexivity|].
    intros p Hp Hq. apply (eqb_other projectId' projectId (Project.id p)); auto.
Qed.

(** X7 (createTask): when the project is found, the task is the last task
    of the first project with that id and nothing else changes: the
    flattened list grows by one; a lookup by the new id finds the new
    task unless an older task of the project has that id, which shadows
    it; the other tasks and the other projects are found as before. *)
Theorem createTask_found (h : Host) (now : Z)
    (projectId name description status priority : string)
    (dueDate : value) (assignee : string) (w : World) (project : Project.t) :
  ProjectManager.getProject w projectId = Some project ->
  let task :=
    Task.new now (toString now) projectId name description status priority
      dueDate assignee in
  let w' :=
    after (TaskManager.createTask h now projectId name description status
             priority dueDate assignee) w in
  (exists before rest,
     projects w = before ++ project :: rest /\
     projects w'
     = before ++ Project.set_tasks project (Project.tasks project ++ [task]) :: rest) /\
  List.length (TaskManager.getAllTasks w')
    = S (List.length (TaskManager.getAllTasks w)) /\
  TaskManager.getTask w' projectId (toString now)
    = Some match TaskManager.getTask w projectId (toString now) with
           | Some older => older
           | None => task
           end /\
  (forall taskId, taskId <> toString now ->
     TaskManager.getTask w' projectId taskId = TaskManager.getTask w projectId taskId) /\
  (forall projectId' taskId, projectId' <> projectId ->
     TaskManager.getTask w' projectId' taskId = TaskManager.getTask w projectId' taskId).
Proof.
  intros Hp task w'.
  assert (E : projects w'
              = mutate_found (fun p => Project.id p === projectId)
                  (fun p => Project.set_tasks p (push task (Project.tasks p)))
                  (projects w)) by apply createTask_projects.
  destruct (getTask_rewritten (push task) projectId w w' E) as [Hsame Hother].
  destruct (mutate_found_split _
              (fun p => Project.set_tasks p (push task (Project.tasks p))) _ _ Hp)
    as (l1 & l2 & E1 & F & _ & M).
  split; [|split; [|split; [|split]]].
  - exists l1, l2. rewrite E, M. auto.
  - rewrite !getAllTasks_views, E, M, E1, !flat_map_app, !length_app. cbn.
    rewrite !length_app. unfold views_of, push. cbn.
    rewrite !length_map, length_app. cbn. lia.
  - rewrite Hsame. unfold TaskManager.getTask. rewrite Hp.
    unfold push. rewrite find_app_some.
    destruct (find _ (Project.tasks project)); [reflexivity|].
    cbn. rewrite String.eqb_refl. reflexivity.
  - intros taskId Hne. rewrite Hsame. unfold TaskManager.getTask. rewrite Hp.
    unfold push. rewrite find_app_some.
    destruct (find _ (Project.tasks project)); [reflexivity|].
    cbn. destruct (String.eqb_spec (toString now) taskId); [congruence|reflexivity].
  - exact Hother.
Qed.

(** X8 (deleteTask): afterwards no task with the id is found in the
    project; the project's other tasks and the tasks of other projects
    are found as before; with no such project the world is unchanged
    and nothing is written. *)
Theorem deleteTask_getTask (h : Host) (projectId taskId : string) (w : World) :
  let w' := after (TaskManager.deleteTask h projectId taskId) w in
  TaskManager.getTask w' projectId taskId = None /\
  (forall taskId', taskId' <> taskId ->
     TaskManager.getTask w' projectId taskId' = TaskManager.getTask w projectId taskId') /\
  (forall projectId' taskId', projectId' <> projectId ->
     TaskManager.getTask w' projectId' taskId' = TaskManager.getTask w projectId' taskId') /\
  (ProjectManager.getProject w projectId = None ->
   TaskManager.deleteTask h projectId taskId w = (Normal tt, w)).
Proof.
  intros w'.
  destruct (getTask_rewritten (filter (fun t => negb (Task.id t === taskId)))
              projectId w w' (deleteTask_projects h projectId taskId w))
    as [Hsame Hother].
  split; [|split; [|split]].
  - rewrite Hsame.
    destruct (ProjectManager.getProject w projectId) as [project|]; [|reflexivity].
    apply (find_filter_out (fun t => Task.id t === taskId)).
  - intros taskId' Hne. rewrite Hsame. unfold TaskManager.getTask.
    destruct (ProjectManager.getProject w projectId) as [project|]; [|reflexivity].
    apply find_filter_keep. intros t0 Ht.
    destruct (Task.id t0 === taskId) eqn:Hq; [|reflexivity].
    destruct (eqb_other taskId' taskId (Task.id t0) Hne Ht Hq).
  - exact Hother.
  - intros Hnone. unfold TaskManager.deleteTask, bind, get_projects.
    unfold ProjectManager.getProject in Hnone. rewrite Hnone. reflexivity.
Qed.

(** X9 (updateTask, absent): when the project or the task is not found,
    [updateTask] returns [null], changes nothing and writes nothing. *)
Theorem updateTask_not_found (h : Host) (projectId taskId : string)
    (data : Task.partial) (w : World) :
  TaskManager.getTask w projectId taskId = None ->
  TaskManager.updateTask h projectId taskId data w = (Normal None, w).
Proof.
  unfold TaskManager.getTask, ProjectManager.getProject, TaskManager.updateTask,
    bind, get_projects.
  destruct (find _ (projects w)) as [project|]; [|reflexivity].
  intros ->. reflexivity.
Qed.

Lemma updateTask_lookup (h : Host) (projectId taskId : string)
    (data : Task.partial) (w : World) (task : Task.t) :
  TaskManager.getTask w projectId taskId = Some task ->
  Task.id' data = None ->
  let w' := after (TaskManager.updateTask h projectId taskId data) w in
  let task' := Task.set_completed (Task.assign task data) (payload_done data) in
  TaskManager.getTask w' projectId taskId = Some task' /\
  (forall taskId', taskId' <> taskId ->
     TaskManager.getTask w' projectId taskId' = TaskManager.getTask w projectId taskId') /\
  (forall projectId' taskId', projectId' <> projectId ->
     TaskManager.getTask w' projectId' taskId' = TaskManager.getTask w projectId' taskId') /\
  List.length (TaskManager.getAllTasks w') = List.length (TaskManager.getAllTasks w).
Proof.
  intros Ht Hid w' task'.
  destruct (getTask_rewritten
              (mutate_found (fun t => Task.id t === taskId)
                 (fun t => Task.set_completed (Task.assign t data) (payload_done data)))
              projectId w w' (updateTask_projects h projectId taskId data w))
    as [Hsame Hother].
  assert (Hkeep : forall t : Task.t,
             Task.id (Task.set_completed (Task.assign t data) (payload_done data))
             = Task.id t) by (intros t; cbn; rewrite Hid; reflexivity).
  unfold TaskManager.getTask in Ht.
  destruct (ProjectManager.getProject w projectId) as [project|] eqn:Hp;
    [|discriminate].
  split; [|split; [|split]].
  - rewrite Hsame, find_mutate_found, Ht; [reflexivity|].
    intros t Hq. rewrite Hkeep. exact Hq.
  - intros taskId' Hne. rewrite Hsame. unfold TaskManager.getTask. rewrite Hp.
    apply find_mutate_other.
    + intros t. rewrite Hkeep. reflexivity.
    + intros t Hq Hq'. apply (eqb_other taskId' taskId (Task.id t)); auto.
  - exact Hother.
  - rewrite <- (length_map TaskManager.task (TaskManager.getAllTasks w')),
      <- (length_map TaskManager.task (TaskManager.getAllTasks w)),
      !getAllTasks_tasks.
    unfold all_tasks, w'. rewrite updateTask_projects.
    generalize (projects w). intros ps.
    induction ps as [|p ps IH]; [reflexivity|]. cbn.
    destruct (Project.id p === projectId); cbn; rewrite !length_app.
    + f_equal. clear. induction (Project.tasks p) as [|t ts IH]; [reflexivity|].
      cbn. destruct (Task.id t === taskId); cbn; [reflexivity|].
      f_equal. exact IH.
    + f_equal. exact IH.
Qed.

(** X10 (updateTask, found): with a payload that leaves the id alone, the
    task found under the id afterwards is the old task overwritten by
    the payload, with [completed] set from the payload's status; the
    project's other tasks and the tasks of other projects are found as
    before, and the number of tasks is unchanged. *)
Theorem updateTask_getTask (h : Host) (projectId taskId : string)
    (data : Task.partial) (w : World) (task : Task.t) :
  TaskManager.getTask w projectId taskId = Some task ->
  Task.id' data = None ->
  let w' := after (TaskManager.updateTask h projectId taskId data) w in
  let task' := Task.set_completed (Task.assign task data) (payload_done data) in
  TaskManager.getTask w' projectId taskId = Some task' /\
  (forall taskId', taskId' <> taskId ->
     TaskManager.getTask w' projectId taskId' = TaskManager.getTask w projectId taskId') /\
  (forall projectId' taskId', projectId' <> projectId ->
     TaskManager.getTask w' projectId' taskId' = TaskManager.getTask w projectId' taskId') /\
  List.length (TaskManager.getAllTasks w') = List.length (TaskManager.getAllTasks w).
Proof. exact (updateTask_lookup h projectId taskId data w task). Qed.

(** X11 (toggleTaskComplete): ticking or unticking the checkbox of a task
    that is found sets its status to "Done" or "To Do" and [completed]
    to the checkbox, and leaves its other fields as they were. *)
Theorem toggleTaskComplete_sets (h : Host) (projectId taskId : string)
    (completed : bool) (w : World) (task : Task.t) :
  TaskManager.getTask w projectId taskId = Some task ->
  exists task',
    TaskManager.getTask
      (after (UIController.toggleTaskComplete h projectId taskId completed) w)
      projectId taskId = Some task' /\
    Task.status task' = (if completed then "Done" else "To Do") /\
    Task.completed task' = completed /\
    in_sync task' /\
    (Task.id task', Task.projectId task', Task.name task', Task.description task',
     Task.priority task', Task.dueDate task', Task.assignee task',
     Task.createdAt task')
    = (Task.id task, Task.projectId task, Task.name task, Task.description task,
       Task.priority task, Task.dueDate task, Task.assignee task,
       Task.createdAt task).
Proof.
  intros Ht.
  destruct (updateTask_lookup h projectId taskId (toggle completed) w task Ht
              eq_refl) as (Hget & _).
  eexists. split; [exact Hget|].
  destruct completed; repeat split.
Qed.

(** X12 (drop): dropping the card of a task that is found onto a column
    gives the task the status of the column and sets [completed] exactly
    when the column is "Done"; afterwards the task is in that column of
    the board. *)
Theorem drop_moves_card (h : Host) (projectId taskId newStatus : string)
    (w : World) (task : Task.t) :
  TaskManager.getTask w projectId taskId = Some task ->
  let w' := after (KanbanManager.drop h projectId taskId newStatus) w in
  exists task',
    TaskManager.getTask w' projectId taskId = Some task' /\
    Task.status task' = newStatus /\
    Task.completed task' = (newStatus === "Done") /\
    In task' (map TaskManager.task (TaskManager.getTasksByStatus w' newStatus)).
Proof.
  intros Ht w'. unfold KanbanManager.drop in w'.
  destruct (updateTask_lookup h projectId taskId
              (KanbanManager.status_only newStatus) w task Ht eq_refl)
    as (Hget & _).
  fold w' in Hget. eexists. split; [exact Hget|].
  split; [reflexivity|]. split; [reflexivity|].
  unfold TaskManager.getTasksByStatus.
  rewrite <- (filter_map_swap (fun t => Task.status t === newStatus)),
    getAllTasks_tasks.
  apply filter_In. split; [|cbn; apply String.eqb_refl].
  apply in_all_tasks. unfold TaskManager.getTask in Hget.
  destruct (ProjectManager.getProject w' projectId) as [p|] eqn:Hp; [|discriminate].
  exists p. split.
  - apply (find_some _ _ Hp).
  - apply (find_some _ _ Hget).
Qed.

(** ** The dashboard and the board *)

(** Two different literals cannot both equal one string. *)
Ltac clash :=
  repeat match goal with
         | H : (_ === _) = true |- _ => apply String.eqb_eq in H
         end;
  congruence.

Lemma filter_length_impl {A : Type} (f g : A -> bool) (l : list A) :
  (forall x, f x = true -> g x = true) ->
  (List.length (filter f l) <= List.length (filter g l))%nat.
Proof.
  intros H. induction l as [|x l IH]; [reflexivity|]. cbn.
  destruct (f x) eqn:F.
  - rewrite (H x F). cbn. lia.
  - destruct (g x); cbn; lia.
Qed.

(** X13 (TaskManager.getStats): the overdue tasks are pending tasks, so
    that [overdue <= pending <= total]; [toDo + inProgress <= total]; the
    badge of the notifications shows [overdue]; and [pending] is the
    length of [getPendingTasks()]. *)
Theorem getStats_order (h : Host) (now : Z) (w : World) :
  let s := TaskManager.getStats h now w in
  (forall v, In v (TaskManager.getOverdueTasks h now w) ->
             In v (TaskManager.getPendingTasks w)) /\
  (TaskManager.overdue s <= TaskManager.pending s)%nat /\
  (TaskManager.pending s <= TaskManager.total s)%nat /\
  (TaskManager.toDo s + TaskManager.inProgress s <= TaskManager.total s)%nat /\
  UIController.notificationBadge h now w = TaskManager.overdue s /\
  List.length (TaskManager.getPendingTasks w) = TaskManager.pending s.
Proof.
  assert (Himp : forall v : TaskManager.view,
             Task.isOverdue (Date_parse h) now (TaskManager.task v) = true ->
             negb (Task.completed (TaskManager.task v)) = true).
  { intros v. unfold Task.isOverdue.
    destruct (Task.completed (TaskManager.task v)); [|reflexivity].
    rewrite orb_true_r. discriminate. }
  cbv zeta. unfold TaskManager.getStats; cbn.
  split; [|split; [|split; [|split; [|split]]]]; try reflexivity.
  - intros v Hv. rewrite getOverdueTasks_isOverdue in Hv.
    apply filter_In in Hv. apply filter_In. split; [apply Hv|].
    apply Himp, Hv.
  - rewrite getOverdueTasks_isOverdue. apply filter_length_impl, Himp.
  - apply filter_length_le.
  - generalize (TaskManager.getAllTasks w). intros l.
    induction l as [|v l IH]; [reflexivity|]. cbn [filter].
    destruct (Task.status (TaskManager.task v) === "To Do") eqn:E1,
             (Task.status (TaskManager.task v) === "In Progress") eqn:E2;
      cbn [List.length]; try lia; clash.
Qed.

(** X14 (renderKanban): a task is on the board, in exactly one column,
    when its status is "To Do", "In Progress" or "Done"; a task with any
    other status is in no column.  The three columns and the tasks off
    the board add up to all tasks. *)
Theorem kanban_columns_partition (w : World) :
  let '(todoTasks, inProgressTasks, doneTasks) := UIController.kanban_columns w in
  let off :=
    filter (fun v => negb (on_board (Task.status (TaskManager.task v))))
      (TaskManager.getAllTasks w) in
  (List.length todoTasks + List.length inProgressTasks + List.length doneTasks
   + List.length off = List.length (TaskManager.getAllTasks w))%nat /\
  (forall v, In v todoTasks -> ~ In v inProgressTasks /\ ~ In v doneTasks) /\
  (forall v, In v inProgressTasks -> ~ In v doneTasks) /\
  (forall v, In v (TaskManager.getAllTasks w) ->
     (In v todoTasks \/ In v inProgressTasks \/ In v doneTasks) <->
     on_board (Task.status (TaskManager.task v)) = true).
Proof.
  unfold UIController.kanban_columns, TaskManager.getTasksByStatus. cbv zeta.
  split; [|split; [|split]].
  - generalize (TaskManager.getAllTasks w). intros l. unfold on_board.
    induction l as [|v l IH]; [reflexivity|]. cbn [filter].
    destruct (Task.status (TaskManager.task v) === "To Do") eqn:E1,
             (Task.status (TaskManager.task v) === "In Progress") eqn:E2,
             (Task.status (TaskManager.task v) === "Done") eqn:E3;
      cbn [orb negb List.length]; try lia; clash.
  - intros v Hv. apply filter_In in Hv. destruct Hv as [_ Hv].
    apply String.eqb_eq in Hv.
    split; intros H; apply filter_In in H; destruct H as [_ H];
      rewrite Hv in H; discriminate.
  - intros v Hv. apply filter_In in Hv. destruct Hv as [_ Hv].
    apply String.eqb_eq in Hv.
    intros H; apply filter_In in H; destruct H as [_ H];
      rewrite Hv in H; discriminate.
  - intros v Hin. rewrite !filter_In. unfold on_board.
    rewrite !orb_true_iff. tauto.
Qed.

(** X15 (ProjectManager.getStats): the three named counts never exceed the
    total, and they add up to it exactly when every project's status is
    "Active", "Completed" or "On Hold"; with no project all four are 0. *)
Theorem ProjectManager_getStats_total (w : World) :
  let s := ProjectManager.getStats w in
  let named p :=
    (Project.status p === "Active") || (Project.status p === "Completed")
    || (Project.status p === "On Hold") in
  (ProjectManager.active s + ProjectManager.completed s + ProjectManager.onHold s
   + List.length (filter (fun p => negb (named p)) (projects w))
   = ProjectManager.total s)%nat /\
  ((ProjectManager.active s + ProjectManager.completed s + ProjectManager.onHold s
    = ProjectManager.total s)%nat <->
   forall p, In p (projects w) -> named p = true) /\
  (projects w = [] -> s = ProjectManager.mkStats 0 0 0 0).
Proof.
  cbv zeta. unfold ProjectManager.getStats. cbn.
  assert (Hsum : forall l : list Project.t,
    (List.length (filter (fun p => Project.status p === "Active") l)
     + List.length (filter (fun p => Project.status p === "Completed") l)
     + List.length (filter (fun p => Project.status p === "On Hold") l)
     + List.length
         (filter (fun p => negb ((Project.status p === "Active")
                                 || (Project.status p === "Completed")
                                 || (Project.status p === "On Hold"))) l)
     = List.length l)%nat).
  { induction l as [|p l IH]; [reflexivity|]. cbn [filter].
    destruct (Project.status p === "Active") eqn:E1,
             (Project.status p === "Completed") eqn:E2,
             (Project.status p === "On Hold") eqn:E3;
      cbn [orb negb List.length]; try lia; clash. }
  split; [apply Hsum|]. split.
  - specialize (Hsum (projects w)). split.
    + intros Heq p Hp.
      destruct ((Project.status p === "Active") || (Project.status p === "Completed")
                || (Project.status p === "On Hold")) eqn:E; [reflexivity|].
      assert (Hin : In p (filter (fun p => negb ((Project.status p === "Active")
                                 || (Project.status p === "Completed")
                                 || (Project.status p === "On Hold"))) (projects w))).
      { apply filter_In. split; [exact Hp|]. rewrite E. reflexivity. }
      destruct (filter _ (projects w)) eqn:F in Hin; [destruct Hin|].
      rewrite F in Hsum. cbn in Hsum. lia.
    + intros Hall.
      replace (filter (fun p => negb ((Project.status p === "Active")
                                 || (Project.status p === "Completed")
                                 || (Project.status p === "On Hold"))) (projects w))
        with (@nil Project.t) in Hsum; [cbn in Hsum; lia|].
      symmetry. clear Hsum. induction (projects w) as [|p l IH]; [reflexivity|].
      cbn. rewrite (Hall p) by now left. cbn. apply IH.
      intros q Hq. apply Hall. now right.
  - intros ->. reflexivity.
Qed.

(** X16 (session): the two invariants of the data model, that each task
    refers to the project that holds it and that each task has
    [completed == (status == "Done")], are kept by every session of the
    events of [action]: form submissions, deletions, checkbox ticks,
    card drops, clearing all data and deferred saves.  ([importData()],
    which installs the collection of a file as it is, is not one of
    them.)  So when the session starts from a collection with both
    invariants, then after it the dashboard's count of completed tasks
    is the length of the board's "Done" column, and the pending tasks
    are the tasks outside that column. *)
Theorem session_keeps_invariants (h : Host) (now : Z) (actions : list action)
    (w : World) :
  owned w -> all_in_sync w ->
  let w' := session h actions w in
  let s := TaskManager.getStats h now w' in
  owned w' /\ all_in_sync w' /\
  TaskManager.completed s = List.length (TaskManager.getTasksByStatus w' "Done") /\
  TaskManager.getPendingTasks w'
    = filter (fun v => negb (Task.status (TaskManager.task v) === "Done"))
        (TaskManager.getAllTasks w').
Proof.
  intros Ho Hs w' s.
  destruct (session_invariants h actions w Ho Hs) as [Hown Hsync].
  fold w' in Hown, Hsync.
  assert (Hv : forall v, In v (TaskManager.getAllTasks w') ->
                         Task.completed (TaskManager.task v)
                         = (Task.status (TaskManager.task v) === "Done")).
  { intros v Hv. apply Hsync. rewrite <- getAllTasks_tasks.
    apply in_map, Hv. }
  split; [exact Hown|]. split; [exact Hsync|]. split.
  - unfold s, TaskManager.getStats, TaskManager.getTasksByStatus. cbn.
    f_equal. apply filter_ext_in. exact Hv.
  - unfold TaskManager.getPendingTasks. apply filter_ext_in.
    intros v Hin. rewrite (Hv v Hin). reflexivity.
Qed.

(** ** Clearing all data *)

(** X18 (clearAllData): clearing never throws; afterwards the collection
    is empty, a reload gives the empty collection, every view and every
    count is empty, and what is stored under other keys is kept. *)
Theorem clearAllData_clears (h : Host) (now : Z) (w : World) :
  let w' := after UIController.clearAllData w in
  fst (UIController.clearAllData w) = Normal tt /\
  projects w' = [] /\
  (forall t, ProjectManager.loadProjects t w' = []) /\
  TaskManager.getAllTasks w' = [] /\
  TaskManager.getStats h now w' = TaskManager.mkStats 0 0 0 0 0 0 /\
  ProjectManager.getStats w' = ProjectManager.mkStats 0 0 0 0 /\
  (forall key, key <> "projects" ->
     StorageManager.load key w' = StorageManager.load key w).
Proof.
  cbv zeta. unfold after, UIController.clearAllData, bind, StorageManager.remove,
    set_projects. cbn [fst snd projects localStorage].
  split; [reflexivity|]. split; [reflexivity|]. split; [|repeat split].
  - intros t. unfold ProjectManager.loadProjects, StorageManager.load. cbn.
    rewrite (find_filter_out (fun kv : string * document => fst kv === "projects")).
    reflexivity.
  - intros key Hne. unfold StorageManager.load. cbn. f_equal.
    apply find_filter_keep. intros kv Hk.
    destruct (fst kv === "projects") eqn:Hq; [|reflexivity].
    destruct (eqb_other key "projects" (fst kv) Hne Hk Hq).
Qed.

(** ** The progress bar *)

(** X19 (getProgress): for a project of fewer than 200 tasks the progress
    is a whole number from 0 to 100; it is 100 exactly when the project
    has tasks and all of them are done, and 0 exactly when none is. *)
Theorem getProgress_range (P : Project.t) :
  (List.length (Project.tasks P) < 200)%nat ->
  let n := List.length (Project.tasks P) in
  let c := List.length (filter is_done (Project.tasks P)) in
  exists r,
    Project.getProgress P = Some r /\
    0 <= r <= 100 /\
    (r = 100 <-> (0 < n)%nat /\ c = n) /\
    (r = 0 <-> c = O).
Proof.
  intros Hlt n c.
  assert (Hc : (c <= n)%nat) by apply filter_length_le.
  destruct (Nat.eq_dec n 0) as [Hz|Hnz].
  - exists 0. unfold Project.getProgress. fold n. rewrite Hz. cbn.
    split; [reflexivity|]. split; [lia|]. split.
    + split; [discriminate|lia].
    + split; [lia|reflexivity].
  - assert (Hne : Project.tasks P <> []).
    { intros E. apply Hnz. unfold n. rewrite E. reflexivity. }
    rewrite (getProgress_counts P Hne). fold n c.
    pose proof (faithful_below c n Hc ltac:(lia)) as Hf.
    unfold faithful in Hf.
    destruct (percent (Z.of_nat c) (Z.of_nat n)) as [r|]; [|discriminate].
    exists r. split; [reflexivity|].
    apply andb_prop in Hf. destruct Hf as [Hf _].
    unfold round_half_up in Hf.
    set (N := Z.of_nat n) in *. set (C := Z.of_nat c) in *.
    assert (HN : 0 < N < 200) by lia. assert (HC : 0 <= C <= N) by lia.
    assert (Hcn : c = n <-> C = N) by lia. assert (Hc0 : c = O <-> C = 0) by lia.
    rewrite Hcn, Hc0. clear Hcn Hc0.
    pose proof (Z.div_mod (2 * (100 * C) + N) (2 * N) ltac:(lia)) as D.
    pose proof (Z.mod_pos_bound (2 * (100 * C) + N) (2 * N) ltac:(lia)) as B.
    pose proof (Z.div_mod (200 * C) (2 * N) ltac:(lia)) as D'.
    set (q := (2 * (100 * C) + N) / (2 * N)) in *.
    set (m := (2 * (100 * C) + N) mod (2 * N)) in *.
    assert (Hq : 0 <= q <= 100) by nia.
    assert (Hfull : q = 100 <-> C = N) by (split; intros; nia).
    assert (Hnone : q = 0 <-> C = 0) by (split; intros; nia).
    apply orb_prop in Hf. destruct Hf as [Hf|Hf].
    + apply Z.eqb_eq in Hf. subst r.
      split; [exact Hq|]. split; [|exact Hnone].
      rewrite Hfull. split; [intros; split; [lia|assumption]|intros [_ H]; exact H].
    + apply andb_prop in Hf. destruct Hf as [Hf Ht].
      apply Z.eqb_eq in Hf, Ht. subst r. rewrite Ht in D'.
      set (q' := (200 * C) / (2 * N)) in *.
      assert (Hq' : q = q' + 1 /\ 0 <= q') by nia.
      assert (HC0 : C <> 0) by nia. assert (HCN : C <> N) by nia.
      split; [lia|]. split; split; intros; try split; try lia; nia.
Qed.

(** * Further properties of the calendar *)

Module DateFields.
Import Date DateFacts.

Lemma InLeapYear_leap t :
  InLeapYear t = if is_leap_year (YearFromTime t) then 1 else 0.
Proof.
  unfold InLeapYear. rewrite DaysInYear_leap.
  destruct (is_leap_year _); reflexivity.
Qed.

Lemma MonthFromTime_range t : 0 <= MonthFromTime t <= 11.
Proof.
  unfold MonthFromTime.
  repeat match goal with
         | |- context [?a <? ?b] => destruct (Z.ltb_spec a b)
         end; lia.
Qed.

Lemma Day_TimeWithinDay t : MakeDate (Day t) (TimeWithinDay t) = t.
Proof.
  unfold MakeDate, Day, TimeWithinDay, msPerDay.
  pose proof (Z.div_mod t 86400000 ltac:(lia)). lia.
Qed.

(** Decoding a time value and encoding its fields again gives the time
    value back. *)
Lemma fields_encode t :
  let y := YearFromTime t in
  let m := MonthFromTime t in
  let d := DateFromTime t in
  1 <= d <= days_in_month y m /\ MakeDay y m d = Day t.
Proof.
  cbv zeta. pose proof (DayWithinYear_range t) as R.
  pose proof (MonthFromTime_range t) as Hm.
  rewrite MakeDay_month by exact Hm.
  rewrite DaysInYear_leap in R. rewrite <- InLeapYear_leap.
  assert (HD : Day t = DayFromYear (YearFromTime t) + DayWithinYear t)
    by (unfold DayWithinYear; lia).
  rewrite HD. clear HD Hm.
  unfold DateFromTime, MonthFromTime, days_in_month.
  pose proof (InLeapYear_leap t) as L.
  set (dwy := DayWithinYear t) in *. set (leap := InLeapYear t) in *.
  clearbody dwy leap.
  destruct (is_leap_year (YearFromTime t)); subst leap;
    repeat match goal with
           | |- context [?a <? ?b] => destruct (Z.ltb_spec a b)
           end; cbn; lia.
Qed.

(** Encoding fields and decoding the time value gives the fields back. *)
Lemma fields_decode y m d tod :
  0 <= m <= 11 -> 1 <= d <= days_in_month y m -> 0 <= tod < msPerDay ->
  let t := MakeDate (MakeDay y m d) tod in
  YearFromTime t = y /\ MonthFromTime t = m /\ DateFromTime t = d /\
  TimeWithinDay t = tod /\ Day t = MakeDay y m d.
Proof.
  intros Hm Hd Htod t.
  assert (HDay : Day t = MakeDay y m d).
  { unfold t, Day, MakeDate. unfold msPerDay in *.
    Z.div_mod_to_equations. lia. }
  assert (HT : TimeWithinDay t = tod).
  { unfold t, TimeWithinDay, MakeDate. unfold msPerDay in *.
    Z.div_mod_to_equations. lia. }
  rewrite MakeDay_month in HDay by exact Hm.
  set (leap := if is_leap_year y then 1 else 0) in *.
  assert (Hk : 0 <= MonthStart leap m + d - 1 < DaysInYear y).
  { rewrite DaysInYear_leap. subst leap. unfold days_in_month in Hd.
    assert (C : m = 0 \/ m = 1 \/ m = 2 \/ m = 3 \/ m = 4 \/ m = 5 \/ m = 6 \/
              m = 7 \/ m = 8 \/ m = 9 \/ m = 10 \/ m = 11) by lia.
    destruct C as [->|[->|[->|[->|[->|[->|[->|[->|[->|[->|[->| ->]]]]]]]]]]];
      cbn -[Z.add Z.sub] in *; destruct (is_leap_year y); cbn -[Z.add Z.sub] in *; lia. }
  assert (Y : YearFromTime t = y).
  { apply YearFromTime_unique. unfold TimeFromYear. rewrite DayFromYear_succ.
    unfold t, MakeDate. rewrite MakeDay_month by exact Hm. fold leap.
    unfold msPerDay in *. nia. }
  assert (W : DayWithinYear t = MonthStart leap m + d - 1).
  { unfold DayWithinYear. rewrite Y, HDay. lia. }
  assert (L : InLeapYear t = leap).
  { rewrite InLeapYear_leap, Y. reflexivity. }
  split; [exact Y|]. 
  assert (M : MonthFromTime t = m).
  { unfold MonthFromTime. rewrite W, L.
    unfold days_in_month in Hd. subst leap.
    assert (C : m = 0 \/ m = 1 \/ m = 2 \/ m = 3 \/ m = 4 \/ m = 5 \/ m = 6 \/
              m = 7 \/ m = 8 \/ m = 9 \/ m = 10 \/ m = 11) by lia.
    destruct C as [->|[->|[->|[->|[->|[->|[->|[->|[->|[->|[->| ->]]]]]]]]]]];
      cbn -[Z.add Z.sub] in *; destruct (is_leap_year y); cbn -[Z.add Z.sub] in *;
      repeat match goal with
             | |- context [?a <? ?b] => destruct (Z.ltb_spec a b); try lia
             end; reflexivity. }
  split; [exact M|]. split; [|split; [exact HT|]].
  - unfold DateFromTime. rewrite M, W, L. subst leap.
    assert (C : m = 0 \/ m = 1 \/ m = 2 \/ m = 3 \/ m = 4 \/ m = 5 \/ m = 6 \/
              m = 7 \/ m = 8 \/ m = 9 \/ m = 10 \/ m = 11) by lia.
    destruct C as [->|[->|[->|[->|[->|[->|[->|[->|[->|[->|[->| ->]]]]]]]]]]];
      cbn -[Z.add Z.sub]; lia.
  - rewrite MakeDay_month by exact Hm. exact HDay.
Qed.

Lemma MakeDay_shift y m d k : MakeDay y m (d + k) = MakeDay y m d + k.
Proof. unfold MakeDay. lia. Qed.

Lemma MakeDay_after y m d :
  0 <= m <= 11 ->
  MakeDay y (m + 1) d = MakeDay (fst (month_after y m)) (snd (month_after y m)) d.
Proof.
  intros Hm. unfold month_after.
  destruct (Z.eqb_spec m 11) as [->|Hne]; [|reflexivity].
  unfold MakeDay, fst, snd.
  change ((11 + 1) / 12) with 1. change ((11 + 1) mod 12) with 0.
  change (0 / 12) with 0. change (0 mod 12) with 0.
  rewrite !Z.add_0_r. cbn [MonthStart]. lia.
Qed.

Lemma MakeDay_before y m d :
  0 <= m <= 11 ->
  MakeDay y (m - 1) d = MakeDay (fst (month_before y m)) (snd (month_before y m)) d.
Proof.
  intros Hm. unfold month_before.
  destruct (Z.eqb_spec m 0) as [->|Hne]; [|reflexivity].
  unfold MakeDay, fst, snd.
  change ((0 - 1) / 12) with (-1). change ((0 - 1) mod 12) with 11.
  change (11 / 12) with 0. change (11 mod 12) with 11.
  rewrite !Z.add_0_r. replace (y + -1) with (y - 1) by lia. reflexivity.
Qed.

(** A day past the end of a month is a day of the month after. *)
Lemma MakeDay_overflow y m d :
  0 <= m <= 11 ->
  MakeDay y m d
  = MakeDay (fst (month_after y m)) (snd (month_after y m)) (d - days_in_month y m).
Proof.
  intros Hm. rewrite <- MakeDay_after by exact Hm.
  replace (d - days_in_month y m) with (0 + (d - days_in_month y m)) by lia.
  rewrite MakeDay_shift, MakeDay_last_of_month, MakeDay_month by exact Hm. ring.
Qed.

Lemma month_after_range y m :
  0 <= m <= 11 -> 0 <= snd (month_after y m) <= 11 /\
                  y <= fst (month_after y m) <= y + 1.
Proof.
  intros Hm. unfold month_after. destruct (Z.eqb_spec m 11); cbn [fst snd]; lia.
Qed.

Lemma month_before_range y m :
  0 <= m <= 11 -> 0 <= snd (month_before y m) <= 11 /\
                  y - 1 <= fst (month_before y m) <= y.
Proof.
  intros Hm. unfold month_before. destruct (Z.eqb_spec m 0); cbn [fst snd]; lia.
Qed.

Lemma MakeDay_in_year y m d :
  0 <= m <= 11 -> 1 <= d <= days_in_month y m ->
  DayFromYear y <= MakeDay y m d <= DayFromYear y + 365.
Proof.
  intros Hm Hd. rewrite MakeDay_month by exact Hm. unfold days_in_month in Hd.
  assert (C : m = 0 \/ m = 1 \/ m = 2 \/ m = 3 \/ m = 4 \/ m = 5 \/ m = 6 \/
            m = 7 \/ m = 8 \/ m = 9 \/ m = 10 \/ m = 11) by lia.
  destruct C as [->|[->|[->|[->|[->|[->|[->|[->|[->|[->|[->| ->]]]]]]]]]]];
    cbn -[Z.add Z.sub] in *; destruct (is_leap_year y); cbn -[Z.add Z.sub] in *; lia.
Qed.

Lemma TimeClip_time day tod :
  -100000000 <= day < 100000000 -> 0 <= tod < msPerDay ->
  TimeClip (MakeDate day tod) = Some (MakeDate day tod).
Proof.
  intros Hd Ht. unfold TimeClip, MakeDate. unfold msPerDay in *.
  destruct (Z.gtb_spec (Z.abs (day * 86400000 + tod)) 8640000000000000);
    [lia|reflexivity].
Qed.

(** A day of a month of a year within the range is a valid date. *)
Lemma TimeClip_calendar y m d tod :
  -271820 <= y <= 275759 -> 0 <= m <= 11 -> 1 <= d <= days_in_month y m ->
  0 <= tod < msPerDay ->
  TimeClip (MakeDate (MakeDay y m d) tod) = Some (MakeDate (MakeDay y m d) tod).
Proof.
  intros Hy Hm Hd Ht. apply TimeClip_time; [|exact Ht].
  pose proof (MakeDay_in_year y m d Hm Hd).
  pose proof (DayFromYear_calendar y Hy). lia.
Qed.

Lemma TimeWithinDay_range t : 0 <= TimeWithinDay t < msPerDay.
Proof. unfold TimeWithinDay, msPerDay. apply Z.mod_pos_bound. lia. Qed.

(** The years of the calendar lie well inside the range of time values:
    more than 250 days from either end. *)
Lemma DayFromYear_inside y :
  -271820 <= y <= 275759 ->
  -100000000 + 256 <= DayFromYear y <= 100000000 - 621.
Proof. unfold DayFromYear. intros H. Z.div_mod_to_equations. lia. Qed.

(** A local time of a calendar year is the local time of a valid date,
    whatever the offset of the host, up to a day. *)
Lemma TimeClip_local y m d tod offset :
  -271820 <= y <= 275759 -> 0 <= m <= 11 -> 1 <= d <= days_in_month y m ->
  0 <= tod < msPerDay -> Z.abs offset <= msPerDay ->
  TimeClip (MakeDate (MakeDay y m d) tod - offset)
  = Some (MakeDate (MakeDay y m d) tod - offset).
Proof.
  intros Hy Hm Hd Ht Ho.
  pose proof (MakeDay_in_year y m d Hm Hd).
  pose proof (DayFromYear_inside y Hy).
  unfold TimeClip, MakeDate. unfold msPerDay in *.
  destruct (Z.gtb_spec (Z.abs (MakeDay y m d * 86400000 + tod - offset))
              8640000000000000); [lia|reflexivity].
Qed.

End DateFields.

(** ** CalendarManager.nextMonth and prevMonth *)

Lemma getMonth_fixed (LocalTZA : Z -> bool -> Z) (offset t : Z) :
  fixed_offset LocalTZA offset ->
  LocalDate.getMonth LocalTZA (Some t) = Some (Date.MonthFromTime (t + offset)).
Proof.
  intros Hfix. unfold LocalDate.getMonth, LocalDate.LocalTime. cbn [option_map].
  rewrite Hfix. reflexivity.
Qed.

Lemma setMonth_fixed (LocalTZA : Z -> bool -> Z) (offset t m : Z) :
  fixed_offset LocalTZA offset ->
  LocalDate.setMonth LocalTZA (Some t) (Some m)
  = Date.TimeClip
      (Date.MakeDate
         (Date.MakeDay (Date.YearFromTime (t + offset)) m
                       (Date.DateFromTime (t + offset)))
         (Date.TimeWithinDay (t + offset)) - offset).
Proof.
  intros Hfix. unfold LocalDate.setMonth, LocalDate.LocalTime, LocalDate.UTC.
  cbv zeta. rewrite !Hfix. reflexivity.
Qed.

(** X20 (nextMonth), on a host whose local time is a fixed offset from
    UTC and for a local year from -271820 to 275757: from a date whose
    day exists in the following month, [nextMonth] lands on the same day
    and time of day of the following month (of the next year after
    December), in local time.  From a later day, one that the following
    month does not have, it lands beyond that month: on day minus the
    month's length of the month after it. *)
Theorem nextMonth_lands (LocalTZA : Z -> bool -> Z) (offset t : Z) :
  fixed_offset LocalTZA offset -> Z.abs offset <= Date.msPerDay ->
  let local := t + offset in
  let y := Date.YearFromTime local in
  let m := Date.MonthFromTime local in
  let d := Date.DateFromTime local in
  let '(y1, m1) := month_after y m in
  let '(y2, m2) := month_after y1 m1 in
  -271820 <= y <= 275757 ->
  exists t',
    CalendarManager.nextMonth LocalTZA (Some t) = Some t' /\
    Date.TimeWithinDay (t' + offset) = Date.TimeWithinDay local /\
    (Date.YearFromTime (t' + offset), Date.MonthFromTime (t' + offset),
     Date.DateFromTime (t' + offset))
    = if d <=? days_in_month y1 m1 then (y1, m1, d)
      else (y2, m2, d - days_in_month y1 m1).
Proof.
  intros Hfix Hoff. cbv zeta. set (L := t + offset).
  pose proof (DateFields.MonthFromTime_range L) as Hm.
  pose proof (DateFields.fields_encode L) as [Hd _]. cbv zeta in Hd.
  pose proof (DateFields.TimeWithinDay_range L) as Htod.
  pose proof (DateFields.month_after_range (Date.YearFromTime L)
                (Date.MonthFromTime L) Hm) as [Hm1 Hy1].
  pose proof (DateFields.MakeDay_after (Date.YearFromTime L)
                (Date.MonthFromTime L) (Date.DateFromTime L) Hm) as E1.
  destruct (month_after (Date.YearFromTime L) (Date.MonthFromTime L))
    as [y1 m1] eqn:A1. cbn [fst snd] in *.
  pose proof (DateFields.month_after_range y1 m1 Hm1) as [Hm2 Hy2].
  pose proof (DateFields.MakeDay_overflow y1 m1 (Date.DateFromTime L) Hm1) as E2.
  destruct (month_after y1 m1) as [y2 m2] eqn:A2. cbn [fst snd] in *.
  intros Hy.
  unfold CalendarManager.nextMonth.
  rewrite (getMonth_fixed LocalTZA offset t Hfix). cbn [option_map].
  rewrite (setMonth_fixed LocalTZA offset t _ Hfix). fold L.
  rewrite E1.
  pose proof (days_in_month_range y1 m1) as R1.
  destruct (Z.leb_spec (Date.DateFromTime L) (days_in_month y1 m1)) as [Hle|Hgt].
  - rewrite DateFields.TimeClip_local by (try assumption; lia).
    eexists. split; [reflexivity|].
    rewrite Z.sub_add.
    destruct (DateFields.fields_decode y1 m1 (Date.DateFromTime L)
                (Date.TimeWithinDay L) Hm1 ltac:(lia) Htod)
      as (-> & -> & -> & -> & _).
    auto.
  - rewrite E2.
    assert (Hd2 : 1 <= Date.DateFromTime L - days_in_month y1 m1
                 <= days_in_month y2 m2).
    { pose proof (days_in_month_range y2 m2).
      pose proof (days_in_month_range (Date.YearFromTime L)
                    (Date.MonthFromTime L)). clear - Hd R1 Hgt H H0. lia. }
    rewrite DateFields.TimeClip_local by (try assumption; lia).
    eexists. split; [reflexivity|].
    rewrite Z.sub_add.
    destruct (DateFields.fields_decode y2 m2 _ (Date.TimeWithinDay L) Hm2 Hd2 Htod)
      as (-> & -> & -> & -> & _).
    auto.
Qed.

Lemma month_after_before y m :
  0 <= m <= 11 ->
  month_after (fst (month_before y m)) (snd (month_before y m)) = (y, m).
Proof.
  intros Hm. unfold month_before, month_after.
  destruct (Z.eqb_spec m 0) as [->|H0]; cbn [fst snd].
  - cbn. f_equal. lia.
  - destruct (Z.eqb_spec (m - 1) 11); [lia|]. f_equal. lia.
Qed.

Lemma month_before_after y m :
  0 <= m <= 11 ->
  month_before (fst (month_after y m)) (snd (month_after y m)) = (y, m).
Proof.
  intros Hm. unfold month_before, month_after.
  destruct (Z.eqb_spec m 11) as [->|H0]; cbn [fst snd].
  - cbn. f_equal. lia.
  - destruct (Z.eqb_spec (m + 1) 0); [lia|]. f_equal. lia.
Qed.

(** X21 (prevMonth), on a host whose local time is a fixed offset from
    UTC and for a local year from -271819 to 275759: from a date whose
    day exists in the month before, [prevMonth] lands on the same day
    and time of day of that month (of the year before when the month
    is January), in local time.  From a later day it does not leave the
    current month: it lands on day minus the length of the month
    before. *)
Theorem prevMonth_lands (LocalTZA : Z -> bool -> Z) (offset t : Z) :
  fixed_offset LocalTZA offset -> Z.abs offset <= Date.msPerDay ->
  let local := t + offset in
  let y := Date.YearFromTime local in
  let m := Date.MonthFromTime local in
  let d := Date.DateFromTime local in
  let '(y0, m0) := month_before y m in
  -271819 <= y <= 275759 ->
  exists t',
    CalendarManager.prevMonth LocalTZA (Some t) = Some t' /\
    Date.TimeWithinDay (t' + offset) = Date.TimeWithinDay local /\
    (Date.YearFromTime (t' + offset), Date.MonthFromTime (t' + offset),
     Date.DateFromTime (t' + offset))
    = if d <=? days_in_month y0 m0 then (y0, m0, d)
      else (y, m, d - days_in_month y0 m0).
Proof.
  intros Hfix Hoff. cbv zeta. set (L := t + offset).
  pose proof (DateFields.MonthFromTime_range L) as Hm.
  pose proof (DateFields.fields_encode L) as [Hd _]. cbv zeta in Hd.
  pose proof (DateFields.TimeWithinDay_range L) as Htod.
  pose proof (DateFields.month_before_range (Date.YearFromTime L)
                (Date.MonthFromTime L) Hm) as [Hm0 Hy0].
  pose proof (DateFields.MakeDay_before (Date.YearFromTime L)
                (Date.MonthFromTime L) (Date.DateFromTime L) Hm) as E1.
  pose proof (month_after_before (Date.YearFromTime L) (Date.MonthFromTime L) Hm)
    as A.
  destruct (month_before (Date.YearFromTime L) (Date.MonthFromTime L))
    as [y0 m0] eqn:A0. cbn [fst snd] in *.
  pose proof (DateFields.MakeDay_overflow y0 m0 (Date.DateFromTime L) Hm0) as E2.
  rewrite A in E2. cbn [fst snd] in E2.
  intros Hy.
  unfold CalendarManager.prevMonth.
  rewrite (getMonth_fixed LocalTZA offset t Hfix). cbn [option_map].
  rewrite (setMonth_fixed LocalTZA offset t _ Hfix). fold L.
  rewrite E1.
  pose proof (days_in_month_range y0 m0) as R0.
  destruct (Z.leb_spec (Date.DateFromTime L) (days_in_month y0 m0)) as [Hle|Hgt].
  - rewrite DateFields.TimeClip_local by (try assumption; lia).
    eexists. split; [reflexivity|].
    rewrite Z.sub_add.
    destruct (DateFields.fields_decode y0 m0 (Date.DateFromTime L)
                (Date.TimeWithinDay L) Hm0 ltac:(lia) Htod)
      as (-> & -> & -> & -> & _).
    auto.
  - rewrite E2.
    assert (Hd2 : 1 <= Date.DateFromTime L - days_in_month y0 m0
                 <= days_in_month (Date.YearFromTime L) (Date.MonthFromTime L)).
    { pose proof (days_in_month_range (Date.YearFromTime L)
                    (Date.MonthFromTime L)) as R. clear - Hd R0 Hgt R. lia. }
    rewrite DateFields.TimeClip_local by (try assumption; lia).
    eexists. split; [reflexivity|].
    rewrite Z.sub_add.
    destruct (DateFields.fields_decode _ _ _ (Date.TimeWithinDay L) Hm Hd2 Htod)
      as (-> & -> & -> & -> & _).
    auto.
Qed.

(** X22 (nextMonth, prevMonth), on a host whose local time is a fixed
    offset from UTC and for a local year from -271819 to 275757: on a
    day of the month up to the 28th the two buttons undo each other. *)
Theorem prevMonth_nextMonth (LocalTZA : Z -> bool -> Z) (offset t : Z) :
  fixed_offset LocalTZA offset -> Z.abs offset <= Date.msPerDay ->
  -271819 <= Date.YearFromTime (t + offset) <= 275757 ->
  Date.DateFromTime (t + offset) <= 28 ->
  CalendarManager.prevMonth LocalTZA (CalendarManager.nextMonth LocalTZA (Some t))
    = Some t /\
  CalendarManager.nextMonth LocalTZA (CalendarManager.prevMonth LocalTZA (Some t))
    = Some t.
Proof.
  intros Hfix Hoff Hy Hd28. set (L := t + offset) in *.
  pose proof (DateFields.MonthFromTime_range L) as Hm.
  pose proof (DateFields.fields_encode L) as [Hd E]. cbv zeta in Hd, E.
  pose proof (DateFields.TimeWithinDay_range L) as Htod.
  set (y := Date.YearFromTime L) in *. set (m := Date.MonthFromTime L) in *.
  set (d := Date.DateFromTime L) in *.
  assert (Hback : Date.TimeClip (Date.MakeDate (Date.MakeDay y m d)
                                   (Date.TimeWithinDay L) - offset) = Some t).
  { rewrite DateFields.TimeClip_local by (try assumption; lia).
    rewrite E, DateFields.Day_TimeWithinDay. f_equal. subst L. lia. }
  split.
  - pose proof (DateFields.month_after_range y m Hm) as [Hm1 Hy1].
    pose proof (DateFields.MakeDay_after y m d Hm) as E1.
    pose proof (month_before_after y m Hm) as B.
    destruct (month_after y m) as [y1 m1]. cbn [fst snd] in *.
    pose proof (days_in_month_range y1 m1) as R1.
    unfold CalendarManager.nextMonth.
    rewrite (getMonth_fixed LocalTZA offset t Hfix). cbn [option_map].
    rewrite (setMonth_fixed LocalTZA offset t _ Hfix). fold L. fold y m d.
    rewrite E1.
    rewrite DateFields.TimeClip_local by (try assumption; lia).
    destruct (DateFields.fields_decode y1 m1 d (Date.TimeWithinDay L) Hm1
                ltac:(lia) Htod) as (Y & M & D & T & _).
    unfold CalendarManager.prevMonth.
    rewrite (getMonth_fixed LocalTZA offset _ Hfix). cbn [option_map].
    rewrite (setMonth_fixed LocalTZA offset _ _ Hfix).
    rewrite (Z.sub_add offset
               (Date.MakeDate (Date.MakeDay y1 m1 d) (Date.TimeWithinDay L))).
    rewrite Y, M, D, T.
    rewrite (DateFields.MakeDay_before y1 m1 d Hm1), B. cbn [fst snd].
    exact Hback.
  - pose proof (DateFields.month_before_range y m Hm) as [Hm0 Hy0].
    pose proof (DateFields.MakeDay_before y m d Hm) as E1.
    pose proof (month_after_before y m Hm) as B.
    destruct (month_before y m) as [y0 m0]. cbn [fst snd] in *.
    pose proof (days_in_month_range y0 m0) as R0.
    unfold CalendarManager.prevMonth.
    rewrite (getMonth_fixed LocalTZA offset t Hfix). cbn [option_map].
    rewrite (setMonth_fixed LocalTZA offset t _ Hfix). fold L. fold y m d.
    rewrite E1.
    rewrite DateFields.TimeClip_local by (try assumption; lia).
    destruct (DateFields.fields_decode y0 m0 d (Date.TimeWithinDay L) Hm0
                ltac:(lia) Htod) as (Y & M & D & T & _).
    unfold CalendarManager.nextMonth.
    rewrite (getMonth_fixed LocalTZA offset _ Hfix). cbn [option_map].
    rewrite (setMonth_fixed LocalTZA offset _ _ Hfix).
    rewrite (Z.sub_add offset
               (Date.MakeDate (Date.MakeDay y0 m0 d) (Date.TimeWithinDay L))).
    rewrite Y, M, D, T.
    rewrite (DateFields.MakeDay_after y0 m0 d Hm0), B. cbn [fst snd].
    exact Hback.
Qed.

(** ** The cells of the grid *)

Lemma getDate_previous_month (y m : Z) :
  calendar_year y -> 0 <= m <= 11 ->
  Date.getDate (Date.new y m 0) = Some (previous_month_days y m).
Proof.
  intros Hy Hm. unfold Date.new.
  replace ((0 <=? y) && (y <=? 99)) with false
    by (unfold calendar_year in Hy; symmetry; apply andb_false_iff; lia).
  rewrite DateFields.TimeClip_time; [| |unfold Date.msPerDay; lia].
  - cbn [Date.getDate option_map]. f_equal. unfold previous_month_days.
    pose proof (DateFields.month_before_range y m Hm) as [Hm0 _].
    pose proof (month_after_before y m Hm) as A.
    pose proof (DateFields.MakeDay_overflow (fst (month_before y m))
                  (snd (month_before y m))
                  (days_in_month (fst (month_before y m)) (snd (month_before y m)))
                  Hm0) as E.
    rewrite A, Z.sub_diag in E. cbn [fst snd] in E. rewrite <- E.
    pose proof (days_in_month_range (fst (month_before y m)) (snd (month_before y m))).
    apply (DateFields.fields_decode _ _ _ 0 Hm0); [lia|unfold Date.msPerDay; lia].
  - rewrite DateFacts.MakeDay_month by exact Hm.
    pose proof (DateFacts.MonthStart_range (if is_leap_year y then 1 else 0) m
                  ltac:(destruct (is_leap_year y); lia)).
    pose proof (DateFacts.DayFromYear_calendar y ltac:(unfold calendar_year in Hy; lia)).
    lia.
Qed.

Lemma getMonthData_explicit (y m : Z) :
  calendar_year y -> 0 <= m <= 11 ->
  let lead := Z.to_nat (day_of_week y m 1) in
  let n := Z.to_nat (days_in_month y m) in
  CalendarManager.getMonthData y m
  = map (leading_cell y m (previous_month_days y m) lead) (seq 0 lead)
    ++ map (current_cell y m) (seq 0 n)
    ++ map (trailing_cell y m) (seq 0 (42 - lead - n)).
Proof.
  intros Hy Hm lead n. unfold CalendarManager.getMonthData.
  rewrite (getDate_previous_month y m) by assumption.
  rewrite (DateFacts.new_first_of_month y m), (DateFacts.new_last_of_month y m)
    by assumption.
  cbn [Date.getDay Date.getDate option_map].
  rewrite DateFacts.WeekDay_first_of_month by assumption.
  rewrite DateFacts.getDate_last_of_month by assumption.
  pose proof (days_in_month_range y m) as Rn.
  assert (Rl : 0 <= day_of_week y m 1 <= 6).
  { unfold day_of_week. match goal with |- 0 <= ?a mod 7 <= 6 =>
      pose proof (Z.mod_pos_bound a 7 ltac:(lia)) end. lia. }
  rewrite for_down_pushes by lia. cbn [app].
  rewrite for_up_pushes by lia.
  rewrite for_up_pushes by lia.
  rewrite <- app_assoc.
  replace (Z.to_nat (day_of_week y m 1 - 1 + 1)) with lead by (subst lead; lia).
  replace (Z.to_nat (days_in_month y m - 1 + 1)) with n by (subst n; lia).
  f_equal; [|f_equal].
  - apply map_ext. intros k. unfold leading_cell. cbn [option_map].
    do 2 f_equal. subst lead. lia.
  - rewrite length_app, !length_map, !length_seq.
    replace (Z.to_nat (42 - Z.of_nat (lead + n) - 1 + 1)) with (42 - lead - n)%nat
      by lia.
    reflexivity.
Qed.

(** ** Date strings *)

Module DateStrings.
Import Date.

Lemma append_inj (a a' b b' : string) :
  String.length a = String.length a' ->
  String.append a b = String.append a' b' -> a = a' /\ b = b'.
Proof.
  revert a'. induction a as [|c a IH]; intros [|c' a'] Hl H; try discriminate.
  - auto.
  - cbn in *. injection H as -> H. injection Hl as Hl.
    destruct (IH a' Hl H) as [-> ->]. auto.
Qed.

Lemma digits_value_decimal n :
  0 <= n -> digits_value (NilZero.string_of_int (Z.to_int n)) = Some n.
Proof.
  intros Hn. unfold digits_value.
  destruct n as [|p|p]; [reflexivity| |lia].
  cbn [Z.to_int NilZero.string_of_int]. unfold NilZero.string_of_uint.
  pose proof (Unsigned.to_uint_nonnil p) as Hnil.
  destruct (Pos.to_uint p) eqn:E; try (destruct (Hnil eq_refl));
    rewrite <- E, NilEmpty.usu; cbn [option_map]; f_equal;
    apply (DecimalZ.of_to (Z.pos p)).
Qed.

Lemma digits_value_zero s : digits_value (String "0" s) = digits_value s.
Proof.
  unfold digits_value. cbn [NilEmpty.uint_of_string].
  destruct (NilEmpty.uint_of_string s); reflexivity.
Qed.

Lemma digits_value_padded n k :
  0 <= n -> digits_value (ToZeroPaddedDecimalString n k) = Some n.
Proof.
  intros Hn. unfold ToZeroPaddedDecimalString.
  induction (k - String.length _)%nat as [|j IH]; cbn.
  - apply digits_value_decimal, Hn.
  - rewrite digits_value_zero. exact IH.
Qed.

Lemma digits_value_minus s : digits_value (String "-" s) = None.
Proof.
  unfold digits_value. cbn [NilEmpty.uint_of_string].
  destruct (NilEmpty.uint_of_string s); reflexivity.
Qed.

Lemma padded_inj n n' k :
  0 <= n -> 0 <= n' ->
  ToZeroPaddedDecimalString n k = ToZeroPaddedDecimalString n' k -> n = n'.
Proof.
  intros Hn Hn' E. apply (f_equal digits_value) in E.
  rewrite !digits_value_padded in E by assumption. congruence.
Qed.

Lemma WeekDayName_length d : String.length (WeekDayName d) = 3%nat.
Proof.
  unfold WeekDayName.
  repeat match goal with
         | |- context [match ?x with _ => _ end] => destruct x
         end; reflexivity.
Qed.

Lemma MonthName_length m : String.length (MonthName m) = 3%nat.
Proof.
  unfold MonthName.
  repeat match goal with
         | |- context [match ?x with _ => _ end] => destruct x
         end; reflexivity.
Qed.

Lemma MonthName_inj m m' :
  0 <= m <= 11 -> 0 <= m' <= 11 -> MonthName m = MonthName m' -> m = m'.
Proof.
  intros Hm Hm'.
  assert (C : m = 0 \/ m = 1 \/ m = 2 \/ m = 3 \/ m = 4 \/ m = 5 \/ m = 6 \/
              m = 7 \/ m = 8 \/ m = 9 \/ m = 10 \/ m = 11) by lia.
  assert (C' : m' = 0 \/ m' = 1 \/ m' = 2 \/ m' = 3 \/ m' = 4 \/ m' = 5 \/ m' = 6 \/
               m' = 7 \/ m' = 8 \/ m' = 9 \/ m' = 10 \/ m' = 11) by lia.
  destruct C as [->|[->|[->|[->|[->|[->|[->|[->|[->|[->|[->| ->]]]]]]]]]]];
    destruct C' as [->|[->|[->|[->|[->|[->|[->|[->|[->|[->|[->| ->]]]]]]]]]]];
    cbn; intros E; try reflexivity; discriminate E.
Qed.

(** A day of the month is written with two characters. *)
Lemma day_length d :
  1 <= d <= 31 -> String.length (ToZeroPaddedDecimalString d 2) = 2%nat.
Proof.
  intros Hd.
  assert (H : forallb
                (fun k => Nat.eqb
                   (String.length (ToZeroPaddedDecimalString (Z.of_nat k) 2)) 2)
                (seq 1 31) = true) by (vm_compute; reflexivity).
  rewrite forallb_forall in H. specialize (H (Z.to_nat d)).
  rewrite Z2Nat.id in H by lia. apply Nat.eqb_eq, H, in_seq. lia.
Qed.

Lemma year_inj y y' :
  String.append (if 0 <=? y then "" else "-") (ToZeroPaddedDecimalString (Z.abs y) 4)
  = String.append (if 0 <=? y' then "" else "-")
      (ToZeroPaddedDecimalString (Z.abs y') 4) ->
  y = y'.
Proof.
  destruct (Z.leb_spec 0 y) as [Hy|Hy], (Z.leb_spec 0 y') as [Hy'|Hy'];
    cbn [String.append]; intros E.
  - apply padded_inj in E; lia.
  - apply (f_equal digits_value) in E.
    rewrite digits_value_padded, digits_value_minus in E by lia. discriminate.
  - apply (f_equal digits_value) in E.
    rewrite digits_value_padded, digits_value_minus in E by lia. discriminate.
  - injection E as E. apply padded_inj in E; lia.
Qed.

(** The date string tells the day, and nothing but the day. *)
Lemma DateString_same_day t1 t2 :
  DateString t1 = DateString t2 <-> Day t1 = Day t2.
Proof.
  pose proof (DateFields.fields_encode t1) as [Hd1 E1].
  pose proof (DateFields.fields_encode t2) as [Hd2 E2].
  cbv zeta in Hd1, E1, Hd2, E2.
  pose proof (DateFields.MonthFromTime_range t1) as Hm1.
  pose proof (DateFields.MonthFromTime_range t2) as Hm2.
  pose proof (days_in_month_range (YearFromTime t1) (MonthFromTime t1)) as R1.
  pose proof (days_in_month_range (YearFromTime t2) (MonthFromTime t2)) as R2.
  split.
  - unfold DateString. intros E.
    apply append_inj in E; [|rewrite !WeekDayName_length; reflexivity].
    destruct E as [_ E]. injection E as E.
    apply append_inj in E; [|rewrite !MonthName_length; reflexivity].
    destruct E as [Em E]. injection E as E.
    apply append_inj in E; [|rewrite !day_length by lia; reflexivity].
    destruct E as [Ed E]. injection E as E.
    apply MonthName_inj in Em; [|assumption|assumption].
    apply padded_inj in Ed; [|lia|lia].
    apply year_inj in E.
    rewrite <- E1, <- E2, Em, Ed, E. reflexivity.
  - intros E.
    pose proof (DateFields.TimeWithinDay_range t2) as Htod.
    destruct (DateFields.fields_decode (YearFromTime t1) (MonthFromTime t1)
                (DateFromTime t1) (TimeWithinDay t2) Hm1 Hd1 Htod)
      as (Y & M & D & _ & _).
    rewrite E1, E, DateFields.Day_TimeWithinDay in Y, M, D.
    unfold DateString, WeekDay. rewrite Y, M, D, E. reflexivity.
Qed.

Lemma DateString_valid t : DateString t <> "Invalid Date".
Proof.
  unfold DateString, WeekDayName.
  repeat match goal with
         | |- context [match ?x with _ => _ end] => destruct x
         end; discriminate.
Qed.

Lemma toDateString_same_day (a b : t) :
  toDateString a = toDateString b <-> same_day a b.
Proof.
  destruct a as [t1|], b as [t2|]; cbn.
  - apply DateString_same_day.
  - split; [intros E; destruct (DateString_valid t1 E)|tauto].
  - split; [intros E; destruct (DateString_valid t2 (eq_sym E))|tauto].
  - tauto.
Qed.

End DateStrings.

Lemma LocalDate_toDateString (LocalTZA : Z -> bool -> Z) (a : Date.t) :
  LocalDate.toDateString LocalTZA a
  = Date.toDateString (option_map (LocalDate.LocalTime LocalTZA) a).
Proof. destruct a; reflexivity. Qed.

Lemma getTasksForDate_listed (LocalTZA : Z -> bool -> Z) (h : Host)
    (w : World) (date : Date.t) (v : TaskManager.view) :
  In v (CalendarManager.getTasksForDate LocalTZA h w date) <->
  In v (TaskManager.getAllTasks w) /\
  truthy (Task.dueDate (TaskManager.task v)) = true /\
  same_local_day LocalTZA
    (Date_of_value (Date_parse h) (Task.dueDate (TaskManager.task v))) date.
Proof.
  unfold CalendarManager.getTasksForDate, same_local_day. rewrite filter_In.
  rewrite <- DateStrings.toDateString_same_day, <- !LocalDate_toDateString.
  destruct (truthy (Task.dueDate (TaskManager.task v))); cbn [negb].
  - rewrite String.eqb_eq. tauto.
  - split; [intros [_ H]; discriminate | intros (_ & H & _); discriminate].
Qed.

(** X23 (getTasksForDate), on any host: the tasks listed for a date are
    the tasks whose due date is set and falls on the same day of the
    host's local calendar as the date; a due date that cannot be read
    matches exactly the invalid date. *)
Theorem getTasksForDate_same_day (LocalTZA : Z -> bool -> Z) (h : Host)
    (w : World) (date : Date.t) (v : TaskManager.view) :
  In v (CalendarManager.getTasksForDate LocalTZA h w date) <->
  In v (TaskManager.getAllTasks w) /\
  truthy (Task.dueDate (TaskManager.task v)) = true /\
  same_local_day LocalTZA
    (Date_of_value (Date_parse h) (Task.dueDate (TaskManager.task v))) date.
Proof. exact (getTasksForDate_listed LocalTZA h w date v). Qed.

(** X27 (getTasksForDate), on a host whose local time is a fixed offset
    from UTC: a task whose due date reads as midnight UTC of a day, as
    the day-only text of a date input does, is listed for the dates of
    that day when the host is at or east of Greenwich, and for the dates
    of the day before when it is west of Greenwich. *)
Theorem getTasksForDate_date_only (LocalTZA : Z -> bool -> Z) (offset : Z)
    (h : Host) (w : World) (v : TaskManager.view) (day date : Z) :
  fixed_offset LocalTZA offset ->
  In v (TaskManager.getAllTasks w) ->
  truthy (Task.dueDate (TaskManager.task v)) = true ->
  Date_of_value (Date_parse h) (Task.dueDate (TaskManager.task v))
    = Some (day * Date.msPerDay) ->
  let listed := In v (CalendarManager.getTasksForDate LocalTZA h w (Some date)) in
  (0 <= offset < Date.msPerDay -> (listed <-> Date.Day (date + offset) = day)) /\
  (- Date.msPerDay <= offset < 0 ->
   (listed <-> Date.Day (date + offset) = day - 1)).
Proof.
  intros Hfix Hin Hset Hdue listed. subst listed.
  rewrite getTasksForDate_listed, Hdue.
  unfold same_local_day, LocalDate.LocalTime. cbn [option_map same_day].
  rewrite !Hfix. unfold Date.Day, Date.msPerDay.
  split; intros Ho.
  - replace ((day * 86400000 + offset) / 86400000) with day
      by (Z.div_mod_to_equations; lia).
    split; [intros (_ & _ & E); congruence | intros E; auto].
  - replace ((day * 86400000 + offset) / 86400000) with (day - 1)
      by (unfold Date.msPerDay in Ho; Z.div_mod_to_equations; lia).
    split; [intros (_ & _ & E); congruence | intros E; auto].
Qed.

Lemma nth_error_map_seq {A : Type} (f : nat -> A) (n k : nat) (x : A) :
  nth_error (map f (seq 0 n)) k = Some x -> (k < n)%nat /\ x = f k.
Proof.
  intros H.
  assert (Hk : (k < n)%nat).
  { apply nth_error_Some_iff_lt_length || idtac.
    destruct (Nat.lt_ge_cases k n) as [L|G]; [exact L|].
    assert (nth_error (map f (seq 0 n)) k = None)
      by (apply nth_error_None; rewrite length_map, length_seq; exact G).
    congruence. }
  split; [exact Hk|].
  rewrite nth_error_map, nth_error_seq in H.
  destruct (Nat.ltb_spec k n); [|lia]. cbn in H. congruence.
Qed.

Lemma nth_error_three {A : Type} (f g h : nat -> A) (a b c k : nat) (x : A) :
  nth_error (map f (seq 0 a) ++ map g (seq 0 b) ++ map h (seq 0 c)) k = Some x ->
  (k < a /\ x = f k)%nat \/
  (a <= k < a + b /\ x = g (k - a))%nat \/
  (a + b <= k < a + b + c /\ x = h (k - a - b))%nat.
Proof.
  intros H.
  destruct (Nat.lt_ge_cases k a) as [L|G].
  - rewrite nth_error_app1 in H by (rewrite length_map, length_seq; exact L).
    left. apply nth_error_map_seq, H.
  - rewrite nth_error_app2 in H by (rewrite length_map, length_seq; exact G).
    rewrite length_map, length_seq in H.
    destruct (Nat.lt_ge_cases (k - a) b) as [L'|G'].
    + rewrite nth_error_app1 in H by (rewrite length_map, length_seq; exact L').
      right. left. apply nth_error_map_seq in H. split; [lia|apply H].
    + rewrite nth_error_app2 in H by (rewrite length_map, length_seq; exact G').
      rewrite length_map, length_seq in H.
      right. right. apply nth_error_map_seq in H. split; [lia|apply H].
Qed.

Lemma new_calendar (y m d : Z) :
  calendar_year y ->
  Date.new y m d = Date.TimeClip (Date.MakeDate (Date.MakeDay y m d) 0).
Proof.
  intros Hy. unfold Date.new.
  replace ((0 <=? y) && (y <=? 99)) with false
    by (unfold calendar_year in Hy; symmetry; apply andb_false_iff; lia).
  reflexivity.
Qed.

Lemma day_of_week_range y m d : 0 <= day_of_week y m d <= 6.
Proof.
  unfold day_of_week.
  match goal with |- 0 <= ?a mod 7 <= 6 =>
    pose proof (Z.mod_pos_bound a 7 ltac:(lia)) end. lia.
Qed.

(** A day [d] of month [m], as a Date and by its fields. *)
Lemma new_day (y m d : Z) :
  calendar_year y -> 0 <= m <= 11 -> 1 <= d <= days_in_month y m ->
  Date.new y m d = Some (Date.MakeDate (Date.MakeDay y m d) 0) /\
  ymd (Date.new y m d) = (Some y, Some m, Some d).
Proof.
  intros Hy Hm Hd. rewrite new_calendar by exact Hy.
  rewrite DateFields.TimeClip_calendar;
    [|unfold calendar_year in Hy; lia|exact Hm|exact Hd|unfold Date.msPerDay; lia].
  split; [reflexivity|].
  destruct (DateFields.fields_decode y m d 0 Hm Hd ltac:(unfold Date.msPerDay; lia))
    as (Y & M & D & _).
  unfold ymd, Date.getFullYear, Date.getMonth, Date.getDate. cbn [option_map].
  rewrite Y, M, D. reflexivity.
Qed.

(** X24 (getMonthData, renderCalendar): in the grid of a month 0..11 of a
    calendar year, every cell whose month index is in 0..11 denotes its
    own date: the Date built from the cell has the cell's year, month
    and day.  The dates of these cells are consecutive days: cell [k] is
    the date [k + 1 - lead] days into the month, where [lead] is the day
    of the week of the first, and so falls on the day of the week
    [k mod 7] of its column. *)
Theorem getMonthData_cell_dates (y m : Z) (k : nat) (c : CalendarManager.cell) :
  calendar_year y -> 0 <= m <= 11 ->
  nth_error (CalendarManager.getMonthData y m) k = Some c ->
  0 <= CalendarManager.month c <= 11 ->
  ymd (Date_of_cell c)
    = (Some (CalendarManager.year c), Some (CalendarManager.month c),
       CalendarManager.day c) /\
  Date_of_cell c = Date.new y m (Z.of_nat k + 1 - day_of_week y m 1) /\
  Date.getDay (Date_of_cell c) = Some (Z.of_nat k mod 7).
Proof.
  intros Hy Hm Hk Hc.
  pose proof (day_of_week_range y m 1) as Rl.
  pose proof (days_in_month_range y m) as Rn.
  pose proof (DateFacts.WeekDay_first_of_month y m Hm) as Hw.
  unfold Date.WeekDay in Hw. rewrite DateFacts.Day_MakeDate in Hw.
  set (lead := day_of_week y m 1) in *.
  assert (Hday : forall d,
             Date.TimeClip (Date.MakeDate (Date.MakeDay y m 1 + d) 0)
             = Some (Date.MakeDate (Date.MakeDay y m 1 + d) 0) ->
             Z.of_nat k = lead + d ->
             Date.getDay (Date.TimeClip (Date.MakeDate (Date.MakeDay y m 1 + d) 0))
             = Some (Z.of_nat k mod 7)).
  { intros d -> Hkd. cbn [Date.getDay option_map]. f_equal.
    unfold Date.WeekDay. rewrite DateFacts.Day_MakeDate, Hkd.
    clear - Hw Rl. Z.div_mod_to_equations. lia. }
  rewrite getMonthData_explicit in Hk by assumption. cbv zeta in Hk.
  apply nth_error_three in Hk. fold lead in Hk.
  destruct Hk as [[Hlt ->]|[[Hlt ->]|[Hlt ->]]].
  - (* a day of the month before *)
    unfold leading_cell in *. cbn [CalendarManager.month] in Hc.
    unfold Date_of_cell; cbn [CalendarManager.day CalendarManager.month
                                CalendarManager.year].
    destruct (Z.eqb_spec m 0) as [Hz|Hz]; [lia|].
    unfold previous_month_days, month_before.
    destruct (Z.eqb_spec m 0) as [|_]; [lia|]. cbn [fst snd].
    pose proof (days_in_month_range y (m - 1)) as Rp.
    set (dpm := days_in_month y (m - 1)) in *.
    set (d := dpm - (Z.of_nat (Z.to_nat lead) - 1 - Z.of_nat k)).
    assert (Hd : 1 <= d <= dpm) by (subst d; lia).
    destruct (new_day y (m - 1) d Hy ltac:(lia) Hd) as [Hnew Hymd].
    assert (E : Date.MakeDay y (m - 1) d = Date.MakeDay y m 1 + (Z.of_nat k - lead)).
    { pose proof (DateFields.MakeDay_overflow y (m - 1) d ltac:(lia)) as O.
      unfold month_after in O. destruct (Z.eqb_spec (m - 1) 11); [lia|].
      cbn [fst snd] in O. replace (m - 1 + 1) with m in O by lia.
      rewrite O. fold dpm.
      replace (d - dpm) with (1 + (d - dpm - 1)) by lia.
      rewrite DateFields.MakeDay_shift. subst d. lia. }
    split; [exact Hymd|].
    rewrite Hnew, (new_calendar y m) by exact Hy.
    replace (Z.of_nat k + 1 - lead) with (1 + (Z.of_nat k - lead)) by lia.
    rewrite DateFields.MakeDay_shift, <- E.
    rewrite <- Hnew, new_calendar in * by exact Hy.
    split; [reflexivity|]. rewrite E in *. apply Hday; [|lia].
    rewrite Hnew. reflexivity.
  - (* a day of the month *)
    unfold current_cell in *.
    unfold Date_of_cell; cbn [CalendarManager.day CalendarManager.month
                                CalendarManager.year].
    set (d := 1 + Z.of_nat (k - Z.to_nat lead)).
    assert (Hd : 1 <= d <= days_in_month y m) by (subst d; lia).
    destruct (new_day y m d Hy Hm Hd) as [Hnew Hymd].
    split; [exact Hymd|].
    replace (Z.of_nat k + 1 - lead) with d by (subst d; lia).
    split; [reflexivity|].
    rewrite new_calendar in * by exact Hy.
    replace d with (1 + (d - 1)) in * by lia.
    rewrite DateFields.MakeDay_shift in *. apply Hday; [exact Hnew|subst d; lia].
  - (* a day of the month after *)
    unfold trailing_cell in *. cbn [CalendarManager.month] in Hc.
    unfold Date_of_cell; cbn [CalendarManager.day CalendarManager.month
                                CalendarManager.year].
    destruct (Z.eqb_spec m 11) as [Hz|Hz]; [lia|].
    set (n := days_in_month y m) in *.
    set (d := 1 + Z.of_nat (k - Z.to_nat lead - Z.to_nat n)).
    pose proof (days_in_month_range y (m + 1)) as Ra.
    assert (Hd : 1 <= d <= days_in_month y (m + 1)) by (subst d; lia).
    destruct (new_day y (m + 1) d Hy ltac:(lia) Hd) as [Hnew Hymd].
    assert (E : Date.MakeDay y (m + 1) d = Date.MakeDay y m 1 + (Z.of_nat k - lead)).
    { replace d with (0 + d) by lia.
      rewrite DateFields.MakeDay_shift, DateFacts.MakeDay_last_of_month by exact Hm.
      rewrite (DateFacts.MakeDay_month y m 1) by exact Hm. fold n. subst d. lia. }
    split; [exact Hymd|].
    rewrite Hnew, (new_calendar y m) by exact Hy.
    replace (Z.of_nat k + 1 - lead) with (1 + (Z.of_nat k - lead)) by lia.
    rewrite DateFields.MakeDay_shift, <- E.
    rewrite <- Hnew, new_calendar in * by exact Hy.
    split; [reflexivity|]. rewrite E in *. apply Hday; [|lia].
    rewrite Hnew. reflexivity.
Qed.

Lemma nth_error_middle {A : Type} (f g h : nat -> A) (a b c k : nat) :
  (k < b)%nat ->
  nth_error (map f (seq 0 a) ++ map g (seq 0 b) ++ map h (seq 0 c)) (a + k)
  = Some (g k).
Proof.
  intros Hk.
  rewrite nth_error_app2 by (rewrite length_map, length_seq; lia).
  rewrite length_map, length_seq.
  replace (a + k - a)%nat with k by lia.
  rewrite nth_error_app1 by (rewrite length_map, length_seq; lia).
  rewrite nth_error_map, nth_error_seq.
  destruct (Nat.ltb_spec k b); [reflexivity|lia].
Qed.

(** X25 (renderCalendar): for a current date in a calendar year, the month
    that the calendar asks for is in 0..11, and the grid of that month
    and year has, [lead + day - 1] cells in, the cell of the current
    date's own day, flagged as of the current month; the Date built from
    that cell has the date string of the current date. *)
Theorem currentDate_cell (t : Z) :
  let y := Date.YearFromTime t in
  let m := Date.MonthFromTime t in
  let d := Date.DateFromTime t in
  calendar_year y ->
  CalendarManager.getCurrentYear (Some t) = Some y /\
  CalendarManager.getCurrentMonth (Some t) = Some m /\
  0 <= m <= 11 /\
  exists k,
    Z.of_nat k = day_of_week y m 1 + d - 1 /\
    nth_error (CalendarManager.getMonthData y m) k
      = Some (CalendarManager.mkCell (Some d) m y true) /\
    Date.toDateString (Date_of_cell (CalendarManager.mkCell (Some d) m y true))
      = Date.toDateString (Some t).
Proof.
  cbv zeta. intros Hy.
  pose proof (DateFields.MonthFromTime_range t) as Hm.
  pose proof (DateFields.fields_encode t) as [Hd E]. cbv zeta in Hd, E.
  pose proof (day_of_week_range (Date.YearFromTime t) (Date.MonthFromTime t) 1) as Rl.
  set (y := Date.YearFromTime t) in *. set (m := Date.MonthFromTime t) in *.
  set (d := Date.DateFromTime t) in *.
  split; [reflexivity|]. split; [reflexivity|]. split; [exact Hm|].
  exists (Z.to_nat (day_of_week y m 1) + Z.to_nat (d - 1))%nat.
  split; [clear - Rl Hd; lia|]. split.
  - rewrite getMonthData_explicit by assumption. cbv zeta.
    rewrite nth_error_middle by lia. unfold current_cell.
    repeat f_equal. clear - Hd. lia.
  - unfold Date_of_cell. cbn [CalendarManager.day CalendarManager.month
                               CalendarManager.year].
    destruct (new_day y m d Hy Hm Hd) as [-> _].
    apply DateStrings.toDateString_same_day. cbn.
    rewrite DateFacts.Day_MakeDate. exact E.
Qed.

(** X26 (getMonthData): the day numbers of the grid of a month 0..11 of a
    calendar year, also at the turn of the year: the last days of the
    month before, ending with its last day; then 1 to the length of the
    month; then 1 onwards until the grid is full. *)
Theorem getMonthData_day_numbers (y m : Z) :
  calendar_year y -> 0 <= m <= 11 ->
  let lead := Z.to_nat (day_of_week y m 1) in
  let n := Z.to_nat (days_in_month y m) in
  let dpm := previous_month_days y m in
  map CalendarManager.day (CalendarManager.getMonthData y m)
  = map (fun k => Some (dpm - Z.of_nat lead + 1 + Z.of_nat k)) (seq 0 lead)
    ++ map (fun k => Some (1 + Z.of_nat k)) (seq 0 n)
    ++ map (fun k => Some (1 + Z.of_nat k)) (seq 0 (42 - lead - n)).
Proof.
  intros Hy Hm lead n dpm.
  rewrite getMonthData_explicit by assumption. cbv zeta.
  rewrite !map_app, !map_map. fold lead n dpm.
  apply f_equal2; [|reflexivity].
  apply map_ext. intros k. cbn. f_equal. lia.
Qed.

(** * The added properties on sample data *)

Lemma perform_in_step_witness :
  in_step (after (perform roomy (DeleteProject "1")) portfolio).
Proof.
  apply (proj1 (perform_in_step roomy (DeleteProject "1") portfolio) tt);
    reflexivity.
Defined.

Lemma session_in_step_witness :
  in_step
    (session roomy
       [SubmitProject 1 true "" "Launch" "" "Active" "High" "";
        SubmitTask 2 true "1" "" "Design" "" "To Do" "High" "2024-01-01" "";
        ToggleTask "1" "2" true; ClearAll; AutoSave]
       empty).
Proof.
  apply session_in_step.
  - intros items key data. reflexivity.
  - reflexivity.
Defined.

Lemma session_keeps_invariants_witness :
  owned
    (session roomy
       [SubmitProject 1 true "" "Launch" "" "Active" "High" "";
        SubmitTask 2 true "1" "" "Design" "" "To Do" "High" "2024-01-01" "";
        DropCard "1" "2" "Done"]
       empty) /\
  all_in_sync
    (session roomy
       [SubmitProject 1 true "" "Launch" "" "Active" "High" "";
        SubmitTask 2 true "1" "" "Design" "" "To Do" "High" "2024-01-01" "";
        DropCard "1" "2" "Done"]
       empty).
Proof.
  assert (O : owned empty) by (intros p t []).
  assert (S : all_in_sync empty) by (intros t []).
  pose proof
    (session_keeps_invariants roomy 0
       [SubmitProject 1 true "" "Launch" "" "Active" "High" "";
        SubmitTask 2 true "1" "" "Design" "" "To Do" "High" "2024-01-01" "";
        DropCard "1" "2" "Done"]
       empty O S) as H.
  exact (conj (proj1 H) (proj1 (proj2 H))).
Defined.

Lemma createProject_appends_witness :
  ProjectManager.getProject
    (after (ProjectManager.createProject roomy 5 "Audit" "" "Active" "Low" (str ""))
       launch) "1"
  = ProjectManager.getProject launch "1".
Proof.
  apply (proj2 (proj2 (proj2
           (createProject_appends roomy 5 "Audit" "" "Active" "Low" (str "")
              launch)))).
  discriminate.
Defined.

Lemma updateProject_found_witness :
  ProjectManager.getProject
    (after (ProjectManager.updateProject roomy "1" retitle) launch) "1"
  = Some (Project.assign (sample_project 1 1) retitle).
Proof.
  apply (updateProject_found roomy "1" retitle launch (sample_project 1 1));
    reflexivity.
Defined.

Lemma deleteProject_others_witness :
  ProjectManager.getProject
    (after (ProjectManager.deleteProject roomy "1") portfolio) "2"
  = ProjectManager.getProject portfolio "2".
Proof.
  apply (proj1 (deleteProject_others roomy "1" portfolio)). discriminate.
Defined.

Lemma createTask_found_witness :
  List.length
    (TaskManager.getAllTasks
       (after (TaskManager.createTask roomy 5 "1" "Build" "" "To Do" "Low"
                 (str "") "") launch))
  = S (List.length (TaskManager.getAllTasks launch)).
Proof.
  apply (proj1 (proj2
           (createTask_found roomy 5 "1" "Build" "" "To Do" "Low" (str "") ""
              launch (sample_project 1 1) eq_refl))).
Defined.

Lemma deleteTask_getTask_witness :
  TaskManager.getTask (after (TaskManager.deleteTask roomy "1" "9") portfolio)
    "1" "3"
  = TaskManager.getTask portfolio "1" "3".
Proof.
  apply (proj1 (proj2 (deleteTask_getTask roomy "1" "9" portfolio))).
  discriminate.
Defined.

Lemma updateTask_not_found_witness :
  TaskManager.updateTask cramped "1" "404" rename launch = (Normal None, launch).
Proof.
  apply (updateTask_not_found cramped "1" "404" rename launch). reflexivity.
Defined.

Lemma updateTask_getTask_witness :
  TaskManager.getTask (after (TaskManager.updateTask roomy "1" "7" (toggle false))
                         launch) "1" "7"
  = Some (Task.set_completed (Task.assign (sample_task "Done") (toggle false))
            false).
Proof.
  apply (updateTask_getTask roomy "1" "7" (toggle false) launch
           (sample_task "Done")); reflexivity.
Defined.

Lemma toggleTaskComplete_sets_witness :
  exists task',
    TaskManager.getTask
      (after (UIController.toggleTaskComplete roomy "1" "7" false) launch)
      "1" "7" = Some task' /\
    Task.status task' = "To Do" /\
    Task.completed task' = false /\
    in_sync task' /\
    (Task.id task', Task.projectId task', Task.name task', Task.description task',
     Task.priority task', Task.dueDate task', Task.assignee task',
     Task.createdAt task')
    = ("7", "1", "Design", "", "High", str "", "", 0).
Proof.
  apply (toggleTaskComplete_sets roomy "1" "7" false launch (sample_task "Done")).
  reflexivity.
Defined.

Lemma drop_moves_card_witness :
  exists task',
    TaskManager.getTask
      (after (KanbanManager.drop roomy "1" "7" "In Progress") launch) "1" "7"
    = Some task' /\
    Task.status task' = "In Progress" /\
    Task.completed task' = false /\
    In task'
       (map TaskManager.task
          (TaskManager.getTasksByStatus
             (after (KanbanManager.drop roomy "1" "7" "In Progress") launch)
             "In Progress")).
Proof.
  apply (drop_moves_card roomy "1" "7" "In Progress" launch (sample_task "Done")).
  reflexivity.
Defined.

Lemma getStats_order_witness :
  In (TaskManager.mkView
        (Task.new 3 "3" "1" "Design" "" "To Do" "High" (str "2024-01-01") "")
        "Launch")
     (TaskManager.getPendingTasks portfolio).
Proof.
  apply (proj1 (getStats_order roomy 1793491200000 portfolio)).
  left. reflexivity.
Defined.

Lemma kanban_columns_partition_witness :
  ~ In (TaskManager.mkView
          (Task.new 3 "3" "1" "Design" "" "To Do" "High" (str "2024-01-01") "")
          "Launch")
       (TaskManager.getTasksByStatus portfolio "Done").
Proof.
  apply (proj1 (proj2 (kanban_columns_partition portfolio))).
  left. reflexivity.
Defined.

Lemma ProjectManager_getStats_total_witness :
  (Project.status (sample_project 1 1) === "Active")
  || (Project.status (sample_project 1 1) === "Completed")
  || (Project.status (sample_project 1 1) === "On Hold") = true.
Proof.
  apply (proj1 (proj1 (proj2 (ProjectManager_getStats_total launch)))).
  - reflexivity.
  - left. reflexivity.
Defined.

Lemma clearAllData_clears_witness :
  StorageManager.load "currentUser" (after UIController.clearAllData portfolio)
  = StorageManager.load "currentUser" portfolio.
Proof.
  apply (proj2 (proj2 (proj2 (proj2 (proj2 (proj2
           (clearAllData_clears roomy 0 portfolio))))))).
  discriminate.
Defined.

Lemma getProgress_range_witness :
  exists r,
    Project.getProgress (sample_project 2 3) = Some r /\
    0 <= r <= 100 /\
    (r = 100 <-> (0 < 3)%nat /\ 2%nat = 3%nat) /\
    (r = 0 <-> 2%nat = O).
Proof.
  apply (getProgress_range (sample_project 2 3)). cbn. lia.
Defined.

(** Five hours west of Greenwich.  From 31 January 2024, 08:00 local
    time, the next month is 2 March; from 31 March 2024 the month before
    is 2 March again. *)
Lemma nextMonth_lands_witness :
  exists t',
    CalendarManager.nextMonth (fun _ _ => -18000000) (Some 1706706000000)
      = Some t' /\
    Date.TimeWithinDay (t' + -18000000)
      = Date.TimeWithinDay (1706706000000 + -18000000) /\
    (Date.YearFromTime (t' + -18000000), Date.MonthFromTime (t' + -18000000),
     Date.DateFromTime (t' + -18000000))
    = (2024, 2, 2).
Proof.
  assert (F : fixed_offset (fun _ _ => -18000000) (-18000000))
    by (intros u isUTC; reflexivity).
  assert (O : Z.abs (-18000000) <= Date.msPerDay)
    by (vm_compute; discriminate).
  assert (H : -271820 <= Date.YearFromTime (1706706000000 + -18000000) <= 275757)
    by (vm_compute; split; discriminate).
  exact (nextMonth_lands (fun _ _ => -18000000) (-18000000) 1706706000000 F O H).
Defined.

Lemma prevMonth_lands_witness :
  exists t',
    CalendarManager.prevMonth (fun _ _ => -18000000) (Some 1711861200000)
      = Some t' /\
    Date.TimeWithinDay (t' + -18000000)
      = Date.TimeWithinDay (1711861200000 + -18000000) /\
    (Date.YearFromTime (t' + -18000000), Date.MonthFromTime (t' + -18000000),
     Date.DateFromTime (t' + -18000000))
    = (2024, 2, 2).
Proof.
  assert (F : fixed_offset (fun _ _ => -18000000) (-18000000))
    by (intros u isUTC; reflexivity).
  assert (O : Z.abs (-18000000) <= Date.msPerDay)
    by (vm_compute; discriminate).
  assert (H : -271819 <= Date.YearFromTime (1711861200000 + -18000000) <= 275759)
    by (vm_compute; split; discriminate).
  exact (prevMonth_lands (fun _ _ => -18000000) (-18000000) 1711861200000 F O H).
Defined.

Lemma prevMonth_nextMonth_witness :
  CalendarManager.prevMonth (fun _ _ => -18000000)
    (CalendarManager.nextMonth (fun _ _ => -18000000) (Some 1705323600000))
    = Some 1705323600000 /\
  CalendarManager.nextMonth (fun _ _ => -18000000)
    (CalendarManager.prevMonth (fun _ _ => -18000000) (Some 1705323600000))
    = Some 1705323600000.
Proof.
  assert (F : fixed_offset (fun _ _ => -18000000) (-18000000))
    by (intros u isUTC; reflexivity).
  assert (O : Z.abs (-18000000) <= Date.msPerDay)
    by (vm_compute; discriminate).
  assert (H : -271819 <= Date.YearFromTime (1705323600000 + -18000000) <= 275757)
    by (vm_compute; split; discriminate).
  assert (D : Date.DateFromTime (1705323600000 + -18000000) <= 28)
    by (vm_compute; discriminate).
  exact (prevMonth_nextMonth (fun _ _ => -18000000) (-18000000) 1705323600000
           F O H D).
Defined.

Lemma getMonthData_cell_dates_witness :
  ymd (Date_of_cell (CalendarManager.mkCell (Some 25) 1 2024 false))
    = (Some 2024, Some 1, Some 25) /\
  Date_of_cell (CalendarManager.mkCell (Some 25) 1 2024 false)
    = Date.new 2024 2 (0 + 1 - day_of_week 2024 2 1) /\
  Date.getDay (Date_of_cell (CalendarManager.mkCell (Some 25) 1 2024 false))
    = Some 0.
Proof.
  apply (getMonthData_cell_dates 2024 2 0
           (CalendarManager.mkCell (Some 25) 1 2024 false)).
  - right. lia.
  - lia.
  - reflexivity.
  - cbn. lia.
Defined.

Lemma currentDate_cell_witness :
  CalendarManager.getCurrentYear (Some 1793491200000) = Some 2026 /\
  CalendarManager.getCurrentMonth (Some 1793491200000) = Some 10 /\
  0 <= 10 <= 11 /\
  exists k,
    Z.of_nat k = 0 + 1 - 1 /\
    nth_error (CalendarManager.getMonthData 2026 10) k
      = Some (CalendarManager.mkCell (Some 1) 10 2026 true) /\
    Date.toDateString (Date_of_cell (CalendarManager.mkCell (Some 1) 10 2026 true))
      = "Sun Nov 01 2026".
Proof.
  assert (H : calendar_year (Date.YearFromTime 1793491200000))
    by (right; vm_compute; split; discriminate).
  exact (currentDate_cell 1793491200000 H).
Defined.

Lemma getMonthData_day_numbers_witness :
  map CalendarManager.day (CalendarManager.getMonthData 2024 0)
  = [Some 31]
    ++ map (fun k => Some (1 + Z.of_nat k)) (seq 0 31)
    ++ map (fun k => Some (1 + Z.of_nat k)) (seq 0 10).
Proof.
  apply (getMonthData_day_numbers 2024 0).
  - right. lia.
  - lia.
Defined.

(** Five hours west of Greenwich the task due "2024-01-01" is listed
    for 31 December 2023 (here its local midnight, 05:00 UTC). *)
Lemma getTasksForDate_same_day_witness :
  In (TaskManager.mkView
        (Task.new 3 "3" "1" "Design" "" "To Do" "High" (str "2024-01-01") "")
        "Launch")
     (CalendarManager.getTasksForDate (fun _ _ => -18000000) roomy portfolio
        (Some 1703998800000)).
Proof.
  apply (proj2 (getTasksForDate_same_day (fun _ _ => -18000000) roomy portfolio
                  (Some 1703998800000) _)).
  split; [left; reflexivity|]. split; reflexivity.
Defined.

Lemma getTasksForDate_date_only_witness :
  In (TaskManager.mkView
        (Task.new 3 "3" "1" "Design" "" "To Do" "High" (str "2024-01-01") "")
        "Launch")
     (CalendarManager.getTasksForDate (fun _ _ => -18000000) roomy portfolio
        (Some 1703998800000))
  <-> Date.Day (1703998800000 + -18000000) = 19723 - 1.
Proof.
  apply (getTasksForDate_date_only (fun _ _ => -18000000) (-18000000) roomy
           portfolio _ 19723 1703998800000).
  - intros u isUTC. reflexivity.
  - left. reflexivity.
  - reflexivity.
  - reflexivity.
  - unfold Date.msPerDay. lia.
Defined.

